(** * AI art gallery worker: the admission and fulfilment pipeline

    A shallow embedding of [src/worker.js] (the Cloudflare Worker that
    serves [POST /api/generate], [GET /art/*], [GET /health] and [GET /])
    and of the CORS preflight branch that the later revision of the same
    worker adds in front of the routes.

    Conventions of the embedding.
    - A JavaScript string is a [string]: a sequence of code units below
      256 (Latin-1).  [toLowerCase], [trim], [includes], ... are written
      out for that range.
    - A JavaScript number that only counts (lengths, windows, status codes)
      is an [N]; the daily spend is an IEEE 754 binary64 [float], as in
      the engine.
    - The external collaborators (counter store, generation provider,
      object store, clock) are explicit: the stores are finite maps in a
      [World], and what they answer during one request is an [Ext]
      record.  Every call to a collaborator is recorded in a trace.
    - The provider call [generateImage(prompt, env)] is opaque: it yields
      bytes or throws an error with a message.
    - The counter store answers every call; a call to it that fails is
      outside this model.
    - An [await] that throws outside the [try] block, or a method call on
      a value that has no such method, ends the handler with [Thrown]. *)

From Stdlib Require Import ZArith NArith List String Ascii Strings.Byte Bool Lia Floats.
From stdpp Require Import base option gmap strings.

Set Warnings "-inexact-float,-register-all".

Local Open Scope string_scope.
Local Open Scope N_scope.

(* ================================================================== *)
(** * JavaScript strings *)
(* ================================================================== *)

Module Js.

(** White space as [String.prototype.trim] and [parseInt] see it, within
    Latin-1: TAB, LF, VT, FF, CR, SPACE and NBSP. *)
Definition is_space (c : ascii) : bool :=
  let n := N_of_ascii c in
  ((9 <=? n) && (n <=? 13)) || (n =? 32) || (n =? 160).

Fixpoint trimStart (s : string) : string :=
  match s with
  | EmptyString => EmptyString
  | String c s' => if is_space c then trimStart s' else s
  end.

Fixpoint trimEnd (s : string) : string :=
  match s with
  | EmptyString => EmptyString
  | String c s' =>
      match trimEnd s' with
      | EmptyString => if is_space c then EmptyString else String c EmptyString
      | t => String c t
      end
  end.

Definition trim (s : string) : string := trimEnd (trimStart s).

(** [toLowerCase] on one code unit: A-Z and the Latin-1 capitals
    (U+00C0..U+00DE without the multiplication sign U+00D7). *)
Definition lower_char (c : ascii) : ascii :=
  let n := N_of_ascii c in
  if ((65 <=? n) && (n <=? 90))
     || ((192 <=? n) && (n <=? 222) && negb (n =? 215))
  then ascii_of_N (n + 32) else c.

Fixpoint toLowerCase (s : string) : string :=
  match s with
  | EmptyString => EmptyString
  | String c s' => String (lower_char c) (toLowerCase s')
  end.

Definition startsWith (s p : string) : bool := String.prefix p s.

(** [s.includes(w)]: [w] occurs in [s] at some position. *)
Fixpoint includes (s w : string) : bool :=
  String.prefix w s ||
  match s with
  | EmptyString => false
  | String _ s' => includes s' w
  end.

(** [s.slice(1)]. *)
Definition slice1 (s : string) : string :=
  match s with
  | EmptyString => EmptyString
  | String _ s' => s'
  end.

(** [s.replace(/[:.]/g, "-")]. *)
Fixpoint replace_colon_dot (s : string) : string :=
  match s with
  | EmptyString => EmptyString
  | String c s' =>
      String (if Ascii.eqb c ":" || Ascii.eqb c "." then "-"%char else c)
             (replace_colon_dot s')
  end.

(** [s.split('T')[0]]: the part before the first 'T'. *)
Fixpoint before_T (s : string) : string :=
  match s with
  | EmptyString => EmptyString
  | String c s' => if Ascii.eqb c "T" then EmptyString else String c (before_T s')
  end.

(** Truthiness of a string: non-empty. *)
Definition truthy_string (s : string) : bool :=
  match s with EmptyString => false | _ => true end.

(** ** [String(n)] for a non-negative integer *)

Definition digit_char (d : N) : ascii := ascii_of_N (48 + d mod 10).

Fixpoint digits_fuel (fuel : nat) (n : N) (acc : string) : string :=
  match fuel with
  | O => acc
  | S k =>
      let acc' := String (digit_char n) acc in
      if n <? 10 then acc' else digits_fuel k (n / 10) acc'
  end.

Definition string_of_N (n : N) : string :=
  digits_fuel (S (N.to_nat (N.log2 n))) n EmptyString.

(** ** [parseInt(s)] with the radix left out

    Leading white space is skipped, one sign is read, a [0x]/[0X] prefix
    selects base 16, and the longest run of digits of the base is the
    value; no digit at all is [NaN] ([None]).  The value is kept exact: the
    engine rounds it to a double, which leaves every comparison with an
    integer below 2^53 unchanged. *)

Definition digit_value (base : N) (c : ascii) : option N :=
  let n := N_of_ascii c in
  let v :=
    if (48 <=? n) && (n <=? 57) then Some (n - 48)
    else if (97 <=? n) && (n <=? 122) then Some (n - 87)
    else if (65 <=? n) && (n <=? 90) then Some (n - 55)
    else None in
  match v with
  | Some d => if d <? base then Some d else None
  | None => None
  end.

Fixpoint read_digits (base : N) (s : string) (acc : option N) : option N :=
  match s with
  | EmptyString => acc
  | String c s' =>
      match digit_value base c with
      | Some d => read_digits base s' (Some (base * default 0 acc + d))
      | None => acc
      end
  end.

Definition parseInt (s : string) : option Z :=
  let s1 := trimStart s in
  let '(neg, s2) :=
    match s1 with
    | String "-" r => (true, r)
    | String "+" r => (false, r)
    | _ => (false, s1)
    end in
  let '(base, s3) :=
    match s2 with
    | String "0" (String "x" r) => (16, r)
    | String "0" (String "X" r) => (16, r)
    | _ => (10, s2)
    end in
  match read_digits base s3 None with
  | Some v => Some (if neg : bool then (- Z.of_N v)%Z else Z.of_N v)
  | None => None
  end.

End Js.

(* ================================================================== *)
(** * The clock: [new Date().toISOString()] *)
(* ================================================================== *)

Module Clock.

(** A reading of the clock is the number of milliseconds since the epoch.
    The conversion to a civil date is the usual era/day-of-era computation;
    the format is the four-digit-year form, which is what [toISOString]
    prints for the years 1970 to 9999. *)

Definition pad2 (n : N) : string :=
  String (Js.digit_char (n / 10)) (String (Js.digit_char n) EmptyString).

Definition pad3 (n : N) : string :=
  String (Js.digit_char (n / 100)) (pad2 n).

Definition pad4 (n : N) : string :=
  String (Js.digit_char (n / 1000)) (pad3 n).

Definition civil_from_days (days : N) : N * N * N :=
  let z := days + 719468 in
  let era := z / 146097 in
  let doe := z mod 146097 in
  let yoe := (doe + doe / 36524 - doe / 1460 - doe / 146096) / 365 in
  let y := yoe + era * 400 in
  let doy := doe + yoe / 100 - (365 * yoe + yoe / 4) in
  let mp := (5 * doy + 2) / 153 in
  let d := doy - (153 * mp + 2) / 5 + 1 in
  let m := if mp <? 10 then mp + 3 else mp - 9 in
  (if m <=? 2 then y + 1 else y, m, d).

Definition toISOString (ms : N) : string :=
  let '(y, m, d) := civil_from_days (ms / 86400000) in
  let r := ms mod 86400000 in
  pad4 y ++ "-" ++ pad2 m ++ "-" ++ pad2 d ++ "T"
  ++ pad2 (r / 3600000) ++ ":" ++ pad2 (r / 60000 mod 60) ++ ":"
  ++ pad2 (r / 1000 mod 60) ++ "." ++ pad3 (r mod 1000) ++ "Z".

End Clock.

(* ================================================================== *)
(** * Data model *)
(* ================================================================== *)

(** The value [await request.json()] resolves to. *)
Inductive JsValue : Type :=
  | JNull
  | JBool (b : bool)
  | JNum (x : float)
  | JStr (s : string)
  | JArr (items : list JsValue)
  | JObj (props : list (string * JsValue)).

Inductive JsonResult : Type :=
  | JsonOk (v : JsValue)
  | JsonFail.

Inductive JsError : Type :=
  | TypeError.

Record Url : Type := mkUrl {
  protocol : string;      (* with its colon, as [url.protocol] *)
  host : string;
  pathname : string
}.

(** [request.headers] is keyed by lower-case header name. *)
Record Request : Type := mkRequest {
  req_method : string;
  req_url : Url;
  req_headers : gmap string string;
  req_body : list byte;           (* the bytes actually sent *)
  req_json : JsonResult           (* what [request.json()] makes of them *)
}.

Record Env : Type := mkEnv {
  DEMO_API_KEY : option string;
  UPSTASH_REDIS_REST_URL : option string;
  UPSTASH_REDIS_REST_TOKEN : option string;
  STABILITY_API_KEY : option string
}.

Inductive Body : Type :=
  | NoBody
  | Text (s : string)
  | Json (fields : list (string * string))   (* JSON.stringify of an object *)
  | Bytes (b : list byte)
  | Html.                                     (* the embedded document *)

Record Response : Type := mkResponse {
  status : N;
  headers : list (string * string);
  body : Body
}.

(** An object of the R2 bucket [env.ART]. *)
Record R2Object : Type := mkR2Object {
  obj_body : list byte;
  contentType : string;
  cacheControl : string;
  httpEtag : string
}.

(** The external stores.  [windows] are the rate-limit counters of the
    counter store and [ledger] its daily spend cells; a spend cell holds
    the double that [parseFloat] reads back from it ([String] of a finite
    double followed by [parseFloat] is that double again). *)
Record World : Type := mkWorld {
  windows : gmap string N;
  ledger : gmap string float;
  ART : gmap string R2Object
}.

Inductive GenResult : Type :=
  | Generated (bytes : list byte)
  | GenFailed (message : option string).   (* [error.message] *)

Inductive PutResult : Type :=
  | Stored (etag : string)
  | PutFailed (message : option string).

(** What the collaborators answer during one request. *)
Record Ext : Type := mkExt {
  now_ip : N;          (* the clock inside [ipLimiter.limit] *)
  now_global : N;      (* the clock inside [globalLimiter.limit] *)
  now_check : N;       (* [new Date()] of the budget check *)
  now_spend : N;       (* [new Date()] of the ledger update *)
  now_store : N;       (* [new Date()] that names the history object *)
  now_health : N;      (* [new Date()] of the health report *)
  generateImage : GenResult;
  put_history : PutResult;
  put_latest : PutResult;
  latest_settles_first : bool
}.

(** Calls to the collaborators, in the order they are issued. *)
Inductive Event : Type :=
  | CallLimit (prefix identifier : string)
  | CallRedisGet (key : string)
  | CallRedisSet (key : string)
  | CallJson
  | CallGenerate (prompt : string)
  | CallPut (key : string)
  | CallGet (key : string).

Inductive Outcome : Type :=
  | Returned (r : Response)
  | Thrown (e : JsError).

Definition Result : Type := Outcome * World * list Event.

(* ================================================================== *)
(** * The counter store: fixed-window limiter and spend cells *)
(* ================================================================== *)

Module Upstash.

Record LimitResult : Type := mkLimitResult {
  success : bool;
  remaining : N;
  reset : N
}.

(** Modelled from the spec: [Ratelimit.fixedWindow(tokens, window).limit(id)]
    of the rate-limit package, which the worker imports and the repository
    does not contain.  The window key is the scope name, the identifier and
    floor(now / window length); the counter is incremented and read in one
    step, also when the limit is already exceeded.

    Expiry.  The store drops a counter at or after the end of its window.
    The map below is not swept: the key carries the index of the window, so
    a call in a later window reads another cell, absent at first, and
    counts from zero again.  What the map holds for a window that has
    ended is therefore without meaning; only the cell of the window of
    [now] is the counter the spec speaks of, and nothing is stated here
    about the cells of a store over time. *)
Definition limit (prefix : string) (tokens window_ms : N)
    (identifier : string) (now : N) (store : gmap string N)
    : LimitResult * gmap string N :=
  let bucket := now / window_ms in
  let key := prefix ++ ":" ++ identifier ++ ":" ++ Js.string_of_N bucket in
  let used := default 0 (store !! key) + 1 in
  ({| success := used <=? tokens;
      remaining := tokens - used;
      reset := (bucket + 1) * window_ms |},
   <[key := used]> store).

(** The key of the window that [limit] counts in. *)
Definition window_key (prefix identifier : string) (window_ms now : N)
    : string :=
  prefix ++ ":" ++ identifier ++ ":" ++ Js.string_of_N (now / window_ms).

(** [parseFloat(await redis.get(key) || "0")]. *)
Definition get_spend (key : string) (cells : gmap string float) : float :=
  default 0%float (cells !! key).

End Upstash.

(* ================================================================== *)
(** * [src/worker.js] *)
(* ================================================================== *)

Module Worker.

(** ** [SECURITY_CONFIG] *)

Definition MAX_PROMPT_LENGTH : N := 500.
Definition MIN_PROMPT_LENGTH : N := 3.
Definition MAX_REQUEST_SIZE : Z := 10000.
Definition DAILY_SPENDING_CAP : float := 10.00%float.
Definition GLOBAL_RATE_LIMIT : N := 100.
Definition BLOCKED_WORDS : list string :=
  [ "nude"; "nsfw"; "naked"; "porn"; "xxx"; "sex"; "explicit";
    "gore"; "violence"; "kill"; "death"; "suicide"; "weapon" ].

Definition costPerImage : float := 0.004%float.
Definition MAX_IMAGE_BYTES : N := 5 * 1024 * 1024.

(** ** Small helpers for JavaScript's conventions *)

(** Truthiness of an optional string (a header, an environment value). *)
Definition truthy (v : option string) : bool :=
  match v with
  | Some s => Js.truthy_string s
  | None => false
  end.

(** [v?.includes(w)] read as a condition: absent is falsy. *)
Definition opt_includes (v : option string) (w : string) : bool :=
  match v with
  | Some s => Js.includes s w
  | None => false
  end.

(** [a !== b] for a header value that is present and an environment
    value. *)
Definition strict_neq (a : string) (b : option string) : bool :=
  match b with
  | Some s => negb (String.eqb a s)
  | None => true
  end.

(** The header that [new Response(text, { status })] gives a response
    whose body is a string and whose [init] names no header. *)
Definition text_headers : list (string * string) :=
  [("content-type", "text/plain;charset=UTF-8")].

Definition json_headers : list (string * string) :=
  [("content-type", "application/json")].

Definition error_response (st : N) (kind message : string) : Response :=
  {| status := st;
     headers := json_headers;
     body := Json [("error", kind); ("message", message)] |}.

Definition header (req : Request) (name : string) : option string :=
  req_headers req !! name.

Definition counter_store_configured (env : Env) : bool :=
  truthy (UPSTASH_REDIS_REST_URL env) && truthy (UPSTASH_REDIS_REST_TOKEN env).

(** ** Stage 0: request size *)

Definition too_large (req : Request) : bool :=
  match header req "content-length" with
  | Some cl =>
      Js.truthy_string cl &&
      match Js.parseInt cl with
      | Some n => (MAX_REQUEST_SIZE <? n)%Z
      | None => false
      end
  | None => false
  end.

Definition size_check (req : Request) : option Response :=
  if too_large req
  then Some (error_response 413 "request_too_large"
               "Request body exceeds 10KB limit")
  else None.

(** ** Stage 1: authentication *)

Definition isSameOrigin (req : Request) : bool :=
  opt_includes (header req "origin") (host (req_url req))
  || opt_includes (header req "referer") (host (req_url req)).

Definition key_rejected (req : Request) (env : Env) : bool :=
  match header req "x-api-key" with
  | Some k => negb (Js.truthy_string k) || strict_neq k (DEMO_API_KEY env)
  | None => true
  end.

Definition unauthorized (req : Request) (env : Env) : bool :=
  negb (isSameOrigin req) && key_rejected req env.

Definition unauthorized_response : Response :=
  {| status := 401;
     headers := json_headers;
     body := Json [("error", "unauthorized")] |}.

Definition auth_check (req : Request) (env : Env) : option Response :=
  if unauthorized req env then Some unauthorized_response else None.

(** ** Stage 2: rate limits and daily budget *)

Definition spend_key (now : N) : string :=
  "spend:" ++ Js.before_T (Clock.toISOString now).

Definition client_ip (req : Request) : string :=
  match header req "cf-connecting-ip" with
  | Some ip => if Js.truthy_string ip then ip else "unknown"
  | None => "unknown"
  end.

Definition rate_limit_response (r : Upstash.LimitResult) : Response :=
  {| status := 429;
     headers :=
       [("content-type", "application/json");
        ("x-ratelimit-remaining", Js.string_of_N (Upstash.remaining r));
        ("x-ratelimit-reset", Js.string_of_N (Upstash.reset r))];
     body :=
       Json [("error", "rate_limit_exceeded");
             ("message",
              "Too many requests from your IP. Try again in 1 minute.")] |}.

Definition global_limit_response : Response :=
  error_response 429 "global_rate_limit_exceeded"
    "System is currently at capacity. Please try again later.".

Definition budget_response : Response :=
  error_response 429 "daily_budget_exceeded"
    "Daily spending cap of $10 reached. Resets at midnight UTC.".

Definition budget_exceeded (dailySpend : float) : bool :=
  PrimFloat.leb DAILY_SPENDING_CAP dailySpend.

Definition rate_limit_stage (req : Request) (env : Env) (ext : Ext)
    (w : World) : option Response * World * list Event :=
  if counter_store_configured env then
    let ip := client_ip req in
    let '(ipr, win1) :=
      Upstash.limit "rl:ip" 10 60000 ip (now_ip ext) (windows w) in
    let w1 := {| windows := win1; ledger := ledger w; ART := ART w |} in
    let t1 := [CallLimit "rl:ip" ip] in
    if negb (Upstash.success ipr) then
      (Some (rate_limit_response ipr), w1, t1)
    else
      let '(glr, win2) :=
        Upstash.limit "rl:global" GLOBAL_RATE_LIMIT 3600000 "all"
          (now_global ext) win1 in
      let w2 := {| windows := win2; ledger := ledger w; ART := ART w |} in
      let t2 := (t1 ++ [CallLimit "rl:global" "all"])%list in
      if negb (Upstash.success glr) then
        (Some global_limit_response, w2, t2)
      else
        let spendKey := spend_key (now_check ext) in
        let dailySpend := Upstash.get_spend spendKey (ledger w) in
        let t3 := (t2 ++ [CallRedisGet spendKey])%list in
        if budget_exceeded dailySpend then
          (Some budget_response, w2, t3)
        else (None, w2, t3)
  else (None, w, []).

(** ** Stages 3 and 4: body and prompt *)

(** [body.prompt]: reading a property of [null] throws; every other JSON
    value answers, with [undefined] ([None]) unless it is an object that
    has the property. *)
Definition body_prompt (v : JsValue) : JsError + option JsValue :=
  match v with
  | JNull => inl TypeError
  | JObj props =>
      inr (snd <$> List.find (fun kv => String.eqb (fst kv) "prompt") props)
  | _ => inr None
  end.

Definition js_truthy (v : JsValue) : bool :=
  match v with
  | JNull => false
  | JBool b => b
  | JNum x => negb (PrimFloat.eqb x 0%float) && negb (PrimFloat.is_nan x)
  | JStr s => Js.truthy_string s
  | JArr _ => true
  | JObj _ => true
  end.

(** [p || ""]. *)
Definition or_empty (p : option JsValue) : JsValue :=
  match p with
  | Some v => if js_truthy v then v else JStr ""
  | None => JStr ""
  end.

(** [v.trim()]: only a string has the method. *)
Definition call_trim (v : JsValue) : JsError + string :=
  match v with
  | JStr s => inr (Js.trim s)
  | _ => inl TypeError
  end.

(** [(body.prompt || "").trim()]. *)
Definition prompt_of (v : JsValue) : JsError + string :=
  match body_prompt v with
  | inl e => inl e
  | inr p => call_trim (or_empty p)
  end.

Definition invalid_prompt_response : Response :=
  error_response 400 "invalid_prompt"
    ("Prompt must be at least " ++ Js.string_of_N MIN_PROMPT_LENGTH
     ++ " characters").

Definition prompt_too_long_response : Response :=
  error_response 400 "prompt_too_long"
    ("Prompt must be less than " ++ Js.string_of_N MAX_PROMPT_LENGTH
     ++ " characters").

Definition str_length (s : string) : N := N.of_nat (String.length s).

Definition validate_prompt (prompt : string) : option Response :=
  if negb (Js.truthy_string prompt) || (str_length prompt <? MIN_PROMPT_LENGTH)
  then Some invalid_prompt_response
  else if MAX_PROMPT_LENGTH <? str_length prompt
  then Some prompt_too_long_response
  else None.

(** ** Stage 5: content filter *)

Definition foundBlockedWord (prompt : string) : option string :=
  let promptLower := Js.toLowerCase prompt in
  List.find (fun word => Js.includes promptLower word) BLOCKED_WORDS.

Definition inappropriate_response : Response :=
  error_response 400 "inappropriate_prompt"
    "Prompt contains inappropriate content".

Definition content_filter (prompt : string) : option Response :=
  if truthy (foundBlockedWord prompt) then Some inappropriate_response
  else None.

(** ** Stages 6 to 9: generate, record the spend, store, answer *)

Definition image_too_large_response : Response :=
  error_response 500 "image_too_large" "Generated image exceeds size limit".

(** The [catch] block: the response is chosen by what the message of the
    caught error contains. *)
Definition catch_response (message : option string) : Response :=
  if opt_includes message "insufficient_credits" || opt_includes message "402"
  then error_response 402 "insufficient_credits"
         "AI provider credits exhausted. Please contact administrator."
  else if opt_includes message "timeout" || opt_includes message "ETIMEDOUT"
  then error_response 504 "timeout" "Request timed out. Please try again."
  else if opt_includes message "rate_limit" || opt_includes message "429"
  then error_response 429 "ai_provider_rate_limit"
         "AI provider is rate limiting. Please wait a moment."
  else if opt_includes message "invalid_prompt" || opt_includes message "400"
  then error_response 400 "invalid_prompt_for_provider"
         "Prompt was rejected by AI provider. Try different wording."
  else error_response 500 "generation_failed"
         "Image generation failed. Please try again.".

Definition latestKey : string := "art/latest.jpg".

Definition historyKey_at (now : N) : string :=
  "art/" ++ Js.replace_colon_dot (Clock.toISOString now) ++ ".jpg".

(** [env.ART.put(key, bytes, {httpMetadata})] with the store's answer. *)
Definition put (key : string) (bytes : list byte) (ct cc : string)
    (r : PutResult) (bucket : gmap string R2Object) : gmap string R2Object :=
  match r with
  | Stored etag => <[key := mkR2Object bytes ct cc etag]> bucket
  | PutFailed _ => bucket
  end.

Definition put_history_object (key : string) (bytes : list byte) (ext : Ext)
    (bucket : gmap string R2Object) : gmap string R2Object :=
  put key bytes "image/jpeg" "public, max-age=31536000, immutable"
    (put_history ext) bucket.

Definition put_latest_object (bytes : list byte) (ext : Ext)
    (bucket : gmap string R2Object) : gmap string R2Object :=
  put latestKey bytes "image/jpeg" "no-store, max-age=0"
    (put_latest ext) bucket.

(** [Promise.all] of the two writes: both are issued, the bucket takes
    them in the order they settle, and the first rejection to settle, if
    any, is what the [await] throws. *)
Definition store_both (historyKey : string) (bytes : list byte) (ext : Ext)
    (bucket : gmap string R2Object) : gmap string R2Object :=
  if latest_settles_first ext
  then put_history_object historyKey bytes ext (put_latest_object bytes ext bucket)
  else put_latest_object bytes ext (put_history_object historyKey bytes ext bucket).

Definition rejection (ext : Ext) : option (option string) :=
  match put_history ext, put_latest ext with
  | Stored _, Stored _ => None
  | PutFailed m, Stored _ => Some m
  | Stored _, PutFailed m => Some m
  | PutFailed mh, PutFailed ml =>
      Some (if latest_settles_first ext then ml else mh)
  end.

Definition url_origin (u : Url) : string := protocol u ++ "//" ++ host u.

Definition success_response (u : Url) (historyKey prompt : string) : Response :=
  {| status := 200;
     headers := json_headers;
     body :=
       Json [("latestUrl", url_origin u ++ "/art/latest.jpg");
             ("historyUrl", url_origin u ++ "/" ++ historyKey);
             ("prompt", prompt)] |}.

(** Step 7: read the cell of the day, write it back with the cost added. *)
Definition update_spend (env : Env) (ext : Ext) (cells : gmap string float)
    : gmap string float * list Event :=
  if counter_store_configured env then
    let spendKey := spend_key (now_spend ext) in
    let currentSpend := Upstash.get_spend spendKey cells in
    (<[spendKey := (currentSpend + costPerImage)%float]> cells,
     [CallRedisGet spendKey; CallRedisSet spendKey])
  else (cells, []).

Definition generate_and_store (req : Request) (env : Env) (ext : Ext)
    (prompt : string) (w : World) (t : list Event) : Result :=
  let t6 := (t ++ [CallGenerate prompt])%list in
  match generateImage ext with
  | GenFailed message => (Returned (catch_response message), w, t6)
  | Generated imageBytes =>
      if MAX_IMAGE_BYTES <? N.of_nat (length imageBytes)
      then (Returned image_too_large_response, w, t6)
      else
        let '(cells, t7) := update_spend env ext (ledger w) in
        let historyKey := historyKey_at (now_store ext) in
        let w8 := {| windows := windows w;
                     ledger := cells;
                     ART := store_both historyKey imageBytes ext (ART w) |} in
        let t8 := (t6 ++ t7 ++ [CallPut historyKey; CallPut latestKey])%list in
        match rejection ext with
        | Some message => (Returned (catch_response message), w8, t8)
        | None =>
            (Returned (success_response (req_url req) historyKey prompt),
             w8, t8)
        end
  end.

(** ** The route [POST /api/generate] *)

(** Stages 3 to 9, for a request that the first stages let through with
    the stores in state [w2] and the calls [t2] made so far. *)
Definition fulfil (req : Request) (env : Env) (ext : Ext) (w2 : World)
    (t2 : list Event) : Result :=
  let t3 := (t2 ++ [CallJson])%list in
  match req_json req with
  | JsonFail =>
      (Returned (error_response 400 "invalid_json"
                   "Request body must be valid JSON"), w2, t3)
  | JsonOk body =>
  match prompt_of body with
  | inl e => (Thrown e, w2, t3)
  | inr prompt =>
  match validate_prompt prompt with
  | Some r => (Returned r, w2, t3)
  | None =>
  match content_filter prompt with
  | Some r => (Returned r, w2, t3)
  | None => generate_and_store req env ext prompt w2 t3
  end end end end.

Definition handle_generate (req : Request) (env : Env) (ext : Ext) (w : World)
    : Result :=
  match size_check req with
  | Some r => (Returned r, w, [])
  | None =>
  match auth_check req env with
  | Some r => (Returned r, w, [])
  | None =>
  let '(limited, w2, t2) := rate_limit_stage req env ext w in
  match limited with
  | Some r => (Returned r, w2, t2)
  | None => fulfil req env ext w2 t2
  end end end.

(** ** The other routes *)

Definition serve_art (req : Request) (w : World) : Result :=
  let key := Js.slice1 (pathname (req_url req)) in
  match ART w !! key with
  | None =>
      (Returned
         {| status := 404; headers := text_headers;
            body := Text "Image not found" |},
       w, [CallGet key])
  | Some object =>
      (Returned
         {| status := 200;
            headers :=
              [("content-type", contentType object);
               ("cache-control", cacheControl object);
               ("etag", httpEtag object);
               ("access-control-allow-origin", "*")];
            body := Bytes (obj_body object) |},
       w, [CallGet key])
  end.

Definition health (env : Env) (ext : Ext) : Response :=
  {| status := 200;
     headers := json_headers;
     body :=
       Json [("status", "ok");
             ("timestamp", Clock.toISOString (now_health ext));
             ("version", "1.0.0");
             ("rateLimit",
              if counter_store_configured env then "enabled" else "disabled")] |}.

Definition frontend : Response :=
  {| status := 200;
     headers := [("content-type", "text/html;charset=UTF-8")];
     body := Html |}.

Definition not_found : Response :=
  {| status := 404; headers := text_headers; body := Text "Not found" |}.

(** ** [fetch(request, env)] *)

Definition fetch (req : Request) (env : Env) (ext : Ext) (w : World) : Result :=
  let url := req_url req in
  if String.eqb (req_method req) "POST"
     && String.eqb (pathname url) "/api/generate"
  then handle_generate req env ext w
  else if String.eqb (req_method req) "GET"
          && Js.startsWith (pathname url) "/art/"
  then serve_art req w
  else if String.eqb (req_method req) "GET" && String.eqb (pathname url) "/health"
  then (Returned (health env ext), w, [])
  else if String.eqb (req_method req) "GET" && String.eqb (pathname url) "/"
  then (Returned frontend, w, [])
  else (Returned not_found, w, []).

End Worker.

(* ================================================================== *)
(** * The later revision of the worker: CORS preflight *)
(* ================================================================== *)

Module WorkerRevision.

(** The revision answers every [OPTIONS] request before it looks at any
    route; its generation route is the one of [Worker]. *)
Definition preflight_response : Response :=
  {| status := 204;
     headers :=
       [("Access-Control-Allow-Origin", "*");
        ("Access-Control-Allow-Methods", "GET, POST, OPTIONS");
        ("Access-Control-Allow-Headers", "Content-Type, X-API-Key");
        ("Access-Control-Max-Age", "86400")];
     body := NoBody |}.

(** The first statement of the revision's [fetch]: [Some] response when
    the request is answered there, [None] when control goes on to the
    routes. *)
Definition preflight (req : Request) : option Response :=
  if String.eqb (req_method req) "OPTIONS" then Some preflight_response
  else None.

End WorkerRevision.

(* ================================================================== *)
(** * Observations on responses and runs *)
(* ================================================================== *)

(** The machine-readable kind of an error response: the [error] field of
    its JSON body. *)
Definition error_kind (r : Response) : option string :=
  match body r with
  | Json (("error", kind) :: _) => Some kind
  | _ => None
  end.

(** A field of a JSON body. *)
Definition json_field (name : string) (r : Response) : option string :=
  match body r with
  | Json fields =>
      snd <$> List.find (fun kv => String.eqb (fst kv) name) fields
  | _ => None
  end.

Definition outcome_of (r : Result) : Outcome := fst (fst r).
Definition world_of (r : Result) : World := snd (fst r).
Definition trace_of (r : Result) : list Event := snd r.

Definition is_generate_call (e : Event) : bool :=
  match e with
  | CallGenerate _ => true
  | _ => false
  end.

(** The Generation Client is not called in a trace. *)
Definition no_generation (t : list Event) : Prop :=
  forallb (fun e => negb (is_generate_call e)) t = true.

(** Requests handled one after the other by the same deployment: each
    request comes with what the collaborators answer while it is handled,
    and meets the world the previous one left. *)
Fixpoint run (env : Env) (steps : list (Request * Ext)) (w : World) : World :=
  match steps with
  | [] => w
  | (req, ext) :: rest => run env rest (world_of (Worker.fetch req env ext w))
  end.

(** The spend cell after [n] ledger updates (step 7) of one deployment. *)
Fixpoint ledger_after (n : nat) (env : Env) (ext : Ext)
    (cells : gmap string float) : gmap string float :=
  match n with
  | O => cells
  | S k => ledger_after k env ext (fst (Worker.update_spend env ext cells))
  end.

(** The message of a caught error contains none of the patterns that the
    [catch] block looks for. *)
Definition no_provider_pattern (message : option string) : bool :=
  forallb (fun pat => negb (Worker.opt_includes message pat))
    ["insufficient_credits"; "402"; "timeout"; "ETIMEDOUT";
     "rate_limit"; "429"; "invalid_prompt"; "400"].

(** The calls of a request whose budget check was performed, and what
    they did to the windows: the per-caller window and then the global
    window were incremented once, and only then the spend cell was read. *)
Definition counted_before_budget_check (req : Request) (ext : Ext)
    (w w' : World) (t : list Event) : Prop :=
  t = [CallLimit "rl:ip" (Worker.client_ip req);
       CallLimit "rl:global" "all";
       CallRedisGet (Worker.spend_key (now_check ext))]
  /\ windows w'
       !! Upstash.window_key "rl:ip" (Worker.client_ip req) 60000 (now_ip ext)
     = Some (default 0
               (windows w
                  !! Upstash.window_key "rl:ip" (Worker.client_ip req) 60000
                       (now_ip ext)) + 1)
  /\ windows w'
       !! Upstash.window_key "rl:global" "all" 3600000 (now_global ext)
     = Some (default 0
               (windows w
                  !! Upstash.window_key "rl:global" "all" 3600000
                       (now_global ext)) + 1).

(** A successful generation: a [POST /api/generate] answered 200, with
    the bytes the provider produced for it. *)
Definition successful_generation (req : Request) (env : Env) (ext : Ext)
    (w : World) (bytes : list byte) : Prop :=
  req_method req = "POST"
  /\ pathname (req_url req) = "/api/generate"
  /\ generateImage ext = Generated bytes
  /\ exists r, outcome_of (Worker.fetch req env ext w) = Returned r
               /\ status r = 200.

(** Every request of a run is a successful generation. *)
Fixpoint all_successful (env : Env) (steps : list (Request * Ext)) (w : World)
    : Prop :=
  match steps with
  | [] => True
  | (req, ext) :: rest =>
      (exists bytes, successful_generation req env ext w bytes)
      /\ all_successful env rest (world_of (Worker.fetch req env ext w))
  end.

(** None of the steps names its history object like the given key. *)
Definition other_history_keys (key : string) (steps : list (Request * Ext))
    : Prop :=
  Forall (fun step => Worker.historyKey_at (now_store (snd step)) <> key) steps.

(** The cost added [n] times to a spend, one binary64 addition each. *)
Fixpoint add_cost (n : nat) (spend : float) : float :=
  match n with
  | O => spend
  | S k => add_cost k (spend + Worker.costPerImage)%float
  end.

(** The full URL a request was sent to, without query. *)
Definition href (u : Url) : string := Worker.url_origin u ++ pathname u.

(** A word without white space: trimming around it cannot cut into it. *)
Fixpoint spaceless (w : string) : bool :=
  match w with
  | EmptyString => true
  | String c w' => negb (Js.is_space c) && spaceless w'
  end.

Definition solid (w : string) : bool := Js.truthy_string w && spaceless w.

(** A presented credential that exactly matches the configured secret,
    read literally: an [x-api-key] header is present and equals the
    secret. *)
Definition credential_matches (req : Request) (env : Env) : Prop :=
  exists k, Worker.header req "x-api-key" = Some k /\ DEMO_API_KEY env = Some k.

(** The same with the guard of the code: the presented key is not empty. *)
Definition credential_accepted (req : Request) (env : Env) : Prop :=
  exists k, k <> "" /\ Worker.header req "x-api-key" = Some k
            /\ DEMO_API_KEY env = Some k.

(** ** The same host, in the words of the specification

    "The request's origin/referrer indicates the same host as the service
    itself": the header is the text of a URL (an origin is one without a
    path) whose host is [url.host].  The host of such a text stands
    between ["://"] and the next ["/"], ["?"] or ["#"], after any user
    information. *)

Definition ends_authority (c : ascii) : bool :=
  Ascii.eqb c "/" || Ascii.eqb c "?" || Ascii.eqb c "#".

(** What follows the first ["://"]. *)
Fixpoint after_scheme (s : string) : option string :=
  if String.prefix "://" s
  then Some (Js.slice1 (Js.slice1 (Js.slice1 s)))
  else match s with
       | EmptyString => None
       | String _ s' => after_scheme s'
       end.

Fixpoint authority (s : string) : string :=
  match s with
  | EmptyString => EmptyString
  | String c s' =>
      if ends_authority c then EmptyString else String c (authority s')
  end.

(** The authority after its last ["@"]. *)
Fixpoint without_userinfo (a : string) : string :=
  match a with
  | EmptyString => EmptyString
  | String _ a' => if Js.includes a "@" then without_userinfo a' else a
  end.

Definition host_of (v : string) : option string :=
  match after_scheme v with
  | Some r => Some (without_userinfo (authority r))
  | None => None
  end.

(** The header is present and the host of its URL is the host of [u]. *)
Definition names_host (v : option string) (u : Url) : bool :=
  match v with
  | Some s =>
      match host_of s with
      | Some h => String.eqb h (host u)
      | None => false
      end
  | None => false
  end.

Definition same_host (req : Request) : bool :=
  names_host (Worker.header req "origin") (req_url req)
  || names_host (Worker.header req "referer") (req_url req).

(** The header is absent or does not contain the host of [u] anywhere. *)
Definition silent_on_host (v : option string) (u : Url) : bool :=
  match v with
  | Some s => negb (Js.includes s (host u))
  | None => true
  end.

(** Each of the two headers names the host of the service or is silent
    on it: none mentions the host without naming it. *)
Definition plainly_stated (req : Request) : bool :=
  (names_host (Worker.header req "origin") (req_url req)
   || silent_on_host (Worker.header req "origin") (req_url req))
  && (names_host (Worker.header req "referer") (req_url req)
      || silent_on_host (Worker.header req "referer") (req_url req)).

(** The status of an outcome; [None] for an uncaught error. *)
Definition status_of (o : Outcome) : option N :=
  match o with
  | Returned r => Some (status r)
  | Thrown _ => None
  end.

(** The statuses that a run of requests is answered with, in order. *)
Fixpoint statuses (env : Env) (steps : list (Request * Ext)) (w : World)
    : list (option N) :=
  match steps with
  | [] => []
  | (req, ext) :: rest =>
      let res := Worker.fetch req env ext w in
      status_of (outcome_of res) :: statuses env rest (world_of res)
  end.

(* ================================================================== *)
(** * Concrete requests and answers used in the examples *)
(* ================================================================== *)

Module Sample.

Definition service (path : string) : Url :=
  {| protocol := "https:"; host := "gallery.example.dev"; pathname := path |}.

Definition post_generate (hs : gmap string string) (bytes : list byte)
    (j : JsonResult) : Request :=
  {| req_method := "POST"; req_url := service "/api/generate";
     req_headers := hs; req_body := bytes; req_json := j |}.

Definition get (path : string) : Request :=
  {| req_method := "GET"; req_url := service path;
     req_headers := ∅; req_body := []; req_json := JsonFail |}.

Definition same_origin : gmap string string :=
  {[ "origin" := "https://gallery.example.dev" ]}.

Definition with_key (k : string) : gmap string string :=
  {[ "x-api-key" := k ]}.

Definition prompt_body (p : JsValue) : JsonResult :=
  JsonOk (JObj [("prompt", p)]).

(** No counter store configured. *)
Definition env_open (secret : option string) : Env :=
  {| DEMO_API_KEY := secret;
     UPSTASH_REDIS_REST_URL := None;
     UPSTASH_REDIS_REST_TOKEN := None;
     STABILITY_API_KEY := Some "sk-test" |}.

(** Counter store configured. *)
Definition env_limited (secret : option string) : Env :=
  {| DEMO_API_KEY := secret;
     UPSTASH_REDIS_REST_URL := Some "https://redis.example.dev";
     UPSTASH_REDIS_REST_TOKEN := Some "token";
     STABILITY_API_KEY := Some "sk-test" |}.

Definition image : list byte := [xff; xd8; xff; xe0].

(** Everything happens at 2024-01-01T00:01:00.123Z; the provider returns
    [image] and both writes are stored. *)
Definition ext_ok : Ext :=
  {| now_ip := 1704067260123; now_global := 1704067260123;
     now_check := 1704067260123; now_spend := 1704067260123;
     now_store := 1704067260123; now_health := 1704067260123;
     generateImage := Generated image;
     put_history := Stored "etag-h"; put_latest := Stored "etag-l";
     latest_settles_first := false |}.

Definition empty_world : World :=
  {| windows := ∅; ledger := ∅; ART := ∅ |}.

Fixpoint filler (n : nat) : string :=
  match n with
  | O => EmptyString
  | S k => String "a" (filler k)
  end.

(** A request from the bundled frontend with the given prompt. *)
Definition frontend_request (p : JsValue) : Request :=
  post_generate same_origin [] (prompt_body p).

(** 501 characters, with a denylisted word at the front. *)
Definition long_denylisted_prompt : string := "kill" ++ filler 497.

(** An empty key presented against an empty secret, from another origin. *)
Definition empty_key_request : Request :=
  post_generate (with_key "") [] JsonFail.

(** The right key presented from another origin. *)
Definition keyed_request (j : JsonResult) : Request :=
  post_generate (with_key "s3cret") [] j.

(** 20001 bytes sent with the right key and no [content-length] header. *)
Definition undeclared_large_request : Request :=
  post_generate (with_key "s3cret") (replicate (N.to_nat 20001) x00) JsonFail.

(** The same one second later, with another image. *)
Definition image2 : list byte := [xff; xd8; xff; xe1; x00].

Definition ext_later : Ext :=
  {| now_ip := 1704067261123; now_global := 1704067261123;
     now_check := 1704067261123; now_spend := 1704067261123;
     now_store := 1704067261123; now_health := 1704067261123;
     generateImage := Generated image2;
     put_history := Stored "etag-h2"; put_latest := Stored "etag-l2";
     latest_settles_first := true |}.

Definition two_generations : list (Request * Ext) :=
  [(frontend_request (JStr "a cat"), ext_ok);
   (frontend_request (JStr "a dog"), ext_later)].

(** The provider answers, the history write is stored, and the write of
    the latest object fails with a message that mentions status 429. *)
Definition ext_latest_put_fails : Ext :=
  {| now_ip := 1704067260123; now_global := 1704067260123;
     now_check := 1704067260123; now_spend := 1704067260123;
     now_store := 1704067260123; now_health := 1704067260123;
     generateImage := Generated image;
     put_history := Stored "etag-h";
     put_latest := PutFailed (Some "put art/latest.jpg: 429 Too Many Requests");
     latest_settles_first := false |}.

(** A request from another site, without a key. *)
Definition foreign_origin_request : Request :=
  post_generate {[ "origin" := "https://gallery.example.net" ]} []
    (prompt_body (JStr "a cat")).

(** A second generation that is stored in the same millisecond as the
    one of [ext_ok], with another image. *)
Definition ext_same_instant : Ext :=
  {| now_ip := 1704067260100; now_global := 1704067260100;
     now_check := 1704067260100; now_spend := 1704067260123;
     now_store := 1704067260123; now_health := 1704067260100;
     generateImage := Generated image2;
     put_history := Stored "etag-h2"; put_latest := Stored "etag-l2";
     latest_settles_first := false |}.

(** A state of the external store, set from outside: the spend cell of
    2024-01-01 holds what [n] ledger updates of an absent cell leave, and
    no window is in use.  It serves to look at the budget check alone; the
    worker does not bring the store into this state by itself, since every
    ledger update follows a request that took a slot of the global
    limit. *)
Definition world_after_updates (n : nat) : World :=
  {| windows := ∅;
     ledger := ledger_after n (env_limited None) ext_ok ∅;
     ART := ∅ |}.

End Sample.

(** A day on which the global limit is used to the full.

    Request [i] of the run comes from a caller of its own.  Request 0
    passes the rate limits at 22:59:59 on 2023-12-31 and stays pending for
    an hour (the handler sets no time limit on the body or on the
    provider); requests 1 to 100 pass them in the last five seconds of
    that day; the others pass them on 2024-01-01, one hundred in each
    hour, thirty seconds apart.  Every image is stored, and its cost
    recorded, on 2024-01-01.

    The requests are listed in the order in which they are completed.
    Some of them are pending at the same time; [run] handles one after
    the other all the same, and every call reads what it would read in
    the order of the clock: the calls on one window cell come in the
    order of the list, a budget check before midnight reads the cell of
    2023-12-31, and one after midnight comes later than the ledger
    updates of all requests before it in the list. *)
Module BusyDay.

(** 2024-01-01T00:00:00.000Z *)
Definition midnight : N := 1704067200000.

Definition caller (i : N) : string :=
  "10.0." ++ Js.string_of_N (i / 250) ++ "." ++ Js.string_of_N (i mod 250 + 1).

Definition request (i : N) : Request :=
  Sample.post_generate
    (<[ "cf-connecting-ip" := caller i ]> Sample.same_origin) []
    (Sample.prompt_body (JStr "a cat")).

(** When request [i] passes the rate limits and the budget check. *)
Definition admitted_at (i : N) : N :=
  if i =? 0 then midnight - 3601000
  else if i <=? 100 then midnight - 5000 + 10 * i
  else midnight + ((i - 101) / 100) * 3600000 + 60000
       + ((i - 101) mod 100) * 30000.

(** When its image is there: the cost is recorded and the image stored. *)
Definition stored_at (i : N) : N :=
  if i =? 0 then midnight + 500
  else if i <=? 100 then midnight + 1000 + 10 * i
  else admitted_at i + 4000.

Definition answers (i : N) : Ext :=
  {| now_ip := admitted_at i; now_global := admitted_at i;
     now_check := admitted_at i; now_spend := stored_at i;
     now_store := stored_at i; now_health := admitted_at i;
     generateImage := Generated Sample.image;
     put_history := Stored "etag-h"; put_latest := Stored "etag-l";
     latest_settles_first := false |}.

(** The first [n] requests, in the order in which they are completed. *)
Definition steps (n : nat) : list (Request * Ext) :=
  map (fun i => (request (N.of_nat i), answers (N.of_nat i))) (seq 0 n).

(** The hours whose global window the run counts in: the last two of
    2023-12-31 and the twenty-four of 2024-01-01. *)
Definition hours : list N :=
  map (fun h => midnight - 7200000 + N.of_nat h * 3600000) (seq 0 26).

(** How many of the first [n] requests pass the global limit in the hour
    that begins at [hour]. *)
Definition admitted_in (n : nat) (hour : N) : nat :=
  length
    (List.filter
       (fun i => now_global (answers (N.of_nat i)) / 3600000 =? hour / 3600000)
       (seq 0 n)).

End BusyDay.


(* ================================================================== *)
(** * Further observations on traces and stores *)
(* ================================================================== *)

(** A call to the counter store: a limiter or a spend cell. *)
Definition is_counter_call (e : Event) : bool :=
  match e with
  | CallLimit _ _ => true
  | CallRedisGet _ => true
  | CallRedisSet _ => true
  | _ => false
  end.

Definition is_redis_set (e : Event) : bool :=
  match e with
  | CallRedisSet _ => true
  | _ => false
  end.

Definition is_put_call (e : Event) : bool :=
  match e with
  | CallPut _ => true
  | _ => false
  end.

(** The request is for the generation route. *)
Definition is_generate_request (req : Request) : bool :=
  String.eqb (req_method req) "POST"
  && String.eqb (pathname (req_url req)) "/api/generate".

(** Concrete requests for the further examples. *)
Module Scenario.

(** A request from another site whose origin merely contains the host. *)
Definition lookalike_origin_request : Request :=
  Sample.post_generate
    {[ "origin" := "https://gallery.example.dev.evil.example" ]} []
    (Sample.prompt_body (JStr "a cat")).

(** The provider fails without a message. *)
Definition ext_provider_fails : Ext :=
  {| now_ip := 1704067260123; now_global := 1704067260123;
     now_check := 1704067260123; now_spend := 1704067260123;
     now_store := 1704067260123; now_health := 1704067260123;
     generateImage := GenFailed None;
     put_history := Stored "etag-h"; put_latest := Stored "etag-l";
     latest_settles_first := false |}.

(** The stores when the caller 203.0.113.7 has used up its minute. *)
Definition world_ip_exhausted : World :=
  {| windows := {[ "rl:ip:203.0.113.7:28401121" := 10 ]};
     ledger := ∅; ART := ∅ |}.

(** The stores when the hour of the deployment is used up. *)
Definition world_global_exhausted : World :=
  {| windows := {[ "rl:global:all:473352" := 100 ]};
     ledger := ∅; ART := ∅ |}.

Definition request_from_ip (j : JsonResult) : Request :=
  Sample.post_generate
    (<[ "cf-connecting-ip" := "203.0.113.7" ]> Sample.same_origin) [] j.

(** A declared length in decimal, with the right key. *)
Definition declared_request (n : N) : Request :=
  Sample.post_generate
    (<[ "content-length" := Js.string_of_N n ]> (Sample.with_key "s3cret")) []
    (Sample.prompt_body (JStr "a cat")).

End Scenario.

Module Scenario2.

(** One byte more than the ceiling of 5 MiB. *)
Definition oversized_image : list byte :=
  replicate (N.to_nat 5242881) x00.

Definition ext_oversized : Ext :=
  {| now_ip := 1704067260123; now_global := 1704067260123;
     now_check := 1704067260123; now_spend := 1704067260123;
     now_store := 1704067260123; now_health := 1704067260123;
     generateImage := Generated oversized_image;
     put_history := Stored "etag-h"; put_latest := Stored "etag-l";
     latest_settles_first := false |}.

End Scenario2.

(** A string that does not begin with white space. *)
Definition starts_clean (s : string) : Prop :=
  match s with
  | EmptyString => True
  | String c _ => Js.is_space c = false
  end.

(* ================================================================== *)
(** * The script of the embedded frontend ([src/worker.js]) *)
(* ================================================================== *)

Module Frontend.

(** The two texts the form shows without sending anything. *)
Inductive ClientError : Type :=
  | AtLeast3Characters
  | LessThan500Characters.

(** What the [submit] handler does with the text of the prompt field. *)
Inductive Submit : Type :=
  | ShowError (e : ClientError)
  | Post (prompt : string).    (* body [JSON.stringify({ prompt })] *)

Definition on_submit (value : string) : Submit :=
  let prompt := Js.trim value in
  if negb (Js.truthy_string prompt) || (Worker.str_length prompt <? 3)
  then ShowError AtLeast3Characters
  else if 500 <? Worker.str_length prompt
  then ShowError LessThan500Characters
  else Post prompt.

(** What [request.json()] makes of the posted body on the server. *)
Definition posted_body (prompt : string) : JsValue :=
  JObj [("prompt", JStr prompt)].

Definition field (name : string) (data : list (string * string))
    : option string :=
  snd <$> List.find (fun kv => String.eqb (fst kv) name) data.

(** [data.message || data.error || 'Generation failed'] for the parsed
    body of a response that is not ok. *)
Definition errorMsg (data : list (string * string)) : string :=
  match field "message" data with
  | Some m => if Js.truthy_string m then m else
      match field "error" data with
      | Some e => if Js.truthy_string e then e else "Generation failed"
      | None => "Generation failed"
      end
  | None =>
      match field "error" data with
      | Some e => if Js.truthy_string e then e else "Generation failed"
      | None => "Generation failed"
      end
  end.

End Frontend.

(** An error response of the generation route, as the form reads it: it
    shows the message of the response, or its kind when there is none. *)
Definition shown_for (r : Response) : Prop :=
  exists data,
    body r = Json data
    /\ (Frontend.field "message" data = Some (Frontend.errorMsg data)
        \/ Frontend.field "message" data = None
           /\ Frontend.field "error" data = Some (Frontend.errorMsg data)).

From Stdlib Require Import Sorting.Sorted.

(* ================================================================== *)
(** * The later revision of the worker: the routes it adds *)
(* ================================================================== *)

Module Revision.

(** ** Listing the bucket *)

(** An entry of [env.ART.list(...)]. *)
Record Listed : Type := mkListed {
  l_key : string;
  l_uploaded : N;        (* the [uploaded] date, in milliseconds *)
  l_size : N
}.

(** What [env.ART.list({ prefix, limit })] answers. *)
Inductive ListResult : Type :=
  | Objects (objects : list Listed)
  | ListFailed.

(** An image as the two listing routes report it; [i_uploaded] is shown
    as [toISOString()] of the instant, and [new Date] of that text is the
    instant again. *)
Record ImageInfo : Type := mkImageInfo {
  i_url : string;
  i_key : string;
  i_uploaded : N;
  i_size : N
}.

(** [xs.sort((a, b) => new Date(b.uploaded) - new Date(a.uploaded))]:
    newest first.  [Array.prototype.sort] is stable, so entries with the
    same date keep their order; insertion from the right gives that
    list. *)
Fixpoint insert_newest_first {A : Type} (uploaded : A -> N) (x : A)
    (sorted : list A) : list A :=
  match sorted with
  | [] => [x]
  | y :: rest =>
      if uploaded y <=? uploaded x then x :: sorted
      else y :: insert_newest_first uploaded x rest
  end.

Fixpoint sort_newest_first {A : Type} (uploaded : A -> N) (xs : list A)
    : list A :=
  match xs with
  | [] => []
  | x :: rest => insert_newest_first uploaded x (sort_newest_first uploaded rest)
  end.

Definition not_latest (obj : Listed) : bool :=
  negb (String.eqb (l_key obj) "art/latest.jpg").

Definition image_info (u : Url) (obj : Listed) : ImageInfo :=
  {| i_url := Worker.url_origin u ++ "/" ++ l_key obj;
     i_key := l_key obj;
     i_uploaded := l_uploaded obj;
     i_size := l_size obj |}.

(** ** Sculptures *)

(** What a call to the provider comes to, up to the bytes the route takes
    from the reply. *)
Inductive ProviderReply : Type :=
  | ReplyFails (message : string)      (* the call or the decoding throws *)
  | ReplyNotOk (status : N) (errorText : string)
  | ReplyOk (bytes : list byte).

(** What the engine answers where the route leaves the types of the
    prompt to it. *)
Record Engine : Type := mkEngine {
  (* the message of an error the engine throws: body not JSON, body
     [null], a prompt that cannot be converted *)
  engine_message : string;
  (* [length < 3] for a [length] property that is a string, an array or
     an object; [None] when the conversion throws *)
  odd_length_short : option bool;
  (* whether an array or object prompt converts to a string *)
  compound_converts : bool
}.

Record SculptureExt : Type := mkSculptureExt {
  engine : Engine;
  t_start : N;            (* [Date.now()] readings, in this order *)
  t_image_done : N;
  t_step2_start : N;
  t_sculpture_done : N;
  t_total : N;
  now_key : N;            (* [new Date()] that names the object *)
  image_reply : ProviderReply;
  sculpture_reply : ProviderReply;
  put_sculpture : PutResult
}.

Record SculptureReport : Type := mkSculptureReport {
  s_url : string;
  s_key : string;
  s_prompt : JsValue;
  s_generationTime : Z;
  s_size : N;
  s_note : string;
  s_imageGeneration : Z;
  s_sculptureGeneration : Z;
  s_total : Z
}.

(** ** Responses and calls of the revision *)

Inductive RevBody : Type :=
  | Plain (b : Body)
  | RevisedHtml                         (* the revision's document *)
  | LatestImage (info : ImageInfo)
  | ImageList (count : N) (images : list ImageInfo)
  | Sculpture (report : SculptureReport).

Record RevResponse : Type := mkRevResponse {
  r_status : N;
  r_headers : list (string * string);
  r_body : RevBody
}.

Inductive RevEvent : Type :=
  | Base (e : Event)
  | CallList (prefix : string) (limit : N)
  | CallImageProvider (prompt : JsValue)
  | CallSculptureProvider (image : list byte).

Inductive RevOutcome : Type :=
  | RevReturned (r : RevResponse)
  | RevThrown (e : JsError).

Definition RevResult : Type := RevOutcome * World * list RevEvent.

Record RevExt : Type := mkRevExt {
  listing : N -> ListResult;     (* by the [limit] asked for *)
  sculpture_ext : SculptureExt
}.

Definition plain (r : Response) : RevResponse :=
  {| r_status := status r; r_headers := headers r; r_body := Plain (body r) |}.

(** A result of the routes that the revision shares with the worker. *)
Definition lift (res : Result) : RevResult :=
  let '(o, w, t) := res in
  (match o with
   | Returned r => RevReturned (plain r)
   | Thrown e => RevThrown e
   end, w, map Base t).

Definition json_cors_headers : list (string * string) :=
  [("content-type", "application/json"); ("Access-Control-Allow-Origin", "*")].

Definition json_error (st : N) (fields : list (string * string))
    : RevResponse :=
  {| r_status := st; r_headers := json_cors_headers;
     r_body := Plain (Json fields) |}.

(** ** [GET /api/images/latest] *)

Definition images_latest (u : Url) (l : ListResult) : RevResponse :=
  match l with
  | ListFailed => json_error 500 [("error", "failed_to_get_latest")]
  | Objects objects =>
      match sort_newest_first l_uploaded (List.filter not_latest objects) with
      | [] => json_error 404 [("error", "no_images_found")]
      | latestImage :: _ =>
          {| r_status := 200; r_headers := json_cors_headers;
             r_body := LatestImage (image_info u latestImage) |}
      end
  end.

(** ** [GET /api/images] *)

Definition images_of (u : Url) (objects : list Listed) : list ImageInfo :=
  sort_newest_first i_uploaded (map (image_info u) (List.filter not_latest objects)).

Definition images (u : Url) (l : ListResult) : RevResponse :=
  match l with
  | ListFailed => json_error 500 [("error", "failed_to_list_images")]
  | Objects objects =>
      {| r_status := 200; r_headers := json_cors_headers;
         r_body := ImageList (N.of_nat (length (images_of u objects)))
                     (images_of u objects) |}
  end.

(** ** [POST /api/generate-sculpture] *)

(** [Math.round(ms / 1000)] for a difference of two clock readings. *)
Definition round_seconds (ms : Z) : Z := ((ms + 500) / 1000)%Z.

Definition elapsed (later earlier : N) : Z := (Z.of_N later - Z.of_N earlier)%Z.

(** [body.prompt || ""], as in [Worker.or_empty], without trimming. *)
Definition sculpture_prompt (body : JsValue) : JsError + JsValue :=
  match Worker.body_prompt body with
  | inl e => inl e
  | inr p => inr (Worker.or_empty p)
  end.

(** [prompt.length < 3]; [None] when the comparison throws. *)
Definition length_below_3 (eng : Engine) (prompt : JsValue) : option bool :=
  match prompt with
  | JStr s => Some (Worker.str_length s <? 3)
  | JArr items => Some (N.of_nat (length items) <? 3)
  | JObj props =>
      match snd <$> List.find (fun kv => String.eqb (fst kv) "length") props with
      | None => Some false
      | Some (JNum y) => Some (PrimFloat.ltb y 3%float)
      | Some JNull => Some true
      | Some (JBool _) => Some true
      | Some _ => odd_length_short eng
      end
  | _ => Some false
  end.

(** Whether the prompt can be written into the log line and the form. *)
Definition converts (eng : Engine) (prompt : JsValue) : bool :=
  match prompt with
  | JArr _ => compound_converts eng
  | JObj _ => compound_converts eng
  | _ => true
  end.

Definition sculpture_key (now : N) : string :=
  "sculptures/" ++ "sculpture-"
  ++ Js.replace_colon_dot (Clock.toISOString now) ++ ".glb".

(** The [catch] block: [error.message || 'Failed to generate sculpture']. *)
Definition sculpture_failure (message : option string) : RevResponse :=
  json_error 500
    [("error", "generation_failed");
     ("message",
      match message with
      | Some m => if Js.truthy_string m then m else "Failed to generate sculpture"
      | None => "Failed to generate sculpture"
      end)].

Definition provider_error (what : string) (st : N) (errorText : string)
    : string :=
  what ++ " generation failed: " ++ Js.string_of_N st ++ " - " ++ errorText.

Definition generate_sculpture (req : Request) (sx : SculptureExt) (w : World)
    : RevResult :=
  let eng := engine sx in
  match req_json req with
  | JsonFail =>
      (RevReturned (sculpture_failure (Some (engine_message eng))), w,
       [Base CallJson])
  | JsonOk body =>
  match sculpture_prompt body with
  | inl _ =>
      (RevReturned (sculpture_failure (Some (engine_message eng))), w,
       [Base CallJson])
  | inr prompt =>
  match length_below_3 eng prompt with
  | None =>
      (RevReturned (sculpture_failure (Some (engine_message eng))), w,
       [Base CallJson])
  | Some short =>
  if negb (Worker.js_truthy prompt) || short then
    (RevReturned
       (json_error 400
          [("error", "invalid_prompt");
           ("message", "Prompt must be at least 3 characters")]),
     w, [Base CallJson])
  else if negb (converts eng prompt) then
    (RevReturned (sculpture_failure (Some (engine_message eng))), w,
     [Base CallJson])
  else
  let t1 := [Base CallJson; CallImageProvider prompt] in
  match image_reply sx with
  | ReplyFails m => (RevReturned (sculpture_failure (Some m)), w, t1)
  | ReplyNotOk st errorText =>
      (RevReturned
         (sculpture_failure (Some (provider_error "Image" st errorText))),
       w, t1)
  | ReplyOk imageBytes =>
  let t2 := (t1 ++ [CallSculptureProvider imageBytes])%list in
  match sculpture_reply sx with
  | ReplyFails m => (RevReturned (sculpture_failure (Some m)), w, t2)
  | ReplyNotOk st errorText =>
      (RevReturned
         (sculpture_failure (Some (provider_error "3D" st errorText))),
       w, t2)
  | ReplyOk glbData =>
  let key := sculpture_key (now_key sx) in
  let t3 := (t2 ++ [Base (CallPut key)])%list in
  match put_sculpture sx with
  | PutFailed m => (RevReturned (sculpture_failure m), w, t3)
  | Stored etag =>
      let totalTime := elapsed (t_total sx) (t_start sx) in
      (RevReturned
         {| r_status := 200;
            r_headers :=
              [("content-type", "application/json");
               ("Access-Control-Allow-Origin", "*")];
            r_body :=
              Sculpture
                {| s_url := Worker.url_origin (req_url req) ++ "/" ++ key;
                   s_key := key;
                   s_prompt := prompt;
                   s_generationTime := round_seconds totalTime;
                   s_size := N.of_nat (length glbData);
                   s_note :=
                     "Generated from 2D image of prompt (image-to-3D)";
                   s_imageGeneration :=
                     round_seconds (elapsed (t_image_done sx) (t_start sx));
                   s_sculptureGeneration :=
                     round_seconds
                       (elapsed (t_sculpture_done sx) (t_step2_start sx));
                   s_total := round_seconds totalTime |} |},
       {| windows := windows w; ledger := ledger w;
          ART :=
            <[key := mkR2Object glbData "model/gltf-binary"
                       "public, max-age=31536000, immutable" etag]> (ART w) |},
       t3)
  end end end end end end.

(** ** [GET /sculptures/*] *)

(** The defaults set first are overwritten by [writeHttpMetadata]: an
    object of the modelled bucket always has both entries. *)
Definition serve_sculpture (req : Request) (w : World) : RevResult :=
  let key := Js.slice1 (pathname (req_url req)) in
  match ART w !! key with
  | None =>
      (RevReturned
         {| r_status := 404; r_headers := Worker.text_headers;
            r_body := Plain (Text "Sculpture not found") |},
       w, [Base (CallGet key)])
  | Some object =>
      (RevReturned
         {| r_status := 200;
            r_headers :=
              [("content-type", contentType object);
               ("access-control-allow-origin", "*");
               ("cache-control", cacheControl object);
               ("etag", httpEtag object)];
            r_body := Plain (Bytes (obj_body object)) |},
       w, [Base (CallGet key)])
  end.

(** ** [fetch(request, env)] of the revision *)

Definition revised_frontend : RevResponse :=
  {| r_status := 200;
     r_headers := [("content-type", "text/html;charset=UTF-8")];
     r_body := RevisedHtml |}.

Definition route (req : Request) (method path : string) : bool :=
  String.eqb (req_method req) method && String.eqb (pathname (req_url req)) path.

Definition route_under (req : Request) (method pre : string) : bool :=
  String.eqb (req_method req) method
  && Js.startsWith (pathname (req_url req)) pre.

Definition fetch (req : Request) (env : Env) (ext : Ext) (rx : RevExt)
    (w : World) : RevResult :=
  match WorkerRevision.preflight req with
  | Some r => (RevReturned (plain r), w, [])
  | None =>
  if route req "POST" "/api/generate"
  then lift (Worker.handle_generate req env ext w)
  else if route_under req "GET" "/art/"
  then lift (Worker.serve_art req w)
  else if route req "GET" "/api/images/latest"
  then (RevReturned (images_latest (req_url req) (listing rx 1000)), w,
        [CallList "art/" 1000])
  else if route req "GET" "/api/images"
  then (RevReturned (images (req_url req) (listing rx 100)), w,
        [CallList "art/" 100])
  else if route req "POST" "/api/generate-sculpture"
  then generate_sculpture req (sculpture_ext rx) w
  else if route_under req "GET" "/sculptures/"
  then serve_sculpture req w
  else if route req "GET" "/health"
  then (RevReturned (plain (Worker.health env ext)), w, [])
  else if route req "GET" "/"
  then (RevReturned revised_frontend, w, [])
  else (RevReturned (plain Worker.not_found), w, [])
  end.

End Revision.

(* ================================================================== *)
(** * Observations on the revision *)
(* ================================================================== *)

Definition rev_outcome_of (res : Revision.RevResult) : Revision.RevOutcome :=
  fst (fst res).

Definition rev_world_of (res : Revision.RevResult) : World := snd (fst res).

Definition rev_trace_of (res : Revision.RevResult) : list Revision.RevEvent :=
  snd res.

(** Newest first: [a] may stand before [b]. *)
Definition not_older {A : Type} (uploaded : A -> N) (a b : A) : Prop :=
  uploaded b <= uploaded a.

(** The requests that the revision answers in a branch of its own: the
    preflight, the routes it adds, and the document at [/]. *)
Definition revised_route (req : Request) : bool :=
  String.eqb (req_method req) "OPTIONS"
  || Revision.route req "GET" "/api/images/latest"
  || Revision.route req "GET" "/api/images"
  || Revision.route req "POST" "/api/generate-sculpture"
  || Revision.route_under req "GET" "/sculptures/"
  || Revision.route req "GET" "/".

Definition is_provider_call (e : Revision.RevEvent) : bool :=
  match e with
  | Revision.CallImageProvider _ => true
  | Revision.CallSculptureProvider _ => true
  | _ => false
  end.

Module RevSample.

Import Revision.

Definition post_sculpture (j : JsonResult) : Request :=
  {| req_method := "POST"; req_url := Sample.service "/api/generate-sculpture";
     req_headers := ∅; req_body := []; req_json := j |}.

Definition v8 : Engine :=
  {| engine_message := "Unexpected end of JSON input";
     odd_length_short := Some false;
     compound_converts := true |}.

Definition glb : list byte := [x67; x6c; x54; x46].

(** Both provider calls succeed, at 2024-01-01T00:01:00.123Z and after. *)
Definition sx_ok : SculptureExt :=
  {| engine := v8;
     t_start := 1704067260123; t_image_done := 1704067263623;
     t_step2_start := 1704067263624; t_sculpture_done := 1704067265000;
     t_total := 1704067265200; now_key := 1704067265100;
     image_reply := ReplyOk Sample.image;
     sculpture_reply := ReplyOk glb;
     put_sculpture := Stored "etag-s" |}.

(** The image provider refuses the key. *)
Definition sx_refused : SculptureExt :=
  {| engine := v8;
     t_start := 1704067260123; t_image_done := 1704067263623;
     t_step2_start := 1704067263624; t_sculpture_done := 1704067265000;
     t_total := 1704067265200; now_key := 1704067265100;
     image_reply := ReplyNotOk 401 "unauthorized";
     sculpture_reply := ReplyOk glb;
     put_sculpture := Stored "etag-s" |}.

(** Two history images and the latest copy, oldest first. *)
Definition bucket_listing : list Listed :=
  [ {| l_key := "art/2024-01-01T00-01-00-123Z.jpg";
       l_uploaded := 1704067260123; l_size := 4 |};
    {| l_key := "art/latest.jpg"; l_uploaded := 1704067320500; l_size := 4 |};
    {| l_key := "art/2024-01-01T00-02-00-123Z.jpg";
       l_uploaded := 1704067320123; l_size := 4 |} ].

Definition rx_ok : RevExt :=
  {| listing := fun _ => Objects bucket_listing; sculpture_ext := sx_ok |}.

Definition rx_refused : RevExt :=
  {| listing := fun _ => ListFailed; sculpture_ext := sx_refused |}.

End RevSample.

(* ================================================================== *)
(** * Checks of the primitives on concrete values *)
(* ================================================================== *)

Example trim_ex : Js.trim "  a cat  " = "a cat".
Proof. reflexivity. Qed.

Example lower_ex : Js.toLowerCase "A NuDe Cat" = "a nude cat".
Proof. reflexivity. Qed.

Example parseInt_ex :
  Js.parseInt "10001" = Some 10001%Z /\ Js.parseInt " 0x2711" = Some 10001%Z
  /\ Js.parseInt "abc" = None /\ Js.parseInt "12px" = Some 12%Z
  /\ Js.parseInt "-5" = Some (-5)%Z.
Proof. repeat split; reflexivity. Qed.

Example string_of_N_ex :
  Js.string_of_N 0 = "0" /\ Js.string_of_N 9 = "9" /\ Js.string_of_N 10 = "10"
  /\ Js.string_of_N 1704067260000 = "1704067260000".
Proof. repeat split; reflexivity. Qed.

Example toISOString_ex :
  Clock.toISOString 1704067260123 = "2024-01-01T00:01:00.123Z"
  /\ Clock.toISOString 0 = "1970-01-01T00:00:00.000Z"
  /\ Clock.toISOString 1709251199999 = "2024-02-29T23:59:59.999Z"
  /\ Clock.toISOString 951868800000 = "2000-03-01T00:00:00.000Z".
Proof. repeat split; reflexivity. Qed.

Example timestamp_ex :
  Js.replace_colon_dot (Clock.toISOString 1704067260123)
  = "2024-01-01T00-01-00-123Z"
  /\ Js.before_T (Clock.toISOString 1704067260123) = "2024-01-01".
Proof. split; reflexivity. Qed.
(* ================================================================== *)
(** * Facts about the string primitives *)
(* ================================================================== *)

Section StringFacts.

Lemma append_nil (b : string) : EmptyString ++ b = b.
Proof. reflexivity. Qed.

Lemma append_cons (c : ascii) (a b : string) :
  String c a ++ b = String c (a ++ b).
Proof. reflexivity. Qed.

Lemma append_nil_r (a : string) : a ++ EmptyString = a.
Proof.
  induction a as [|c a IH]; [reflexivity |]. by rewrite append_cons, IH.
Qed.

Lemma append_assoc (a b c : string) : (a ++ b) ++ c = a ++ (b ++ c).
Proof.
  induction a as [|x a IH]; [reflexivity |].
  by rewrite !append_cons, IH.
Qed.

Lemma append_cancel_l (a x y : string) : a ++ x = a ++ y -> x = y.
Proof.
  induction a as [|c a IH]; intros H; [exact H |].
  rewrite !append_cons in H. injection H as H. by apply IH.
Qed.

Lemma prefix_append (w b : string) : String.prefix w (w ++ b) = true.
Proof.
  induction w as [|c w IH]; [by destruct b |].
  rewrite append_cons. simpl.
  destruct (ascii_dec c c); [exact IH | congruence].
Qed.

Lemma prefix_inv (w s : string) :
  String.prefix w s = true -> exists b, s = w ++ b.
Proof.
  revert s; induction w as [|c w IH]; intros s H.
  - by exists s.
  - destruct s as [|d s]; [discriminate |]. simpl in H.
    destruct (ascii_dec c d) as [->|]; [| discriminate].
    destruct (IH _ H) as [b ->]. by exists b.
Qed.

Lemma includes_append (a w b : string) : Js.includes (a ++ w ++ b) w = true.
Proof.
  induction a as [|c a IH].
  - rewrite append_nil. pose proof (prefix_append w b) as H.
    destruct (w ++ b); cbn [Js.includes]; by rewrite H.
  - rewrite append_cons. cbn [Js.includes]. rewrite IH. apply orb_true_r.
Qed.

Lemma includes_inv (s w : string) :
  Js.includes s w = true -> exists a b, s = a ++ w ++ b.
Proof.
  induction s as [|c s IH]; cbn [Js.includes]; intros H.
  - rewrite orb_false_r in H. destruct (prefix_inv _ _ H) as [b Hb].
    by exists EmptyString, b.
  - apply orb_true_iff in H as [H|H].
    + destruct (prefix_inv _ _ H) as [b Hb]. by exists EmptyString, b.
    + destruct (IH H) as (a & b & ->). by exists (String c a), b.
Qed.

Lemma trimEnd_solid (w : string) : solid w = true -> Js.trimEnd w = w.
Proof.
  unfold solid. induction w as [|c w IH]; [discriminate |].
  simpl. intros H. apply andb_true_iff in H as [Hc Hw].
  apply negb_true_iff in Hc. rewrite Hc.
  destruct w as [|d w]; [reflexivity |].
  rewrite IH by exact Hw. reflexivity.
Qed.

Lemma trimEnd_append (x y : string) :
  Js.trimEnd (x ++ y) =
  match Js.trimEnd y with
  | EmptyString => Js.trimEnd x
  | t => x ++ t
  end.
Proof.
  induction x as [|c x IH].
  - rewrite append_nil. by destruct (Js.trimEnd y).
  - rewrite append_cons. cbn [Js.trimEnd]. rewrite IH.
    destruct (Js.trimEnd y) as [|d t]; [reflexivity |].
    destruct x; by rewrite ?append_nil, ?append_cons.
Qed.

Lemma includes_trimStart (s w : string) :
  solid w = true -> Js.includes s w = true ->
  Js.includes (Js.trimStart s) w = true.
Proof.
  intros Hw. induction s as [|c s IH]; [done |].
  intros H. cbn [Js.trimStart].
  destruct (Js.is_space c) eqn:Hc; [| exact H].
  apply IH. cbn [Js.includes] in H.
  apply orb_true_iff in H as [H|H]; [| exact H].
  destruct w as [|d w]; [discriminate |].
  simpl in H. destruct (ascii_dec d c) as [->|]; [| discriminate].
  unfold solid in Hw. simpl in Hw. by rewrite Hc in Hw.
Qed.

Lemma includes_trimEnd (s w : string) :
  solid w = true -> Js.includes s w = true ->
  Js.includes (Js.trimEnd s) w = true.
Proof.
  intros Hw H. destruct (includes_inv _ _ H) as (a & b & ->).
  assert (Hne : exists d t, w = String d t).
  { destruct w; [discriminate | eauto]. }
  destruct Hne as (d & t & Hdt).
  rewrite <- append_assoc, trimEnd_append.
  destruct (Js.trimEnd b) as [|e b'].
  - rewrite trimEnd_append, (trimEnd_solid w Hw), Hdt, <- Hdt.
    rewrite <- (append_nil_r w) at 1. apply includes_append.
  - rewrite append_assoc. apply includes_append.
Qed.

Lemma includes_trim (s w : string) :
  solid w = true -> Js.includes s w = true ->
  Js.includes (Js.trim s) w = true.
Proof.
  intros Hw H. unfold Js.trim.
  by apply includes_trimEnd, includes_trimStart.
Qed.

Lemma is_space_lower (c : ascii) :
  Js.is_space (Js.lower_char c) = Js.is_space c.
Proof. destruct c as [[] [] [] [] [] [] [] []]; reflexivity. Qed.

Lemma toLowerCase_trimStart (s : string) :
  Js.toLowerCase (Js.trimStart s) = Js.trimStart (Js.toLowerCase s).
Proof.
  induction s as [|c s IH]; [reflexivity |].
  cbn [Js.trimStart Js.toLowerCase]. rewrite is_space_lower.
  destruct (Js.is_space c); [exact IH | reflexivity].
Qed.

Lemma toLowerCase_trimEnd (s : string) :
  Js.toLowerCase (Js.trimEnd s) = Js.trimEnd (Js.toLowerCase s).
Proof.
  induction s as [|c s IH]; [reflexivity |].
  cbn [Js.trimEnd Js.toLowerCase]. rewrite <- IH, is_space_lower.
  destruct (Js.trimEnd s); cbn [Js.toLowerCase];
    [destruct (Js.is_space c) |]; reflexivity.
Qed.

Lemma toLowerCase_trim (s : string) :
  Js.toLowerCase (Js.trim s) = Js.trim (Js.toLowerCase s).
Proof. unfold Js.trim. by rewrite toLowerCase_trimEnd, toLowerCase_trimStart. Qed.

Lemma startsWith_append (p s : string) : Js.startsWith (p ++ s) p = true.
Proof. apply prefix_append. Qed.

End StringFacts.

(* ================================================================== *)
(** * The stages of the generation route, one by one *)
(* ================================================================== *)

Section Stages.

Import Worker.

Lemma fetch_generate_route (req : Request) (env : Env) (ext : Ext) (w : World) :
  req_method req = "POST" -> pathname (req_url req) = "/api/generate" ->
  fetch req env ext w = handle_generate req env ext w.
Proof. intros Hm Hp. unfold fetch. by rewrite Hm, Hp. Qed.

Lemma catch_response_status (m : option string) :
  In (status (catch_response m)) [402; 504; 429; 400; 500].
Proof. unfold catch_response. repeat case_match; simpl; tauto. Qed.

Lemma catch_response_kind (m : option string) :
  In (error_kind (catch_response m))
     [Some "insufficient_credits"; Some "timeout";
      Some "ai_provider_rate_limit"; Some "invalid_prompt_for_provider";
      Some "generation_failed"].
Proof. unfold catch_response. repeat case_match; simpl; tauto. Qed.

Lemma catch_response_default (m : option string) :
  no_provider_pattern m = true ->
  catch_response m =
  error_response 500 "generation_failed"
    "Image generation failed. Please try again.".
Proof.
  unfold no_provider_pattern. cbn [forallb]. intros H.
  repeat (apply andb_true_iff in H as [?%negb_true_iff H]).
  unfold catch_response.
  repeat match goal with E : opt_includes m _ = false |- _ =>
    rewrite E; clear E end.
  reflexivity.
Qed.

(** The rate-limit stage touches the counters only. *)
Lemma rate_limit_stage_frame (req : Request) (env : Env) (ext : Ext)
    (w w2 : World) (l : option Response) (t2 : list Event) :
  rate_limit_stage req env ext w = (l, w2, t2) ->
  ART w2 = ART w /\ ledger w2 = ledger w /\ no_generation t2.
Proof.
  unfold rate_limit_stage, Upstash.limit. intros H.
  repeat case_match; simplify_eq; done.
Qed.

Lemma rate_limit_stage_rejects (req : Request) (env : Env) (ext : Ext)
    (w w2 : World) (r : Response) (t2 : list Event) :
  rate_limit_stage req env ext w = (Some r, w2, t2) ->
  status r = 429 /\
  In (error_kind r)
     [Some "rate_limit_exceeded"; Some "global_rate_limit_exceeded";
      Some "daily_budget_exceeded"].
Proof.
  unfold rate_limit_stage, Upstash.limit. intros H.
  repeat case_match; simplify_eq; simpl; tauto.
Qed.

Lemma rate_limit_stage_unconfigured (req : Request) (env : Env) (ext : Ext)
    (w : World) :
  counter_store_configured env = false ->
  rate_limit_stage req env ext w = (None, w, []).
Proof. intros H. unfold rate_limit_stage. by rewrite H. Qed.

Lemma validate_prompt_rejects (p : string) (r : Response) :
  validate_prompt p = Some r ->
  status r = 400 /\
  In (error_kind r) [Some "invalid_prompt"; Some "prompt_too_long"].
Proof.
  unfold validate_prompt. intros H.
  repeat case_match; simplify_eq; simpl; tauto.
Qed.

Lemma content_filter_rejects (p : string) (r : Response) :
  content_filter p = Some r -> r = inappropriate_response.
Proof. unfold content_filter. intros H. by case_match; simplify_eq. Qed.

End Stages.

(* ================================================================== *)
(** * Authentication *)
(* ================================================================== *)

Section Authentication.

Import Worker.

Lemma truthy_string_nonempty (s : string) :
  Js.truthy_string s = true <-> s <> "".
Proof. destruct s; simpl; split; congruence. Qed.

Lemma key_rejected_false (req : Request) (env : Env) :
  key_rejected req env = false <-> credential_accepted req env.
Proof.
  unfold key_rejected, credential_accepted, strict_neq. split.
  - destruct (header req "x-api-key") as [k|]; [| discriminate].
    intros H. apply orb_false_iff in H as [Hk Hs].
    apply negb_false_iff, truthy_string_nonempty in Hk.
    destruct (DEMO_API_KEY env) as [s|]; [| discriminate].
    apply negb_false_iff, String.eqb_eq in Hs. subst s. by exists k.
  - intros (k & Hk & -> & ->).
    apply truthy_string_nonempty in Hk. rewrite Hk, String.eqb_refl.
    reflexivity.
Qed.

Lemma auth_check_admits (req : Request) (env : Env) :
  auth_check req env = None <->
  isSameOrigin req = true \/ credential_accepted req env.
Proof.
  unfold auth_check, unauthorized. rewrite <- key_rejected_false.
  destruct (isSameOrigin req), (key_rejected req env); simpl;
    split; (congruence || tauto || (intros [?|?]; congruence)).
Qed.

Lemma generate_and_store_status (req : Request) (env : Env) (ext : Ext)
    (p : string) (w : World) (t : list Event) (r : Response) :
  outcome_of (generate_and_store req env ext p w t) = Returned r ->
  In (status r) [402; 504; 429; 400; 500; 200].
Proof.
  unfold generate_and_store, outcome_of.
  destruct (generateImage ext) as [bytes|m]; simpl.
  - destruct (MAX_IMAGE_BYTES <? _); simpl.
    + intros [= <-]. simpl. tauto.
    + destruct (update_spend env ext (ledger w)) as [cells t7].
      destruct (rejection ext) as [m|]; simpl; intros [= <-].
      * pose proof (catch_response_status m) as H. simpl in *. tauto.
      * simpl. tauto.
  - intros [= <-]. pose proof (catch_response_status m) as H.
    simpl in *. tauto.
Qed.

Lemma fulfil_status (req : Request) (env : Env) (ext : Ext) (w2 : World)
    (t2 : list Event) (r : Response) :
  outcome_of (fulfil req env ext w2 t2) = Returned r ->
  In (status r) [402; 504; 429; 400; 500; 200].
Proof.
  unfold fulfil.
  destruct (req_json req) as [body|]; [| intros [= <-]; simpl; tauto].
  destruct (prompt_of body) as [e|p]; [discriminate |].
  destruct (validate_prompt p) as [r3|] eqn:Hv.
  { intros [= <-]. apply validate_prompt_rejects in Hv as [-> _].
    simpl; tauto. }
  destruct (content_filter p) as [r4|] eqn:Hc.
  { intros [= <-]. apply content_filter_rejects in Hc as ->. simpl; tauto. }
  apply generate_and_store_status.
Qed.

End Authentication.

Section SameHost.

Lemma after_scheme_shape (s r : string) :
  after_scheme s = Some r -> exists pre, s = pre ++ "://" ++ r.
Proof.
  revert r. induction s as [|c s IH]; intros r; cbn [after_scheme].
  - destruct (String.prefix "://" "") eqn:H; discriminate.
  - destruct (String.prefix "://" (String c s)) eqn:H.
    + intros [= <-]. destruct (prefix_inv _ _ H) as [b Hb].
      change ("://" ++ b) with (String ":" (String "/" (String "/" b))) in Hb.
      injection Hb as -> ->. by exists EmptyString.
    + intros Hr. destruct (IH _ Hr) as [pre ->]. by exists (String c pre).
Qed.

Lemma authority_shape (r : string) : exists rest, r = authority r ++ rest.
Proof.
  induction r as [|c r [rest IH]]; [by exists EmptyString |].
  cbn [authority]. destruct (ends_authority c).
  - by exists (String c r).
  - exists rest. by rewrite append_cons, <- IH.
Qed.

Lemma without_userinfo_shape (a : string) :
  exists user, a = user ++ without_userinfo a.
Proof.
  induction a as [|c a [user IH]]; [by exists EmptyString |].
  cbn [without_userinfo]. destruct (Js.includes (String c a) "@").
  - exists (String c user). by rewrite append_cons, <- IH.
  - by exists EmptyString.
Qed.

(** A header that names the host contains it, so the code lets it
    through. *)
Lemma names_host_includes (v : option string) (u : Url) :
  names_host v u = true -> Worker.opt_includes v (host u) = true.
Proof.
  unfold names_host, host_of. destruct v as [s|]; [| discriminate].
  destruct (after_scheme s) as [r|] eqn:Hr; [| discriminate].
  intros H. apply String.eqb_eq in H.
  destruct (after_scheme_shape _ _ Hr) as [pre ->].
  destruct (authority_shape r) as [rest Hrest].
  destruct (without_userinfo_shape (authority r)) as [user Huser].
  rewrite H in Huser. rewrite Hrest, Huser. cbn [Worker.opt_includes].
  replace (pre ++ "://" ++ (user ++ host u) ++ rest)
    with ((pre ++ "://" ++ user) ++ host u ++ rest)
    by (by rewrite !append_assoc).
  apply includes_append.
Qed.

Lemma same_host_isSameOrigin (req : Request) :
  same_host req = true -> Worker.isSameOrigin req = true.
Proof.
  unfold same_host, Worker.isSameOrigin. intros H.
  apply orb_true_iff in H as [H|H]; apply names_host_includes in H;
    rewrite H; [reflexivity | apply orb_true_r].
Qed.

(** Where no header mentions the host without naming it, the test of the
    code is the test of the specification. *)
Lemma isSameOrigin_same_host (req : Request) :
  plainly_stated req = true ->
  Worker.isSameOrigin req = true -> same_host req = true.
Proof.
  unfold plainly_stated, same_host, Worker.isSameOrigin, silent_on_host,
    Worker.opt_includes.
  intros Hplain H. apply andb_true_iff in Hplain as [Ho Hr].
  destruct (names_host (Worker.header req "origin") (req_url req));
    [reflexivity |].
  destruct (names_host (Worker.header req "referer") (req_url req));
    [reflexivity |].
  cbn [orb] in *.
  destruct (Worker.header req "origin") as [o|],
           (Worker.header req "referer") as [r|];
    cbn [orb] in H; try discriminate.
  - apply negb_true_iff in Ho, Hr. by rewrite Ho, Hr in H.
  - apply negb_true_iff in Ho. by rewrite Ho in H.
  - apply negb_true_iff in Hr. by rewrite Hr in H.
Qed.

(** The host of some header texts. *)
Lemma host_of_ex :
  host_of "https://gallery.example.dev" = Some "gallery.example.dev"
  /\ host_of "https://gallery.example.dev/studio?from=home"
     = Some "gallery.example.dev"
  /\ host_of "https://visitor@gallery.example.dev:8443/"
     = Some "gallery.example.dev:8443"
  /\ host_of "https://gallery.example.dev.evil.example"
     = Some "gallery.example.dev.evil.example"
  /\ host_of "https://evil.example/?next=https://gallery.example.dev"
     = Some "evil.example"
  /\ host_of "gallery.example.dev" = None.
Proof. repeat split. Qed.

(** A header that mentions the host without naming it is outside the
    requests of which the amended claim speaks; the code admits it. *)
Lemma lookalike_origin_not_plain :
  same_host Scenario.lookalike_origin_request = false
  /\ plainly_stated Scenario.lookalike_origin_request = false
  /\ Worker.auth_check Scenario.lookalike_origin_request
       (Sample.env_open (Some "s3cret")) = None.
Proof. repeat split. Qed.

End SameHost.

(** C1 (as amended).  A [POST /api/generate] request that reaches the
    authentication stage is admitted past it when its origin or referer
    header names the host of the service, or when its [x-api-key] header
    is non-empty and equal to the configured secret; among the requests
    none of whose two headers mentions the host without naming it, no
    other request is admitted.  A request that is not admitted is
    answered 401 with kind [unauthorized], with no call to any
    collaborator and the stores untouched, and an admitted request is
    never answered 401. *)
Theorem C1_authentication (req : Request) (env : Env) (ext : Ext) (w : World) :
  req_method req = "POST" ->
  pathname (req_url req) = "/api/generate" ->
  Worker.size_check req = None ->
  (same_host req = true \/ credential_accepted req env ->
     Worker.auth_check req env = None)
  /\ (plainly_stated req = true ->
      Worker.auth_check req env = None ->
      same_host req = true \/ credential_accepted req env)
  /\ (Worker.auth_check req env <> None ->
        Worker.fetch req env ext w =
          (Returned Worker.unauthorized_response, w, [])
        /\ status Worker.unauthorized_response = 401
        /\ error_kind Worker.unauthorized_response = Some "unauthorized")
  /\ (Worker.auth_check req env = None ->
        forall r, outcome_of (Worker.fetch req env ext w) = Returned r ->
                  status r <> 401).
Proof.
  intros Hm Hp Hsize. split; [| split; [| split]].
  - intros [Hsame | Hkey]; apply auth_check_admits.
    + left. by apply same_host_isSameOrigin.
    + by right.
  - intros Hplain Hauth. apply auth_check_admits in Hauth as [Hsame | Hkey].
    + left. by apply isSameOrigin_same_host.
    + by right.
  - intros Hrej. split; [| by split].
    rewrite fetch_generate_route by assumption.
    unfold Worker.handle_generate. rewrite Hsize.
    unfold Worker.auth_check in *.
    destruct (Worker.unauthorized req env); [reflexivity | congruence].
  - intros Hauth r. rewrite fetch_generate_route by assumption.
    unfold Worker.handle_generate. rewrite Hsize, Hauth.
    destruct (Worker.rate_limit_stage req env ext w) as [[l w2] t2] eqn:Hrl.
    destruct l as [r2|].
    { intros [= <-]. apply rate_limit_stage_rejects in Hrl as [-> _]. done. }
    intros Hful. apply fulfil_status in Hful.
    simpl in Hful. intros E. rewrite E in Hful. intuition discriminate.
Qed.

(** C1, the claim as stated fails: an empty [x-api-key] header equals an
    empty configured secret, and the request is answered 401. *)
Lemma C1_counterexample :
  credential_matches Sample.empty_key_request (Sample.env_open (Some ""))
  /\ Worker.size_check Sample.empty_key_request = None
  /\ Worker.fetch Sample.empty_key_request (Sample.env_open (Some ""))
       Sample.ext_ok Sample.empty_world
     = (Returned Worker.unauthorized_response, Sample.empty_world, []).
Proof.
  split; [| split].
  - exists "". split; reflexivity.
  - reflexivity.
  - reflexivity.
Qed.

(** The theorem at a request of the bundled frontend, which names the
    host in its origin header and presents no key, and at a request from
    another site without a key. *)
Lemma C1_authentication_witness :
  Worker.auth_check (Sample.frontend_request (JStr "a cat"))
    (Sample.env_open (Some "s3cret")) = None
  /\ Worker.fetch Sample.foreign_origin_request
       (Sample.env_open (Some "s3cret")) Sample.ext_ok Sample.empty_world
     = (Returned Worker.unauthorized_response, Sample.empty_world, []).
Proof.
  split.
  - apply (C1_authentication (Sample.frontend_request (JStr "a cat"))
             (Sample.env_open (Some "s3cret")) Sample.ext_ok
             Sample.empty_world eq_refl eq_refl eq_refl).
    left. reflexivity.
  - destruct (C1_authentication Sample.foreign_origin_request
                (Sample.env_open (Some "s3cret")) Sample.ext_ok
                Sample.empty_world eq_refl eq_refl eq_refl)
      as (_ & Honly & Hrej & _).
    apply Hrej. intros Hauth.
    destruct (Honly eq_refl Hauth) as [Hsame | (k & _ & Hk & _)];
      discriminate.
Defined.

(* ================================================================== *)
(** * Prompt validation and content filter *)
(* ================================================================== *)

Section Prompt.

Import Worker.

Lemma length_toLowerCase (s : string) :
  String.length (Js.toLowerCase s) = String.length s.
Proof. induction s as [|c s IH]; simpl; congruence. Qed.

Lemma length_append (a b : string) :
  String.length (a ++ b) = (String.length a + String.length b)%nat.
Proof.
  induction a as [|c a IH]; [reflexivity |].
  rewrite append_cons. simpl. by rewrite IH.
Qed.

Lemma includes_length (s w : string) :
  Js.includes s w = true -> (String.length w <= String.length s)%nat.
Proof.
  intros H. destruct (includes_inv _ _ H) as (a & b & ->).
  rewrite !length_append. lia.
Qed.

Lemma blocked_words_solid : forallb solid BLOCKED_WORDS = true.
Proof. reflexivity. Qed.

Lemma blocked_words_long :
  forallb (fun w => 3 <=? str_length w) BLOCKED_WORDS = true.
Proof. reflexivity. Qed.

Lemma blocked_word_solid (word : string) :
  In word BLOCKED_WORDS -> solid word = true.
Proof.
  intros H. pose proof blocked_words_solid as Hall.
  rewrite forallb_forall in Hall. by apply Hall.
Qed.

Lemma blocked_word_long (word : string) :
  In word BLOCKED_WORDS -> (3 <= String.length word)%nat.
Proof.
  intros H. pose proof blocked_words_long as Hall.
  rewrite forallb_forall in Hall. apply Hall in H.
  apply N.leb_le in H. unfold str_length in H. lia.
Qed.

(** The filter fires as soon as one word of the list occurs. *)
Lemma content_filter_fires (prompt word : string) :
  In word BLOCKED_WORDS ->
  Js.includes (Js.toLowerCase prompt) word = true ->
  content_filter prompt = Some inappropriate_response.
Proof.
  intros Hin Hinc. unfold content_filter, foundBlockedWord.
  destruct (List.find _ BLOCKED_WORDS) as [found|] eqn:Hfind.
  - apply find_some in Hfind as [Hfound _].
    apply blocked_word_solid in Hfound. unfold solid in Hfound.
    apply andb_true_iff in Hfound as [Hne _]. simpl. by rewrite Hne.
  - eapply find_none in Hfind; [| exact Hin]. simpl in Hfind. congruence.
Qed.

(** A string prompt reaches the checks trimmed, also when it is empty. *)
Lemma prompt_of_string (body : JsValue) (raw : string) :
  body_prompt body = inr (Some (JStr raw)) ->
  prompt_of body = inr (Js.trim raw).
Proof.
  intros H. unfold prompt_of. rewrite H. simpl.
  by destruct raw.
Qed.

(** An absent prompt is the empty prompt. *)
Lemma prompt_of_absent (body : JsValue) :
  body_prompt body = inr None -> prompt_of body = inr "".
Proof. intros H. unfold prompt_of. by rewrite H. Qed.

Lemma validate_prompt_short (p : string) :
  str_length p < MIN_PROMPT_LENGTH ->
  validate_prompt p = Some invalid_prompt_response.
Proof.
  intros H. unfold validate_prompt.
  apply N.ltb_lt in H. rewrite H, orb_true_r. reflexivity.
Qed.

Lemma validate_prompt_long (p : string) :
  MAX_PROMPT_LENGTH < str_length p ->
  validate_prompt p = Some prompt_too_long_response.
Proof.
  intros H. unfold validate_prompt.
  assert (Hne : Js.truthy_string p = true).
  { destruct p; [| reflexivity]. unfold str_length, MAX_PROMPT_LENGTH in H.
    simpl in H. lia. }
  assert (Hmin : (str_length p <? MIN_PROMPT_LENGTH) = false).
  { apply N.ltb_ge. unfold MIN_PROMPT_LENGTH, MAX_PROMPT_LENGTH in *. lia. }
  apply N.ltb_lt in H. by rewrite Hne, Hmin, H.
Qed.

Lemma validate_prompt_passes (p : string) :
  MIN_PROMPT_LENGTH <= str_length p /\ str_length p <= MAX_PROMPT_LENGTH ->
  validate_prompt p = None.
Proof.
  intros [Hlo Hhi]. unfold validate_prompt.
  assert (Hne : Js.truthy_string p = true).
  { destruct p; [| reflexivity]. unfold str_length, MIN_PROMPT_LENGTH in Hlo.
    simpl in Hlo. lia. }
  apply N.ltb_ge in Hlo, Hhi. by rewrite Hne, Hlo, Hhi.
Qed.

Lemma no_generation_app (t1 t2 : list Event) :
  no_generation t1 -> no_generation t2 -> no_generation (t1 ++ t2)%list.
Proof.
  unfold no_generation. intros H1 H2. by rewrite forallb_app, H1, H2.
Qed.

(** The route up to the point where the prompt has been read. *)
Lemma handle_generate_at_prompt (req : Request) (env : Env) (ext : Ext)
    (w w2 : World) (t2 : list Event) (body : JsValue) (prompt : string) :
  size_check req = None ->
  auth_check req env = None ->
  rate_limit_stage req env ext w = (None, w2, t2) ->
  req_json req = JsonOk body ->
  prompt_of body = inr prompt ->
  handle_generate req env ext w =
  match validate_prompt prompt with
  | Some r => (Returned r, w2, (t2 ++ [CallJson])%list)
  | None =>
      match content_filter prompt with
      | Some r => (Returned r, w2, (t2 ++ [CallJson])%list)
      | None =>
          generate_and_store req env ext prompt w2 (t2 ++ [CallJson])%list
      end
  end.
Proof.
  intros Hs Ha Hr Hj Hp. unfold handle_generate, fulfil.
  by rewrite Hs, Ha, Hr, Hj, Hp.
Qed.

(** A body without a prompt is answered [invalid_prompt]. *)
Lemma absent_prompt_invalid (req : Request) (env : Env) (ext : Ext)
    (w w2 : World) (t2 : list Event) (body : JsValue) :
  size_check req = None ->
  auth_check req env = None ->
  rate_limit_stage req env ext w = (None, w2, t2) ->
  req_json req = JsonOk body ->
  body_prompt body = inr None ->
  handle_generate req env ext w
  = (Returned invalid_prompt_response, w2, (t2 ++ [CallJson])%list).
Proof.
  intros Hs Ha Hr Hj Hb.
  by rewrite (handle_generate_at_prompt req env ext w w2 t2 body "")
    by (try assumption; by apply prompt_of_absent).
Qed.

End Prompt.

(** C2 (as amended).  For every request that reaches the content filter
    with a string prompt whose trimmed length is at most 500 and whose
    lower-cased text contains a word of the denylist, at any position, the
    answer is 400 with kind [inappropriate_prompt] and the Generation
    Client is not called. *)
Theorem C2_denylisted_prompt_rejected (req : Request) (env : Env) (ext : Ext)
    (w w2 : World) (t2 : list Event) (body : JsValue) (raw word : string) :
  req_method req = "POST" ->
  pathname (req_url req) = "/api/generate" ->
  Worker.size_check req = None ->
  Worker.auth_check req env = None ->
  Worker.rate_limit_stage req env ext w = (None, w2, t2) ->
  req_json req = JsonOk body ->
  Worker.body_prompt body = inr (Some (JStr raw)) ->
  In word Worker.BLOCKED_WORDS ->
  Js.includes (Js.toLowerCase raw) word = true ->
  Worker.str_length (Js.trim raw) <= Worker.MAX_PROMPT_LENGTH ->
  Worker.fetch req env ext w =
    (Returned Worker.inappropriate_response, w2, (t2 ++ [CallJson])%list)
  /\ status Worker.inappropriate_response = 400
  /\ error_kind Worker.inappropriate_response = Some "inappropriate_prompt"
  /\ no_generation (t2 ++ [CallJson])%list.
Proof.
  intros Hm Hp Hs Ha Hr Hj Hb Hin Hinc Hlen.
  assert (Htrim : Js.includes (Js.toLowerCase (Js.trim raw)) word = true).
  { rewrite toLowerCase_trim. apply includes_trim; [| exact Hinc].
    by apply blocked_word_solid. }
  split; [| split; [reflexivity | split; [reflexivity |]]].
  - rewrite fetch_generate_route by assumption.
    rewrite (handle_generate_at_prompt req env ext w w2 t2 body (Js.trim raw))
      by (try assumption; by apply prompt_of_string).
    rewrite validate_prompt_passes.
    + by rewrite (content_filter_fires _ word).
    + split; [| exact Hlen].
      apply includes_length in Htrim. rewrite length_toLowerCase in Htrim.
      apply blocked_word_long in Hin.
      unfold Worker.str_length, Worker.MIN_PROMPT_LENGTH. lia.
  - apply no_generation_app; [| reflexivity].
    by apply rate_limit_stage_frame in Hr as (_ & _ & Hr).
Qed.

(** C2, the claim as stated fails: a prompt of 501 characters that starts
    with a denylisted word is answered [prompt_too_long]. *)
Lemma C2_counterexample :
  In "kill" Worker.BLOCKED_WORDS
  /\ Js.includes (Js.toLowerCase Sample.long_denylisted_prompt) "kill" = true
  /\ Worker.fetch
       (Sample.frontend_request (JStr Sample.long_denylisted_prompt))
       (Sample.env_open None) Sample.ext_ok Sample.empty_world
     = (Returned Worker.prompt_too_long_response, Sample.empty_world,
        [CallJson])
  /\ error_kind Worker.prompt_too_long_response = Some "prompt_too_long".
Proof.
  split; [simpl; tauto |]. split; [reflexivity |].
  split; [vm_compute; reflexivity | reflexivity].
Qed.

(** The theorem at a prompt with the word in mixed case, inside padding. *)
Lemma C2_denylisted_prompt_rejected_witness :
  Worker.fetch (Sample.frontend_request (JStr "  a NuDe cat "))
    (Sample.env_open None) Sample.ext_ok Sample.empty_world
  = (Returned Worker.inappropriate_response, Sample.empty_world, [CallJson]).
Proof.
  apply (C2_denylisted_prompt_rejected
           (Sample.frontend_request (JStr "  a NuDe cat "))
           (Sample.env_open None) Sample.ext_ok Sample.empty_world
           Sample.empty_world [] (JObj [("prompt", JStr "  a NuDe cat ")])
           "  a NuDe cat " "nude");
    try reflexivity.
  - simpl. tauto.
  - vm_compute. discriminate.
Defined.

(** C3.  For every request that reaches prompt validation with a string
    prompt: a trimmed length below 3 is answered 400 [invalid_prompt], a
    trimmed length above 500 is answered 400 [prompt_too_long], in both
    cases without a call to the Generation Client; trimmed lengths of
    exactly 3 and exactly 500 pass both length checks. *)
Theorem C3_prompt_length_bounds (req : Request) (env : Env) (ext : Ext)
    (w w2 : World) (t2 : list Event) (body : JsValue) (raw : string) :
  req_method req = "POST" ->
  pathname (req_url req) = "/api/generate" ->
  Worker.size_check req = None ->
  Worker.auth_check req env = None ->
  Worker.rate_limit_stage req env ext w = (None, w2, t2) ->
  req_json req = JsonOk body ->
  Worker.body_prompt body = inr (Some (JStr raw)) ->
  (Worker.str_length (Js.trim raw) < 3 ->
     Worker.fetch req env ext w =
       (Returned Worker.invalid_prompt_response, w2, (t2 ++ [CallJson])%list))
  /\ (500 < Worker.str_length (Js.trim raw) ->
        Worker.fetch req env ext w =
          (Returned Worker.prompt_too_long_response, w2,
           (t2 ++ [CallJson])%list))
  /\ no_generation (t2 ++ [CallJson])%list
  /\ status Worker.invalid_prompt_response = 400
  /\ error_kind Worker.invalid_prompt_response = Some "invalid_prompt"
  /\ status Worker.prompt_too_long_response = 400
  /\ error_kind Worker.prompt_too_long_response = Some "prompt_too_long"
  /\ (Worker.str_length (Js.trim raw) = 3
      \/ Worker.str_length (Js.trim raw) = 500 ->
      Worker.validate_prompt (Js.trim raw) = None).
Proof.
  intros Hm Hp Hs Ha Hr Hj Hb.
  assert (Hroute : Worker.fetch req env ext w =
            match Worker.validate_prompt (Js.trim raw) with
            | Some r => (Returned r, w2, (t2 ++ [CallJson])%list)
            | None =>
                match Worker.content_filter (Js.trim raw) with
                | Some r => (Returned r, w2, (t2 ++ [CallJson])%list)
                | None =>
                    Worker.generate_and_store req env ext (Js.trim raw) w2
                      (t2 ++ [CallJson])%list
                end
            end).
  { rewrite fetch_generate_route by assumption.
    eapply handle_generate_at_prompt; try eassumption.
    by apply prompt_of_string. }
  repeat split.
  - intros Hlen. by rewrite Hroute, validate_prompt_short.
  - intros Hlen. by rewrite Hroute, validate_prompt_long.
  - apply no_generation_app; [| reflexivity].
    by apply rate_limit_stage_frame in Hr as (_ & _ & Hr).
  - intros Hlen. apply validate_prompt_passes.
    unfold Worker.MIN_PROMPT_LENGTH, Worker.MAX_PROMPT_LENGTH. lia.
Qed.

(** The theorem at a prompt of two characters between spaces. *)
Lemma C3_prompt_length_bounds_witness :
  Worker.fetch (Sample.frontend_request (JStr "  ab  "))
    (Sample.env_open None) Sample.ext_ok Sample.empty_world
  = (Returned Worker.invalid_prompt_response, Sample.empty_world, [CallJson])
  /\ Worker.validate_prompt (Js.trim " cat ") = None.
Proof.
  destruct (C3_prompt_length_bounds
              (Sample.frontend_request (JStr "  ab  "))
              (Sample.env_open None) Sample.ext_ok Sample.empty_world
              Sample.empty_world [] (JObj [("prompt", JStr "  ab  ")])
              "  ab  " eq_refl eq_refl eq_refl eq_refl eq_refl eq_refl eq_refl)
    as (Hshort & _).
  split; [apply Hshort; reflexivity | reflexivity].
Defined.

(* ================================================================== *)
(** * The daily budget *)
(* ================================================================== *)

Section Budget.

Import Worker.

Lemma update_spend_configured (env : Env) (ext : Ext)
    (cells : gmap string float) :
  counter_store_configured env = true ->
  update_spend env ext cells =
  (<[spend_key (now_spend ext) :=
       (Upstash.get_spend (spend_key (now_spend ext)) cells + costPerImage)%float]>
     cells,
   [CallRedisGet (spend_key (now_spend ext));
    CallRedisSet (spend_key (now_spend ext))]).
Proof. intros H. unfold update_spend. by rewrite H. Qed.

(** One update adds the cost to the cell of the day. *)
Lemma get_spend_after_update (env : Env) (ext : Ext)
    (cells : gmap string float) :
  counter_store_configured env = true ->
  Upstash.get_spend (spend_key (now_spend ext))
    (fst (update_spend env ext cells))
  = (Upstash.get_spend (spend_key (now_spend ext)) cells + costPerImage)%float.
Proof.
  intros H. rewrite update_spend_configured by exact H.
  unfold Upstash.get_spend. simpl. by rewrite lookup_insert_eq.
Qed.

(** [n] updates of a cell that exists add the cost [n] times. *)
Lemma ledger_after_singleton (n : nat) (env : Env) (ext : Ext) (x : float) :
  counter_store_configured env = true ->
  ledger_after n env ext {[spend_key (now_spend ext) := x]}
  = {[spend_key (now_spend ext) := add_cost n x]}.
Proof.
  intros H. revert x. induction n as [|n IH]; intros x; [reflexivity |].
  cbn [ledger_after add_cost].
  rewrite update_spend_configured by exact H. cbn [fst].
  unfold Upstash.get_spend. rewrite lookup_singleton_eq. cbn [default].
  rewrite insert_singleton_eq. apply IH.
Qed.

(** The first update creates the cell. *)
Lemma ledger_after_absent (n : nat) (env : Env) (ext : Ext) :
  counter_store_configured env = true ->
  ledger_after (S n) env ext ∅
  = {[spend_key (now_spend ext) := add_cost n (0 + costPerImage)%float]}.
Proof.
  intros H. cbn [ledger_after].
  rewrite update_spend_configured by exact H. cbn [fst].
  unfold Upstash.get_spend. rewrite lookup_empty. cbn [default].
  rewrite insert_empty. by apply ledger_after_singleton.
Qed.

Lemma world_after_updates_cell (n : nat) :
  Sample.world_after_updates (S n)
  = {| windows := ∅;
       ledger := {[ "spend:2024-01-01" :=
                    add_cost n (0 + costPerImage)%float ]};
       ART := ∅ |}.
Proof.
  unfold Sample.world_after_updates.
  by rewrite ledger_after_absent.
Qed.

End Budget.

(** C4 (the code at the failing input).  On the day of [BusyDay] the
    worker, with the counter store configured and the stores empty at the
    start, handles 2500 requests; each is answered 200 and has its cost
    recorded in the spend cell of 2024-01-01; with the request that
    follows, no hour sees more than 100 of them pass the global limit.
    After the 2500 the cell holds 9.999999999999343,
    which the budget check does not take for the cap of 10.00, and the
    next request, whose budget check reads the cell of the same day, is
    answered 200 and not 429 [daily_budget_exceeded]. *)
Theorem C4_budget_not_reached_after_2500 :
  statuses (Sample.env_limited None) (BusyDay.steps 2500) Sample.empty_world
  = repeat (Some 200) 2500
  /\ forallb
       (fun i =>
          String.eqb (Worker.spend_key (now_spend (BusyDay.answers (N.of_nat i))))
            "spend:2024-01-01")
       (seq 0 2500) = true
  /\ map (BusyDay.admitted_in 2501) BusyDay.hours = (1 :: repeat 100 25)%nat
  /\ ledger
       (run (Sample.env_limited None) (BusyDay.steps 2500) Sample.empty_world)
     !! "spend:2024-01-01"
     = Some 9.999999999999343%float
  /\ Worker.budget_exceeded 9.999999999999343%float = false
  /\ Worker.spend_key (now_check (BusyDay.answers 2500)) = "spend:2024-01-01"
  /\ outcome_of
       (Worker.fetch (BusyDay.request 2500) (Sample.env_limited None)
          (BusyDay.answers 2500)
          (run (Sample.env_limited None) (BusyDay.steps 2500)
             Sample.empty_world))
     = Returned
         (Worker.success_response (Sample.service "/api/generate")
            "art/2024-01-01T23-50-34-000Z.jpg" "a cat").
Proof.
  split; [vm_compute; reflexivity |].
  split; [vm_compute; reflexivity |].
  split; [vm_compute; reflexivity |].
  split; [vm_compute; reflexivity |].
  split; [vm_compute; reflexivity |].
  split; vm_compute; reflexivity.
Qed.

(* ================================================================== *)
(** * Generation and persistence *)
(* ================================================================== *)

Section Persistence.

Import Worker.

Lemma no_generation_In (t : list Event) (p : string) :
  no_generation t -> In (CallGenerate p) t -> False.
Proof.
  unfold no_generation. rewrite forallb_forall. intros H Hin.
  apply H in Hin. discriminate.
Qed.

Lemma update_spend_trace (env : Env) (ext : Ext) (cells : gmap string float) :
  no_generation (snd (update_spend env ext cells)).
Proof. unfold update_spend. by destruct (counter_store_configured env). Qed.

(** The [try] block when the provider has answered with an image within
    the size ceiling: the spend is recorded, both writes are issued, and
    the response is chosen by the outcome of the writes. *)
Lemma generate_and_store_generated (req : Request) (env : Env) (ext : Ext)
    (p : string) (w : World) (t : list Event) (bytes : list byte) :
  generateImage ext = Generated bytes ->
  N.of_nat (length bytes) <= MAX_IMAGE_BYTES ->
  generate_and_store req env ext p w t =
  (Returned
     match rejection ext with
     | Some m => catch_response m
     | None => success_response (req_url req) (historyKey_at (now_store ext)) p
     end,
   {| windows := windows w;
      ledger := fst (update_spend env ext (ledger w));
      ART := store_both (historyKey_at (now_store ext)) bytes ext (ART w) |},
   ((t ++ [CallGenerate p]) ++ snd (update_spend env ext (ledger w))
    ++ [CallPut (historyKey_at (now_store ext)); CallPut latestKey])%list).
Proof.
  intros Hg Hsize. unfold generate_and_store. rewrite Hg.
  apply N.ltb_ge in Hsize. rewrite Hsize.
  destruct (update_spend env ext (ledger w)) as [cells t7]. cbn [fst snd].
  by destruct (rejection ext).
Qed.

Lemma generate_and_store_prompt (req : Request) (env : Env) (ext : Ext)
    (p q : string) (w : World) (t : list Event) :
  no_generation t ->
  In (CallGenerate q) (trace_of (generate_and_store req env ext p w t)) ->
  q = p.
Proof.
  intros Ht. unfold generate_and_store, trace_of.
  pose proof (update_spend_trace env ext (ledger w)) as H7.
  destruct (update_spend env ext (ledger w)) as [cells t7]. cbn [snd] in H7.
  destruct (generateImage ext) as [bytes|m];
    [destruct (MAX_IMAGE_BYTES <? _); [| destruct (rejection ext)] |];
    cbn [snd]; rewrite ?in_app_iff; simpl; intros Hin;
    repeat match goal with
           | H : _ \/ _ |- _ => destruct H
           | H : CallGenerate _ = CallGenerate _ |- _ => by injection H
           | H : In (CallGenerate _) _ |- _ =>
               by (exfalso; eapply no_generation_In; [| exact H])
           | H : False |- _ => destruct H
           | H : _ = CallGenerate _ |- _ => discriminate H
           end.
Qed.

Lemma fulfil_generation (req : Request) (env : Env) (ext : Ext) (w2 : World)
    (t2 : list Event) (p : string) :
  no_generation t2 ->
  In (CallGenerate p) (trace_of (fulfil req env ext w2 t2)) ->
  fulfil req env ext w2 t2
  = generate_and_store req env ext p w2 (t2 ++ [CallJson])%list.
Proof.
  intros Ht2.
  assert (Ht3 : no_generation (t2 ++ [CallJson])%list).
  { by apply no_generation_app. }
  unfold fulfil.
  destruct (req_json req) as [body|];
    [destruct (prompt_of body) as [e|q];
       [| destruct (validate_prompt q);
            [| destruct (content_filter q)]] |];
    intros Hin;
    try (exfalso; eapply no_generation_In; [exact Ht3 | exact Hin]).
  by rewrite (generate_and_store_prompt _ _ _ _ _ _ _ Ht3 Hin).
Qed.

(** A request whose trace shows a call to the Generation Client went
    through every stage of the generation route. *)
Lemma fetch_generation (req : Request) (env : Env) (ext : Ext) (w : World)
    (p : string) :
  In (CallGenerate p) (trace_of (fetch req env ext w)) ->
  exists (w2 : World) (t2 : list Event),
    rate_limit_stage req env ext w = (None, w2, t2)
    /\ fetch req env ext w
       = generate_and_store req env ext p w2 (t2 ++ [CallJson])%list.
Proof.
  unfold fetch.
  destruct (String.eqb (req_method req) "POST"
            && String.eqb (pathname (req_url req)) "/api/generate").
  - unfold handle_generate.
    destruct (size_check req); [intros []|].
    destruct (auth_check req env); [intros []|].
    destruct (rate_limit_stage req env ext w) as [[l w2] t2] eqn:Hrl.
    pose proof (rate_limit_stage_frame _ _ _ _ _ _ _ Hrl) as (_ & _ & Ht2).
    destruct l as [r|].
    + intros Hin. exfalso. eapply no_generation_In; [exact Ht2 | exact Hin].
    + intros Hin. exists w2, t2. split; [reflexivity |].
      by apply fulfil_generation.
  - unfold serve_art.
    repeat case_match; simpl; intros Hin;
      repeat match goal with
             | H : _ \/ _ |- _ => destruct H
             | H : False |- _ => destruct H
             | H : _ = CallGenerate _ |- _ => discriminate H
             end.
Qed.

(** Two stored writes leave both objects in the bucket with the bytes. *)
Lemma store_both_stored (hk : string) (bytes : list byte) (ext : Ext)
    (bucket : gmap string R2Object) (eh el : string) :
  put_history ext = Stored eh ->
  put_latest ext = Stored el ->
  obj_body <$> (store_both hk bytes ext bucket !! hk) = Some bytes
  /\ obj_body <$> (store_both hk bytes ext bucket !! latestKey) = Some bytes.
Proof.
  intros Hh Hl.
  unfold store_both, put_history_object, put_latest_object, put.
  rewrite Hh, Hl.
  destruct (latest_settles_first ext), (decide (hk = latestKey)) as [->|Hne];
    by simplify_map_eq.
Qed.

Lemma rejection_none (ext : Ext) :
  rejection ext = None ->
  exists eh el, put_history ext = Stored eh /\ put_latest ext = Stored el.
Proof.
  unfold rejection.
  destruct (put_history ext) as [eh|], (put_latest ext) as [el|];
    try discriminate.
  intros _. by exists eh, el.
Qed.

Lemma rejection_some (ext : Ext) :
  (exists m, put_history ext = PutFailed m)
  \/ (exists m, put_latest ext = PutFailed m) ->
  exists m, rejection ext = Some m
            /\ (put_history ext = PutFailed m \/ put_latest ext = PutFailed m).
Proof.
  unfold rejection.
  destruct (put_history ext) as [eh|mh], (put_latest ext) as [el|ml];
    intros [[m Hm]|[m Hm]]; try discriminate;
    try (injection Hm as <-);
    try (destruct (latest_settles_first ext)); eauto.
Qed.

End Persistence.

(** C5 (the code at the failing input).  After a generation within the
    size ceiling the history object is stored and the write of the latest
    object fails with a message that mentions status 429 (and none of the
    patterns that the [catch] block looks for first).  Both writes were
    issued and the history object is in the bucket, but the caller is
    answered 429 [ai_provider_rate_limit], the answer meant for a provider
    that is rate limiting, and not a 5xx response. *)
Theorem C5_storage_failure_answered_429 (req : Request) (env : Env)
    (ext : Ext) (w : World) (p : string) (bytes : list byte)
    (eh m : string) :
  In (CallGenerate p) (trace_of (Worker.fetch req env ext w)) ->
  generateImage ext = Generated bytes ->
  N.of_nat (length bytes) <= Worker.MAX_IMAGE_BYTES ->
  put_history ext = Stored eh ->
  put_latest ext = PutFailed (Some m) ->
  Js.includes m "429" = true ->
  Js.includes m "insufficient_credits" = false ->
  Js.includes m "402" = false ->
  Js.includes m "timeout" = false ->
  Js.includes m "ETIMEDOUT" = false ->
  outcome_of (Worker.fetch req env ext w)
  = Returned
      (Worker.error_response 429 "ai_provider_rate_limit"
         "AI provider is rate limiting. Please wait a moment.")
  /\ (status
        (Worker.error_response 429 "ai_provider_rate_limit"
           "AI provider is rate limiting. Please wait a moment.")
      <? 500) = true
  /\ In (CallPut (Worker.historyKey_at (now_store ext)))
        (trace_of (Worker.fetch req env ext w))
  /\ In (CallPut Worker.latestKey) (trace_of (Worker.fetch req env ext w))
  /\ obj_body <$> (ART (world_of (Worker.fetch req env ext w))
                   !! Worker.historyKey_at (now_store ext)) = Some bytes.
Proof.
  intros Hin Hg Hsize Hh Hl H429 Hcredits H402 Htimeout Hetimedout.
  destruct (fetch_generation _ _ _ _ _ Hin) as (w2 & t2 & Hrl & ->).
  rewrite (generate_and_store_generated _ _ _ _ _ _ bytes Hg Hsize).
  unfold trace_of, outcome_of, world_of. cbn [fst snd ART].
  assert (Hrej : Worker.rejection ext = Some (Some m))
    by (unfold Worker.rejection; by rewrite Hh, Hl).
  rewrite Hrej. split; [| split; [reflexivity | split; [| split]]].
  - unfold Worker.catch_response, Worker.opt_includes.
    rewrite Hcredits, H402, Htimeout, Hetimedout, H429.
    cbn [orb]. by rewrite orb_true_r.
  - rewrite !in_app_iff. simpl. tauto.
  - rewrite !in_app_iff. simpl. tauto.
  - unfold Worker.store_both, Worker.put_history_object,
      Worker.put_latest_object, Worker.put.
    rewrite Hh, Hl.
    destruct (latest_settles_first ext); by rewrite lookup_insert_eq.
Qed.

(** The theorem at the failing input: the answer to the request whose
    latest write fails. *)
Lemma C5_storage_failure_answered_429_witness :
  outcome_of
    (Worker.fetch (Sample.frontend_request (JStr "a cat"))
       (Sample.env_open None) Sample.ext_latest_put_fails
       Sample.empty_world)
  = Returned
      {| status := 429;
         headers := [("content-type", "application/json")];
         body :=
           Json [("error", "ai_provider_rate_limit");
                 ("message",
                  "AI provider is rate limiting. Please wait a moment.")] |}.
Proof.
  refine (proj1 (C5_storage_failure_answered_429
            (Sample.frontend_request (JStr "a cat")) (Sample.env_open None)
            Sample.ext_latest_put_fails Sample.empty_world
            "a cat" Sample.image "etag-h"
            "put art/latest.jpg: 429 Too Many Requests"
            _ eq_refl _ eq_refl eq_refl eq_refl eq_refl eq_refl eq_refl
            eq_refl)).
  - vm_compute. tauto.
  - vm_compute. discriminate.
Defined.

(* ================================================================== *)
(** * Which stage a response comes from *)
(* ================================================================== *)

Section Responses.

Import Worker.

Lemma size_check_rejects (req : Request) (r : Response) :
  size_check req = Some r ->
  too_large req = true
  /\ r = error_response 413 "request_too_large"
           "Request body exceeds 10KB limit".
Proof.
  unfold size_check. destruct (too_large req); [| discriminate].
  by intros [= <-].
Qed.

Lemma auth_check_rejects (req : Request) (env : Env) (r : Response) :
  auth_check req env = Some r -> r = unauthorized_response.
Proof.
  unfold auth_check. destruct (unauthorized req env); [| discriminate].
  by intros [= <-].
Qed.

Lemma generate_and_store_kind (req : Request) (env : Env) (ext : Ext)
    (p : string) (w : World) (t : list Event) (r : Response) :
  outcome_of (generate_and_store req env ext p w t) = Returned r ->
  In (error_kind r)
     [None; Some "image_too_large";
      Some "insufficient_credits"; Some "timeout";
      Some "ai_provider_rate_limit"; Some "invalid_prompt_for_provider";
      Some "generation_failed"].
Proof.
  unfold generate_and_store, outcome_of.
  destruct (update_spend env ext (ledger w)) as [cells t7].
  destruct (generateImage ext) as [bytes|m];
    [destruct (MAX_IMAGE_BYTES <? _); [| destruct (rejection ext) as [m|]] |];
    cbn [fst]; intros [= <-];
    try (pose proof (catch_response_kind m) as H; simpl in *; tauto);
    simpl; tauto.
Qed.

Lemma fulfil_kind (req : Request) (env : Env) (ext : Ext) (w2 : World)
    (t2 : list Event) (r : Response) :
  outcome_of (fulfil req env ext w2 t2) = Returned r ->
  In (error_kind r)
     [None; Some "invalid_json"; Some "invalid_prompt";
      Some "prompt_too_long"; Some "inappropriate_prompt";
      Some "image_too_large";
      Some "insufficient_credits"; Some "timeout";
      Some "ai_provider_rate_limit"; Some "invalid_prompt_for_provider";
      Some "generation_failed"].
Proof.
  unfold fulfil.
  destruct (req_json req) as [body|]; [| intros [= <-]; simpl; tauto].
  destruct (prompt_of body) as [e|p]; [discriminate |].
  destruct (validate_prompt p) as [r3|] eqn:Hv.
  { intros [= <-]. apply validate_prompt_rejects in Hv as [_ Hk].
    simpl in *. tauto. }
  destruct (content_filter p) as [r4|] eqn:Hc.
  { intros [= <-]. apply content_filter_rejects in Hc as ->. simpl; tauto. }
  intros H. apply generate_and_store_kind in H. simpl in *. tauto.
Qed.

(** The kinds of the first two stages and of the rate-limit stage occur
    nowhere else: a response of the worker with such a kind was produced
    by that stage. *)
Lemma fetch_early_kind (req : Request) (env : Env) (ext : Ext) (w w' : World)
    (r : Response) (t : list Event) (k : string) :
  fetch req env ext w = (Returned r, w', t) ->
  error_kind r = Some k ->
  In k ["request_too_large"; "rate_limit_exceeded";
        "global_rate_limit_exceeded"; "daily_budget_exceeded"] ->
  req_method req = "POST"
  /\ pathname (req_url req) = "/api/generate"
  /\ (size_check req = Some r
      \/ (size_check req = None /\ auth_check req env = None
          /\ rate_limit_stage req env ext w = (Some r, w', t))).
Proof.
  unfold fetch.
  destruct (String.eqb (req_method req) "POST") eqn:Hm;
    [destruct (String.eqb (pathname (req_url req)) "/api/generate") eqn:Hp |];
    cbn [andb].
  - apply String.eqb_eq in Hm, Hp. intros H Hk Hin.
    split; [exact Hm |]. split; [exact Hp |].
    revert H. unfold handle_generate.
    destruct (size_check req) as [r0|] eqn:Hs; [intros [= <- <- <-]; by left |].
    destruct (auth_check req env) as [r1|] eqn:Ha.
    { intros [= <- <- <-]. apply auth_check_rejects in Ha as ->.
      simpl in Hk. injection Hk as <-. simpl in Hin.
      intuition discriminate. }
    destruct (rate_limit_stage req env ext w) as [[l w2] t2] eqn:Hrl.
    destruct l as [r2|]; [intros [= <- <- <-]; right; by repeat split |].
    intros H. exfalso.
    assert (Hf : outcome_of (fulfil req env ext w2 t2) = Returned r)
      by (by rewrite H).
    apply fulfil_kind in Hf. rewrite Hk in Hf. simpl in Hf, Hin.
    intuition (simplify_eq; discriminate).
  - unfold serve_art.
    repeat case_match; intros [= <- <- <-]; discriminate.
  - unfold serve_art.
    repeat case_match; intros [= <- <- <-]; discriminate.
Qed.

End Responses.

(* ================================================================== *)
(** * Order of the rate limits and the budget check *)
(* ================================================================== *)

Section RateLimits.

Import Worker.

Lemma window_keys_differ (a b : string) (wa wb na nb : N) :
  Upstash.window_key "rl:ip" a wa na <> Upstash.window_key "rl:global" b wb nb.
Proof.
  unfold Upstash.window_key. rewrite !append_cons. intros H.
  injection H as H. discriminate.
Qed.

(** Whenever the stage reads a spend cell, both windows have been
    incremented before, the per-caller one first. *)
Lemma rate_limit_stage_budget (req : Request) (env : Env) (ext : Ext)
    (w w2 : World) (l : option Response) (t2 : list Event) (key : string) :
  rate_limit_stage req env ext w = (l, w2, t2) ->
  In (CallRedisGet key) t2 ->
  counter_store_configured env = true
  /\ counted_before_budget_check req ext w w2 t2.
Proof.
  pose proof (window_keys_differ (client_ip req) "all" 60000 3600000
                (now_ip ext) (now_global ext)) as Hne.
  unfold counted_before_budget_check, rate_limit_stage, Upstash.limit.
  fold (Upstash.window_key "rl:ip" (client_ip req) 60000 (now_ip ext)).
  fold (Upstash.window_key "rl:global" "all" 3600000 (now_global ext)).
  destruct (counter_store_configured env); [| by intros [= <- <- <-] []].
  cbn [Upstash.success].
  destruct (negb _); [intros [= <- <- <-]; simpl; intuition discriminate |].
  destruct (negb _); [intros [= <- <- <-]; simpl; intuition discriminate |].
  destruct (budget_exceeded _); intros [= <- <- <-] _; cbn [windows];
    (split; [reflexivity |]); (split; [reflexivity |]);
    rewrite lookup_insert_eq, lookup_insert_ne, lookup_insert_eq by done;
    rewrite lookup_insert_ne by done; done.
Qed.

Lemma rate_limit_stage_budget_trace (req : Request) (env : Env) (ext : Ext)
    (w w2 : World) (r : Response) (t2 : list Event) :
  rate_limit_stage req env ext w = (Some r, w2, t2) ->
  error_kind r = Some "daily_budget_exceeded" ->
  In (CallRedisGet (spend_key (now_check ext))) t2.
Proof.
  unfold rate_limit_stage, Upstash.limit.
  destruct (counter_store_configured env); [| discriminate].
  cbn [Upstash.success].
  destruct (negb _); [intros [= <- <- <-]; discriminate |].
  destruct (negb _); [intros [= <- <- <-]; discriminate |].
  destruct (budget_exceeded _); intros [= <- <- <-] _.
  simpl. tauto.
Qed.

End RateLimits.

(** C6.  With the counter store configured, the spend cell of the budget
    check is read only after the per-caller and then the global window
    have been incremented; so every request answered with kind
    [daily_budget_exceeded] (status 429) has been counted once in both
    windows. *)
Theorem C6_budget_check_after_rate_limits (req : Request) (env : Env)
    (ext : Ext) (w : World) :
  (forall l w2 t2 key,
      Worker.rate_limit_stage req env ext w = (l, w2, t2) ->
      In (CallRedisGet key) t2 ->
      Worker.counter_store_configured env = true
      /\ counted_before_budget_check req ext w w2 t2)
  /\ (forall r w' t,
        Worker.fetch req env ext w = (Returned r, w', t) ->
        error_kind r = Some "daily_budget_exceeded" ->
        Worker.counter_store_configured env = true
        /\ status r = 429
        /\ counted_before_budget_check req ext w w' t).
Proof.
  split; [intros l w2 t2 key; apply rate_limit_stage_budget |].
  intros r w' t Hf Hk.
  destruct (fetch_early_kind _ _ _ _ _ _ _ _ Hf Hk) as (_ & _ & [Hs|Hrl]).
  { simpl. tauto. }
  { apply size_check_rejects in Hs as [_ ->]. discriminate. }
  destruct Hrl as (_ & _ & Hrl).
  pose proof (rate_limit_stage_rejects _ _ _ _ _ _ _ Hrl) as [Hst _].
  pose proof (rate_limit_stage_budget_trace _ _ _ _ _ _ _ Hrl Hk) as Hin.
  destruct (rate_limit_stage_budget _ _ _ _ _ _ _ _ Hrl Hin) as [Hc Hcnt].
  split; [exact Hc | split; [exact Hst | exact Hcnt]].
Qed.

(** The theorem at a request that meets a spend cell above the cap. *)
Lemma C6_budget_check_after_rate_limits_witness :
  windows
    (world_of
       (Worker.fetch (Sample.frontend_request (JStr "a cat"))
          (Sample.env_limited None) Sample.ext_ok
          (Sample.world_after_updates 2501)))
    !! "rl:global:all:473352"
  = Some 1.
Proof.
  assert (Hf :
    Worker.fetch (Sample.frontend_request (JStr "a cat"))
      (Sample.env_limited None) Sample.ext_ok
      (Sample.world_after_updates 2501)
    = (Returned Worker.budget_response,
       world_of
         (Worker.fetch (Sample.frontend_request (JStr "a cat"))
            (Sample.env_limited None) Sample.ext_ok
            (Sample.world_after_updates 2501)),
       trace_of
         (Worker.fetch (Sample.frontend_request (JStr "a cat"))
            (Sample.env_limited None) Sample.ext_ok
            (Sample.world_after_updates 2501)))).
  { rewrite world_after_updates_cell. vm_compute. reflexivity. }
  destruct (proj2 (C6_budget_check_after_rate_limits
                     (Sample.frontend_request (JStr "a cat"))
                     (Sample.env_limited None) Sample.ext_ok
                     (Sample.world_after_updates 2501)) _ _ _ Hf eq_refl)
    as (_ & _ & _ & _ & Hgl).
  exact Hgl.
Defined.

(* ================================================================== *)
(** * Round trip through the bucket *)
(* ================================================================== *)

Section RoundTrip.

Import Worker.

(** A 200 answer of the generation route is the success response, and both
    writes were stored on top of the bucket the request met. *)
Lemma fetch_success (req : Request) (env : Env) (ext : Ext) (w : World)
    (bytes : list byte) :
  successful_generation req env ext w bytes ->
  exists (p eh el : string),
    put_history ext = Stored eh /\ put_latest ext = Stored el
    /\ outcome_of (fetch req env ext w)
       = Returned (success_response (req_url req)
                     (historyKey_at (now_store ext)) p)
    /\ ART (world_of (fetch req env ext w))
       = store_both (historyKey_at (now_store ext)) bytes ext (ART w).
Proof.
  intros (Hm & Hp & Hg & r & Hr & H200).
  rewrite fetch_generate_route in * by assumption.
  revert Hr. unfold handle_generate.
  destruct (size_check req) as [r0|] eqn:Hs.
  { intros [= <-]. apply size_check_rejects in Hs as [_ ->]. discriminate. }
  destruct (auth_check req env) as [r1|] eqn:Ha.
  { intros [= <-]. apply auth_check_rejects in Ha as ->. discriminate. }
  destruct (rate_limit_stage req env ext w) as [[l w2] t2] eqn:Hrl.
  pose proof (rate_limit_stage_frame _ _ _ _ _ _ _ Hrl) as (HART & _ & _).
  destruct l as [r2|].
  { intros [= <-]. apply rate_limit_stage_rejects in Hrl as [Hst _].
    rewrite Hst in H200. discriminate. }
  unfold fulfil.
  destruct (req_json req) as [body|]; [| intros [= <-]; discriminate].
  destruct (prompt_of body) as [e|p]; [discriminate |].
  destruct (validate_prompt p) as [r3|] eqn:Hv.
  { intros [= <-]. apply validate_prompt_rejects in Hv as [Hst _].
    rewrite Hst in H200. discriminate. }
  destruct (content_filter p) as [r4|] eqn:Hc.
  { intros [= <-]. apply content_filter_rejects in Hc as ->. discriminate. }
  unfold generate_and_store. rewrite Hg.
  destruct (MAX_IMAGE_BYTES <? _); [intros [= <-]; discriminate |].
  destruct (update_spend env ext (ledger w2)) as [cells t7].
  destruct (rejection ext) as [m|] eqn:Hrej.
  { intros [= <-]. pose proof (catch_response_status m) as Hst.
    rewrite H200 in Hst. simpl in Hst. intuition discriminate. }
  intros _. destruct (rejection_none ext Hrej) as (eh & el & Hh & Hl).
  exists p, eh, el. unfold outcome_of, world_of. cbn [fst snd ART].
  by rewrite HART.
Qed.

(** [GET] of a path under [/art/] serves the object stored under the path
    without its leading slash. *)
Lemma fetch_serves_object (g : Request) (env : Env) (ext : Ext) (w : World)
    (key : string) (object : R2Object) :
  req_method g = "GET" ->
  pathname (req_url g) = "/" ++ key ->
  Js.startsWith key "art/" = true ->
  ART w !! key = Some object ->
  exists r, fetch g env ext w = (Returned r, w, [CallGet key])
            /\ status r = 200 /\ body r = Bytes (obj_body object).
Proof.
  intros Hm Hp Hs Hobj. unfold fetch, serve_art. rewrite Hm, Hp.
  change ("/" ++ key) with (String "/" key).
  assert (Hpre : Js.startsWith (String "/" key) "/art/" = true).
  { unfold Js.startsWith in *. simpl. exact Hs. }
  rewrite Hpre. cbn [Js.slice1]. rewrite Hobj.
  eexists. by repeat split.
Qed.

Lemma historyKey_under_art (now : N) :
  Js.startsWith (historyKey_at now) "art/" = true.
Proof. unfold historyKey_at. apply startsWith_append. Qed.

Lemma run_snoc (env : Env) (steps : list (Request * Ext)) (req : Request)
    (ext : Ext) (w : World) :
  run env (steps ++ [(req, ext)])%list w
  = world_of (fetch req env ext (run env steps w)).
Proof.
  revert w. induction steps as [|[rq ex] steps IH]; intros w; [reflexivity |].
  simpl. apply IH.
Qed.

Lemma all_successful_last (env : Env) (steps : list (Request * Ext))
    (req : Request) (ext : Ext) (w : World) :
  all_successful env (steps ++ [(req, ext)])%list w ->
  exists bytes,
    successful_generation req env ext (run env steps w) bytes.
Proof.
  revert w. induction steps as [|[rq ex] steps IH]; intros w; simpl.
  - by intros [H _].
  - intros [_ H]. by apply IH.
Qed.

(** A decimal digit is never a letter, a colon or a dot. *)
Lemma digit_char_range (k : N) :
  48 <= N_of_ascii (Js.digit_char k) /\ N_of_ascii (Js.digit_char k) < 58.
Proof.
  unfold Js.digit_char.
  assert (Hlt : k mod 10 < 10) by (apply N.mod_lt; lia).
  revert Hlt. generalize (k mod 10). intros r Hlt.
  rewrite N_ascii_embedding by lia. lia.
Qed.

(** The history key is never the key of the latest object: it continues
    with a digit where the other has a letter. *)
Lemma historyKey_not_latest (now : N) : historyKey_at now <> latestKey.
Proof.
  unfold historyKey_at, latestKey, Clock.toISOString, Clock.pad4.
  destruct (Clock.civil_from_days (now / 86400000)) as [[y m] d].
  rewrite !append_cons. cbn [Js.replace_colon_dot]. rewrite !append_cons.
  pose proof (digit_char_range (y / 1000)) as Hd.
  intros H. injection H as H _.
  destruct (Ascii.eqb (Js.digit_char (y / 1000)) ":"
            || Ascii.eqb (Js.digit_char (y / 1000)) "."); [discriminate |].
  rewrite H in Hd. vm_compute in Hd. destruct Hd as [_ Hd]. discriminate.
Qed.

(** A request writes to the bucket under its history key and under the
    key of the latest object only. *)
Lemma fetch_bucket_frame (req : Request) (env : Env) (ext : Ext) (w : World)
    (key : string) :
  key <> historyKey_at (now_store ext) ->
  key <> latestKey ->
  ART (world_of (fetch req env ext w)) !! key = ART w !! key.
Proof.
  intros Hh Hl. unfold fetch, world_of.
  destruct (String.eqb (req_method req) "POST"
            && String.eqb (pathname (req_url req)) "/api/generate").
  - unfold handle_generate.
    destruct (size_check req); [reflexivity |].
    destruct (auth_check req env); [reflexivity |].
    destruct (rate_limit_stage req env ext w) as [[l w2] t2] eqn:Hrl.
    apply rate_limit_stage_frame in Hrl as (HART & _ & _).
    rewrite <- HART.
    destruct l; [reflexivity |]. unfold fulfil.
    destruct (req_json req) as [body|]; [| reflexivity].
    destruct (prompt_of body) as [e|p]; [reflexivity |].
    destruct (validate_prompt p); [reflexivity |].
    destruct (content_filter p); [reflexivity |].
    unfold generate_and_store.
    destruct (generateImage ext) as [bytes|m]; [| reflexivity].
    destruct (MAX_IMAGE_BYTES <? _); [reflexivity |].
    destruct (update_spend env ext (ledger w2)) as [cells t7].
    assert (Hstore :
      store_both (historyKey_at (now_store ext)) bytes ext (ART w2) !! key
      = ART w2 !! key).
    { unfold store_both, put_history_object, put_latest_object, put.
      destruct (latest_settles_first ext), (put_history ext), (put_latest ext);
        by rewrite ?lookup_insert_ne by done. }
    by destruct (rejection ext).
  - unfold serve_art. by repeat case_match.
Qed.

Lemma run_bucket_frame (env : Env) (steps : list (Request * Ext)) (w : World)
    (key : string) :
  other_history_keys key steps ->
  key <> latestKey ->
  ART (run env steps w) !! key = ART w !! key.
Proof.
  intros Hsteps Hl. revert w.
  induction Hsteps as [|[rq ex] steps Hne _ IH]; intros w; [reflexivity |].
  cbn [run]. rewrite IH. apply fetch_bucket_frame; [| exact Hl].
  cbn [snd] in Hne. congruence.
Qed.

End RoundTrip.

(** C7 (as amended).  For every successful generation the response
    names as [historyUrl] the origin of the request, the folder [art/]
    and the time of storage printed to the millisecond; a GET of that URL
    yields the generated bytes on the stores the generation left, and
    also after any further requests none of which stores an image under
    the same history key.  After N successful generations handled one
    after the other, a GET of [/art/latest.jpg] yields the bytes of the
    N-th. *)
Theorem C7_round_trip (env : Env) :
  (forall req ext w bytes later,
      successful_generation req env ext w bytes ->
      other_history_keys (Worker.historyKey_at (now_store ext)) later ->
      exists r hurl,
        outcome_of (Worker.fetch req env ext w) = Returned r
        /\ json_field "historyUrl" r = Some hurl
        /\ hurl = Worker.url_origin (req_url req) ++ "/art/"
                  ++ Js.replace_colon_dot (Clock.toISOString (now_store ext))
                  ++ ".jpg"
        /\ forall g env' ext',
             req_method g = "GET" ->
             Worker.url_origin (req_url g) = Worker.url_origin (req_url req) ->
             href (req_url g) = hurl ->
             exists r',
               outcome_of
                 (Worker.fetch g env' ext'
                    (run env later (world_of (Worker.fetch req env ext w))))
               = Returned r'
               /\ status r' = 200 /\ body r' = Bytes bytes)
  /\ (forall steps req ext w0 bytes g env' ext',
        all_successful env (steps ++ [(req, ext)])%list w0 ->
        generateImage ext = Generated bytes ->
        req_method g = "GET" ->
        pathname (req_url g) = "/art/latest.jpg" ->
        exists r',
          outcome_of
            (Worker.fetch g env' ext'
               (run env (steps ++ [(req, ext)])%list w0))
          = Returned r'
          /\ status r' = 200 /\ body r' = Bytes bytes).
Proof.
  split.
  - intros req ext w bytes later Hsucc Hlater.
    destruct (fetch_success _ _ _ _ _ Hsucc)
      as (p & eh & el & Hh & Hl & Hout & HART).
    eexists _, _. split; [exact Hout |]. split; [reflexivity |].
    split.
    { unfold Worker.historyKey_at.
      change ("/" ++ "art/" ++ ?x) with ("/art/" ++ x). reflexivity. }
    intros g env' ext' Hm Horigin Hhref.
    unfold href in Hhref. rewrite Horigin in Hhref.
    apply append_cancel_l in Hhref.
    destruct (store_both_stored (Worker.historyKey_at (now_store ext)) bytes
                ext (ART w) eh el Hh Hl) as [Hobj _].
    rewrite <- HART in Hobj.
    rewrite <- (run_bucket_frame env later _ _ Hlater
                  (historyKey_not_latest _)) in Hobj.
    destruct (ART (run env later (world_of (Worker.fetch req env ext w)))
              !! Worker.historyKey_at (now_store ext)) as [object|] eqn:Hlook;
      [| discriminate].
    injection Hobj as Hbody.
    destruct (fetch_serves_object g env' ext' _ _ object Hm Hhref
                (historyKey_under_art _) Hlook) as (r' & Hf & Hst & Hb).
    exists r'. rewrite Hf. by rewrite Hb, Hbody.
  - intros steps req ext w0 bytes g env' ext' Hall Hg Hm Hp.
    destruct (all_successful_last _ _ _ _ _ Hall) as (bytes' & Hsucc).
    assert (bytes' = bytes) as ->.
    { destruct Hsucc as (_ & _ & Hg' & _). congruence. }
    destruct (fetch_success _ _ _ _ _ Hsucc)
      as (p & eh & el & Hh & Hl & _ & HART).
    rewrite run_snoc.
    destruct (store_both_stored (Worker.historyKey_at (now_store ext)) bytes
                ext (ART (run env steps w0)) eh el Hh Hl) as [_ Hobj].
    rewrite <- HART in Hobj.
    destruct (ART (world_of (Worker.fetch req env ext (run env steps w0)))
              !! Worker.latestKey) as [object|] eqn:Hlook; [| discriminate].
    injection Hobj as Hbody.
    destruct (fetch_serves_object g env' ext' _ Worker.latestKey object Hm Hp
                eq_refl Hlook) as (r' & Hf & Hst & Hb).
    exists r'. rewrite Hf. by rewrite Hb, Hbody.
Qed.

(** C7, the claim as stated fails: a second generation whose image is
    stored in the same millisecond as the first takes the same history
    key, and a GET of the [historyUrl] returned for the first then yields
    the bytes of the second. *)
Lemma C7_counterexample :
  outcome_of
    (Worker.fetch (Sample.frontend_request (JStr "a cat"))
       (Sample.env_open None) Sample.ext_ok Sample.empty_world)
  = Returned
      {| status := 200;
         headers := [("content-type", "application/json")];
         body :=
           Json
             [("latestUrl", "https://gallery.example.dev/art/latest.jpg");
              ("historyUrl",
               "https://gallery.example.dev/art/2024-01-01T00-01-00-123Z.jpg");
              ("prompt", "a cat")] |}
  /\ generateImage Sample.ext_ok = Generated Sample.image
  /\ status_of
       (outcome_of
          (Worker.fetch (Sample.frontend_request (JStr "a dog"))
             (Sample.env_open None) Sample.ext_same_instant
             (world_of
                (Worker.fetch (Sample.frontend_request (JStr "a cat"))
                   (Sample.env_open None) Sample.ext_ok Sample.empty_world))))
     = Some 200
  /\ exists r',
       outcome_of
         (Worker.fetch
            (Sample.get "/art/2024-01-01T00-01-00-123Z.jpg")
            (Sample.env_open None) Sample.ext_ok
            (run (Sample.env_open None)
               [(Sample.frontend_request (JStr "a cat"), Sample.ext_ok);
                (Sample.frontend_request (JStr "a dog"),
                 Sample.ext_same_instant)]
               Sample.empty_world))
       = Returned r'
       /\ status r' = 200
       /\ body r' = Bytes Sample.image2
       /\ Sample.image2 <> Sample.image.
Proof.
  split; [vm_compute; reflexivity |].
  split; [reflexivity |].
  split; [vm_compute; reflexivity |].
  eexists. split; [vm_compute; reflexivity |].
  split; [reflexivity |]. split; [reflexivity | discriminate].
Qed.

(** The theorem at two generations with different images, a second
    apart: the first [historyUrl] still yields the first image after the
    second generation, and [/art/latest.jpg] yields the second. *)
Lemma C7_round_trip_witness :
  (exists r',
      outcome_of
        (Worker.fetch (Sample.get "/art/2024-01-01T00-01-00-123Z.jpg")
           (Sample.env_open None) Sample.ext_ok
           (run (Sample.env_open None) Sample.two_generations
              Sample.empty_world))
      = Returned r'
      /\ status r' = 200 /\ body r' = Bytes Sample.image)
  /\ exists r',
       outcome_of
         (Worker.fetch (Sample.get "/art/latest.jpg") (Sample.env_open None)
            Sample.ext_ok
            (run (Sample.env_open None) Sample.two_generations
               Sample.empty_world))
       = Returned r'
       /\ status r' = 200 /\ body r' = Bytes Sample.image2.
Proof.
  split.
  - destruct (proj1 (C7_round_trip (Sample.env_open None))
                (Sample.frontend_request (JStr "a cat")) Sample.ext_ok
                Sample.empty_world Sample.image
                [(Sample.frontend_request (JStr "a dog"), Sample.ext_later)])
      as (r & hurl & _ & _ & Hurl & Hget).
    + repeat split. eexists. split; vm_compute; reflexivity.
    + constructor; [| constructor]. vm_compute. discriminate.
    + apply (Hget (Sample.get "/art/2024-01-01T00-01-00-123Z.jpg")
               (Sample.env_open None) Sample.ext_ok eq_refl eq_refl).
      rewrite Hurl. vm_compute. reflexivity.
  - refine (proj2 (C7_round_trip (Sample.env_open None))
              [(Sample.frontend_request (JStr "a cat"), Sample.ext_ok)]
              (Sample.frontend_request (JStr "a dog")) Sample.ext_later
              Sample.empty_world Sample.image2
              (Sample.get "/art/latest.jpg") (Sample.env_open None)
              Sample.ext_ok _ eq_refl eq_refl eq_refl).
    simpl. split; [| split; [| exact I]].
    + exists Sample.image. repeat split. eexists.
      split; vm_compute; reflexivity.
    + exists Sample.image2. repeat split. eexists.
      split; vm_compute; reflexivity.
Defined.

(* ================================================================== *)
(** * Preflight, size check and the type of the prompt *)
(* ================================================================== *)

Section Edges.

Import Worker.

(** The earlier [src/worker.js] has no branch for [OPTIONS]: there such
    a request falls through every route to the default answer. *)
Lemma worker_options_not_found (req : Request) (env : Env) (ext : Ext)
    (w : World) :
  req_method req = "OPTIONS" ->
  fetch req env ext w = (Returned not_found, w, []).
Proof. intros Hm. unfold fetch. by rewrite Hm. Qed.

(** The revision answers it before any route. *)
Lemma revision_preflight_options (req : Request) :
  req_method req = "OPTIONS" ->
  WorkerRevision.preflight req = Some WorkerRevision.preflight_response.
Proof. intros Hm. unfold WorkerRevision.preflight. by rewrite Hm. Qed.

Lemma too_large_declared (req : Request) :
  too_large req = true ->
  exists cl n, header req "content-length" = Some cl
               /\ Js.parseInt cl = Some n /\ (MAX_REQUEST_SIZE < n)%Z.
Proof.
  unfold too_large. destruct (header req "content-length") as [cl|];
    [| discriminate].
  intros H. apply andb_true_iff in H as [_ H].
  destruct (Js.parseInt cl) as [n|] eqn:Hparse; [| discriminate].
  exists cl, n. split; [reflexivity |]. split; [exact Hparse |].
  by apply Z.ltb_lt.
Qed.

(** A truthy prompt that is not a string has no [trim] method. *)
Lemma truthy_non_string_throws (req : Request) (env : Env) (ext : Ext)
    (w w2 : World) (t2 : list Event) (body v : JsValue) :
  req_method req = "POST" ->
  pathname (req_url req) = "/api/generate" ->
  size_check req = None ->
  auth_check req env = None ->
  rate_limit_stage req env ext w = (None, w2, t2) ->
  req_json req = JsonOk body ->
  body_prompt body = inr (Some v) ->
  js_truthy v = true ->
  (forall s, v <> JStr s) ->
  fetch req env ext w = (Thrown TypeError, w2, (t2 ++ [CallJson])%list).
Proof.
  intros Hm Hp Hs Ha Hrl Hj Hb Ht Hv.
  rewrite fetch_generate_route by assumption.
  unfold handle_generate, fulfil, prompt_of.
  rewrite Hs, Ha, Hrl, Hj, Hb. cbn [or_empty]. rewrite Ht.
  destruct v; try reflexivity. by destruct (Hv s).
Qed.

Lemma call_trim_total (p : option JsValue) :
  (exists s, call_trim (or_empty p) = inr s)
  <-> (p = None
       \/ (exists s, p = Some (JStr s))
       \/ (exists v, p = Some v /\ js_truthy v = false)).
Proof.
  split.
  - intros [s Hs]. destruct p as [v|]; [| by left]. right.
    unfold or_empty in Hs. destruct (js_truthy v) eqn:Ht.
    + left. destruct v; try discriminate. by eexists.
    + right. by exists v.
  - intros [-> | [[s ->] | (v & -> & Ht)]].
    + by eexists.
    + unfold or_empty. destruct (js_truthy (JStr s)); by eexists.
    + unfold or_empty. rewrite Ht. by eexists.
Qed.

End Edges.

(** C8.  The revision of the worker, which is where the preflight is
    handled, answers every [OPTIONS] request with status 204, the four
    fixed CORS allow headers and no body, whatever the path, the headers,
    the configuration and the stores are; it calls no collaborator and
    leaves the stores as they are. *)
Theorem C8_options_preflight (req : Request) (env : Env) (ext : Ext)
    (rx : Revision.RevExt) (w : World) :
  req_method req = "OPTIONS" ->
  Revision.fetch req env ext rx w
  = (Revision.RevReturned
       {| Revision.r_status := 204;
          Revision.r_headers :=
            [("Access-Control-Allow-Origin", "*");
             ("Access-Control-Allow-Methods", "GET, POST, OPTIONS");
             ("Access-Control-Allow-Headers", "Content-Type, X-API-Key");
             ("Access-Control-Max-Age", "86400")];
          Revision.r_body := Revision.Plain NoBody |},
     w, []).
Proof.
  intros Hm. unfold Revision.fetch.
  by rewrite (revision_preflight_options req Hm).
Qed.

(** The theorem at a preflight for a path that no route serves, on stores
    that are in use. *)
Lemma C8_options_preflight_witness :
  Revision.fetch
    {| req_method := "OPTIONS"; req_url := Sample.service "/no/such/route";
       req_headers := Sample.same_origin; req_body := [];
       req_json := JsonFail |}
    (Sample.env_limited (Some "s3cret")) Sample.ext_ok RevSample.rx_ok
    Scenario.world_global_exhausted
  = (Revision.RevReturned
       {| Revision.r_status := 204;
          Revision.r_headers :=
            [("Access-Control-Allow-Origin", "*");
             ("Access-Control-Allow-Methods", "GET, POST, OPTIONS");
             ("Access-Control-Allow-Headers", "Content-Type, X-API-Key");
             ("Access-Control-Max-Age", "86400")];
          Revision.r_body := Revision.Plain NoBody |},
     Scenario.world_global_exhausted, []).
Proof.
  exact (C8_options_preflight
           {| req_method := "OPTIONS";
              req_url := Sample.service "/no/such/route";
              req_headers := Sample.same_origin; req_body := [];
              req_json := JsonFail |}
           (Sample.env_limited (Some "s3cret"))
           Sample.ext_ok RevSample.rx_ok Scenario.world_global_exhausted
           eq_refl).
Defined.

(** C9.  A [POST /api/generate] request without a [content-length] header
    passes the size check whatever the bytes of its body are, and no
    request without the header is ever answered [request_too_large]. *)
Theorem C9_size_cap_needs_declared_length (req : Request) (env : Env)
    (ext : Ext) (w : World) :
  Worker.header req "content-length" = None ->
  Worker.size_check req = None
  /\ forall r,
       outcome_of (Worker.fetch req env ext w) = Returned r ->
       error_kind r <> Some "request_too_large".
Proof.
  intros Hnone.
  assert (Hsize : Worker.size_check req = None).
  { unfold Worker.size_check, Worker.too_large. by rewrite Hnone. }
  split; [exact Hsize |].
  intros r Hr Hk.
  destruct (Worker.fetch req env ext w) as [[o w'] t] eqn:Hf.
  unfold outcome_of in Hr. cbn [fst] in Hr. subst o.
  destruct (fetch_early_kind _ _ _ _ _ _ _ _ Hf Hk) as (_ & _ & [Hs|Hrl]).
  { simpl. tauto. }
  { congruence. }
  destruct Hrl as (_ & _ & Hrl).
  apply rate_limit_stage_rejects in Hrl as [_ Hin].
  rewrite Hk in Hin. simpl in Hin. intuition discriminate.
Qed.

(** The theorem at a request that sends 20001 bytes undeclared. *)
Lemma C9_size_cap_needs_declared_length_witness :
  N.of_nat (length (req_body Sample.undeclared_large_request)) = 20001
  /\ Worker.size_check Sample.undeclared_large_request = None.
Proof.
  split; [vm_compute; reflexivity |].
  exact (proj1 (C9_size_cap_needs_declared_length
                  Sample.undeclared_large_request (Sample.env_open None)
                  Sample.ext_ok Sample.empty_world eq_refl)).
Defined.

(** C10.  There is an authenticated [POST /api/generate] request whose
    JSON body has a truthy prompt that is not a string (the number 42) and
    for which the handler throws a [TypeError] instead of returning a
    response; the expression [(body.prompt || empty).trim()] yields a value
    exactly when the prompt is absent, a string, or falsy. *)
Theorem C10_truthy_non_string_prompt_throws :
  (exists req env ext w,
      req_method req = "POST"
      /\ pathname (req_url req) = "/api/generate"
      /\ Worker.size_check req = None
      /\ Worker.auth_check req env = None
      /\ req_json req = JsonOk (JObj [("prompt", JNum 42%float)])
      /\ Worker.js_truthy (JNum 42%float) = true
      /\ outcome_of (Worker.fetch req env ext w) = Thrown TypeError)
  /\ (forall p : option JsValue,
        (exists s, Worker.call_trim (Worker.or_empty p) = inr s)
        <-> (p = None
             \/ (exists s, p = Some (JStr s))
             \/ (exists v, p = Some v /\ Worker.js_truthy v = false))).
Proof.
  split; [| exact call_trim_total].
  exists (Sample.keyed_request (Sample.prompt_body (JNum 42%float))),
         (Sample.env_open (Some "s3cret")), Sample.ext_ok, Sample.empty_world.
  repeat split; vm_compute; reflexivity.
Qed.

(* ================================================================== *)
(** * What a request leaves untouched *)
(* ================================================================== *)

Section Frames.

Import Worker.

(** The routes other than the generation route only read. *)
Lemma fetch_other_route (req : Request) (env : Env) (ext : Ext) (w : World) :
  is_generate_request req = false ->
  world_of (fetch req env ext w) = w
  /\ (trace_of (fetch req env ext w) = []
      \/ trace_of (fetch req env ext w)
         = [CallGet (Js.slice1 (pathname (req_url req)))]
         /\ Js.startsWith (pathname (req_url req)) "/art/" = true).
Proof.
  unfold is_generate_request, fetch. intros ->.
  destruct (String.eqb (req_method req) "GET"
            && Js.startsWith (pathname (req_url req)) "/art/") eqn:Hart.
  - apply andb_true_iff in Hart as [_ Hart].
    unfold serve_art. destruct (ART w !! _); simpl; auto.
  - repeat case_match; simpl; auto.
Qed.

Lemma fetch_generate_request (req : Request) (env : Env) (ext : Ext)
    (w : World) :
  is_generate_request req = true ->
  fetch req env ext w = handle_generate req env ext w.
Proof. unfold is_generate_request, fetch. by intros ->. Qed.

Lemma generate_and_store_no_generation (req : Request) (env : Env) (ext : Ext)
    (p : string) (w : World) (t : list Event) :
  no_generation (trace_of (generate_and_store req env ext p w t)) -> False.
Proof.
  intros H. apply (no_generation_In _ p) in H; [exact H |].
  unfold generate_and_store, trace_of.
  destruct (update_spend env ext (ledger w)) as [cells t7].
  destruct (generateImage ext) as [bytes|m];
    [destruct (MAX_IMAGE_BYTES <? _); [| destruct (rejection ext)] |];
    cbn [snd]; rewrite ?in_app_iff; simpl; tauto.
Qed.

End Frames.

Section Frames2.

Import Worker.

Lemma fetch_without_generation (req : Request) (env : Env) (ext : Ext)
    (w : World) :
  no_generation (trace_of (fetch req env ext w)) ->
  ART (world_of (fetch req env ext w)) = ART w
  /\ ledger (world_of (fetch req env ext w)) = ledger w
  /\ forallb (fun e => negb (is_put_call e))
       (trace_of (fetch req env ext w)) = true.
Proof.
  destruct (is_generate_request req) eqn:Hroute.
  - rewrite fetch_generate_request by exact Hroute.
    unfold handle_generate.
    destruct (size_check req); [done |].
    destruct (auth_check req env); [done |].
    destruct (rate_limit_stage req env ext w) as [[l w2] t2] eqn:Hrl.
    pose proof Hrl as Hshape.
    apply rate_limit_stage_frame in Hrl as (HART & Hled & _).
    assert (Hputs : forallb (fun e => negb (is_put_call e)) t2 = true).
    { revert Hshape. unfold rate_limit_stage, Upstash.limit.
      repeat case_match; by intros [= <- <- <-]. }
    destruct l as [r|]; [done |]. unfold fulfil.
    assert (Hputs3 :
      forallb (fun e => negb (is_put_call e)) (t2 ++ [CallJson]) = true).
    { by rewrite forallb_app, Hputs. }
    destruct (req_json req) as [body|]; [| done].
    destruct (prompt_of body) as [e|p]; [done |].
    destruct (validate_prompt p); [done |].
    destruct (content_filter p); [done |].
    intros H. by apply generate_and_store_no_generation in H.
  - intros _. destruct (fetch_other_route req env ext w Hroute) as [-> Ht].
    repeat split. by destruct Ht as [-> | [-> _]].
Qed.

End Frames2.

(** X1.  A request that does not reach the Generation Client changes
    neither the bucket nor the spend ledger, and issues no write to the
    bucket. *)
Theorem rejected_request_stores_nothing (req : Request) (env : Env)
    (ext : Ext) (w : World) :
  no_generation (trace_of (Worker.fetch req env ext w)) ->
  ART (world_of (Worker.fetch req env ext w)) = ART w
  /\ ledger (world_of (Worker.fetch req env ext w)) = ledger w
  /\ forallb (fun e => negb (is_put_call e))
       (trace_of (Worker.fetch req env ext w)) = true.
Proof. apply fetch_without_generation. Qed.

(** The theorem at a request that is answered 401. *)
Lemma rejected_request_stores_nothing_witness :
  ART (world_of (Worker.fetch Sample.empty_key_request
                   (Sample.env_open (Some "")) Sample.ext_ok
                   Sample.empty_world))
  = ART Sample.empty_world.
Proof.
  refine (proj1 (rejected_request_stores_nothing Sample.empty_key_request
                   (Sample.env_open (Some "")) Sample.ext_ok
                   Sample.empty_world _)).
  reflexivity.
Defined.

(** X2.  Without a configured counter store (URL or token missing or
    empty) no request calls the limiter or a spend cell, and the windows
    and the ledger stay as they are: rate limiting and budget are off. *)
Theorem unconfigured_counter_store_is_never_called (req : Request)
    (env : Env) (ext : Ext) (w : World) :
  Worker.counter_store_configured env = false ->
  windows (world_of (Worker.fetch req env ext w)) = windows w
  /\ ledger (world_of (Worker.fetch req env ext w)) = ledger w
  /\ forallb (fun e => negb (is_counter_call e))
       (trace_of (Worker.fetch req env ext w)) = true.
Proof.
  intros Hoff. destruct (is_generate_request req) eqn:Hroute.
  - rewrite fetch_generate_request by exact Hroute.
    unfold Worker.handle_generate.
    destruct (Worker.size_check req); [done |].
    destruct (Worker.auth_check req env); [done |].
    rewrite rate_limit_stage_unconfigured by exact Hoff.
    unfold Worker.fulfil.
    destruct (req_json req) as [body|]; [| done].
    destruct (Worker.prompt_of body) as [e|p]; [done |].
    destruct (Worker.validate_prompt p); [done |].
    destruct (Worker.content_filter p); [done |].
    unfold Worker.generate_and_store, Worker.update_spend. rewrite Hoff.
    destruct (generateImage ext) as [bytes|m]; [| done].
    destruct (Worker.MAX_IMAGE_BYTES <? _); [done |].
    by destruct (Worker.rejection ext).
  - destruct (fetch_other_route req env ext w Hroute) as [-> Ht].
    repeat split. by destruct Ht as [-> | [-> _]].
Qed.

(** The theorem at a served generation in the open configuration. *)
Lemma unconfigured_counter_store_is_never_called_witness :
  ledger (world_of (Worker.fetch (Sample.frontend_request (JStr "a cat"))
                      (Sample.env_open None) Sample.ext_ok
                      Sample.empty_world))
  = ∅.
Proof.
  exact (proj1 (proj2 (unconfigured_counter_store_is_never_called
                         (Sample.frontend_request (JStr "a cat"))
                         (Sample.env_open None) Sample.ext_ok
                         Sample.empty_world eq_refl))).
Defined.

(* ================================================================== *)
(** * The two rate limits *)
(* ================================================================== *)

Section Limits.

Import Worker.

(** The rate-limit stage by cases on the two counters and the spend. *)
Lemma rate_limit_stage_ip_rejects (req : Request) (env : Env) (ext : Ext)
    (w : World) :
  counter_store_configured env = true ->
  10 <= default 0 (windows w !! Upstash.window_key "rl:ip" (client_ip req)
                                  60000 (now_ip ext)) ->
  rate_limit_stage req env ext w =
  (Some (rate_limit_response
           {| Upstash.success := false;
              Upstash.remaining := 0;
              Upstash.reset := (now_ip ext / 60000 + 1) * 60000 |}),
   {| windows :=
        <[Upstash.window_key "rl:ip" (client_ip req) 60000 (now_ip ext) :=
            default 0 (windows w !! Upstash.window_key "rl:ip" (client_ip req)
                                      60000 (now_ip ext)) + 1]> (windows w);
      ledger := ledger w; ART := ART w |},
   [CallLimit "rl:ip" (client_ip req)]).
Proof.
  intros Hon Hc. unfold rate_limit_stage, Upstash.limit.
  fold (Upstash.window_key "rl:ip" (client_ip req) 60000 (now_ip ext)).
  rewrite Hon. cbn [Upstash.success].
  set (c := default 0 (windows w !! _)) in *.
  assert (Hle : (c + 1 <=? 10) = false) by (apply N.leb_gt; lia).
  rewrite Hle. cbn [negb].
  assert (Hrem : 10 - (c + 1) = 0) by lia.
  by rewrite Hrem.
Qed.

Lemma rate_limit_stage_ip_passes (req : Request) (env : Env) (ext : Ext)
    (w w2 : World) (l : option Response) (t2 : list Event) (r : Response) :
  default 0 (windows w !! Upstash.window_key "rl:ip" (client_ip req)
                            60000 (now_ip ext)) < 10 ->
  rate_limit_stage req env ext w = (l, w2, t2) ->
  l = Some r ->
  error_kind r <> Some "rate_limit_exceeded".
Proof.
  intros Hc. unfold rate_limit_stage, Upstash.limit.
  fold (Upstash.window_key "rl:ip" (client_ip req) 60000 (now_ip ext)).
  destruct (counter_store_configured env); [| by intros [= <- <- <-] ?].
  cbn [Upstash.success].
  set (c := default 0 (windows w !! _)) in *.
  assert (Hle : (c + 1 <=? 10) = true) by (apply N.leb_le; lia).
  rewrite Hle. cbn [negb].
  repeat case_match; intros [= <- <- <-] [= <-]; discriminate.
Qed.

Lemma rate_limit_stage_global_rejects (req : Request) (env : Env) (ext : Ext)
    (w : World) :
  counter_store_configured env = true ->
  default 0 (windows w !! Upstash.window_key "rl:ip" (client_ip req)
                            60000 (now_ip ext)) < 10 ->
  GLOBAL_RATE_LIMIT
  <= default 0 (windows w !! Upstash.window_key "rl:global" "all"
                               3600000 (now_global ext)) ->
  rate_limit_stage req env ext w =
  (Some global_limit_response,
   {| windows :=
        <[Upstash.window_key "rl:global" "all" 3600000 (now_global ext) :=
            default 0 (windows w !! Upstash.window_key "rl:global" "all"
                                      3600000 (now_global ext)) + 1]>
          (<[Upstash.window_key "rl:ip" (client_ip req) 60000 (now_ip ext) :=
               default 0 (windows w !! Upstash.window_key "rl:ip"
                                         (client_ip req) 60000 (now_ip ext))
               + 1]> (windows w));
      ledger := ledger w; ART := ART w |},
   [CallLimit "rl:ip" (client_ip req); CallLimit "rl:global" "all"]).
Proof.
  intros Hon Hip Hgl.
  pose proof (window_keys_differ (client_ip req) "all" 60000 3600000
                (now_ip ext) (now_global ext)) as Hne.
  unfold rate_limit_stage, Upstash.limit.
  fold (Upstash.window_key "rl:ip" (client_ip req) 60000 (now_ip ext)).
  fold (Upstash.window_key "rl:global" "all" 3600000 (now_global ext)).
  rewrite Hon. cbn [Upstash.success].
  rewrite lookup_insert_ne by done.
  set (c := default 0 (windows w !! Upstash.window_key "rl:ip" _ _ _)) in *.
  set (g := default 0 (windows w !! Upstash.window_key "rl:global" _ _ _)) in *.
  assert (Hle : (c + 1 <=? 10) = true) by (apply N.leb_le; lia).
  assert (Hgt : (g + 1 <=? GLOBAL_RATE_LIMIT) = false)
    by (apply N.leb_gt; lia).
  by rewrite Hle, Hgt.
Qed.

Lemma rate_limit_stage_global_passes (req : Request) (env : Env) (ext : Ext)
    (w w2 : World) (l : option Response) (t2 : list Event) (r : Response) :
  default 0 (windows w !! Upstash.window_key "rl:global" "all"
                            3600000 (now_global ext)) < GLOBAL_RATE_LIMIT ->
  rate_limit_stage req env ext w = (l, w2, t2) ->
  l = Some r ->
  error_kind r <> Some "global_rate_limit_exceeded".
Proof.
  intros Hg.
  pose proof (window_keys_differ (client_ip req) "all" 60000 3600000
                (now_ip ext) (now_global ext)) as Hne.
  unfold rate_limit_stage, Upstash.limit.
  fold (Upstash.window_key "rl:ip" (client_ip req) 60000 (now_ip ext)).
  fold (Upstash.window_key "rl:global" "all" 3600000 (now_global ext)).
  destruct (counter_store_configured env); [| by intros [= <- <- <-] ?].
  cbn [Upstash.success].
  rewrite lookup_insert_ne by done.
  set (g := default 0 (windows w !! Upstash.window_key "rl:global" _ _ _)) in *.
  assert (Hle : (g + 1 <=? GLOBAL_RATE_LIMIT) = true)
    by (apply N.leb_le; lia).
  rewrite Hle. cbn [negb].
  repeat case_match; intros [= <- <- <-] [= <-]; discriminate.
Qed.

(** A response of the generation route behind the first two stages: it is
    the one of the rate-limit stage or comes from a later stage. *)
Lemma handle_generate_after_auth (req : Request) (env : Env) (ext : Ext)
    (w : World) (r : Response) :
  size_check req = None ->
  auth_check req env = None ->
  outcome_of (handle_generate req env ext w) = Returned r ->
  (exists w2 t2, rate_limit_stage req env ext w = (Some r, w2, t2))
  \/ In (error_kind r)
       [None; Some "invalid_json"; Some "invalid_prompt";
        Some "prompt_too_long"; Some "inappropriate_prompt";
        Some "image_too_large";
        Some "insufficient_credits"; Some "timeout";
        Some "ai_provider_rate_limit"; Some "invalid_prompt_for_provider";
        Some "generation_failed"].
Proof.
  intros Hs Ha. unfold handle_generate. rewrite Hs, Ha.
  destruct (rate_limit_stage req env ext w) as [[l w2] t2].
  destruct l as [r2|].
  - intros [= <-]. left. by exists w2, t2.
  - intros H. right. by apply fulfil_kind in H.
Qed.

End Limits.

(** X3.  Per-caller limit.  With the counter store configured, a request
    that reaches the rate limits is answered 429 [rate_limit_exceeded]
    exactly from the eleventh request of its caller in the minute on: the
    caller's window is still incremented, the remaining count reported is
    0, and neither the global window is touched nor the spend cell read
    nor the body parsed; below ten earlier requests it is never answered
    with that kind. *)
Theorem per_caller_limit_boundary (req : Request) (env : Env) (ext : Ext)
    (w : World) :
  is_generate_request req = true ->
  Worker.size_check req = None ->
  Worker.auth_check req env = None ->
  Worker.counter_store_configured env = true ->
  (10 <= default 0 (windows w !! Upstash.window_key "rl:ip"
                                   (Worker.client_ip req) 60000 (now_ip ext)) ->
   exists r,
     Worker.fetch req env ext w =
       (Returned r,
        {| windows :=
             <[Upstash.window_key "rl:ip" (Worker.client_ip req) 60000
                 (now_ip ext) :=
                 default 0 (windows w !! Upstash.window_key "rl:ip"
                                           (Worker.client_ip req) 60000
                                           (now_ip ext)) + 1]> (windows w);
           ledger := ledger w; ART := ART w |},
        [CallLimit "rl:ip" (Worker.client_ip req)])
     /\ status r = 429
     /\ error_kind r = Some "rate_limit_exceeded"
     /\ In ("x-ratelimit-remaining", "0") (headers r)
     /\ In ("x-ratelimit-reset",
            Js.string_of_N ((now_ip ext / 60000 + 1) * 60000)) (headers r))
  /\ (default 0 (windows w !! Upstash.window_key "rl:ip"
                                (Worker.client_ip req) 60000 (now_ip ext)) < 10 ->
      forall r,
        outcome_of (Worker.fetch req env ext w) = Returned r ->
        error_kind r <> Some "rate_limit_exceeded").
Proof.
  intros Hroute Hs Ha Hon. rewrite fetch_generate_request by exact Hroute.
  split.
  - intros Hc. eexists. split.
    + unfold Worker.handle_generate. rewrite Hs, Ha.
      by rewrite rate_limit_stage_ip_rejects.
    + repeat split; simpl; tauto.
  - intros Hc r Hr.
    destruct (handle_generate_after_auth _ _ _ _ _ Hs Ha Hr)
      as [(w2 & t2 & Hrl) | Hk].
    + by eapply rate_limit_stage_ip_passes.
    + intros E. rewrite E in Hk. simpl in Hk. intuition discriminate.
Qed.

(** The theorem at the eleventh request of a caller in its minute. *)
Lemma per_caller_limit_boundary_witness :
  exists r,
    outcome_of
      (Worker.fetch (Scenario.request_from_ip (Sample.prompt_body (JStr "a cat")))
         (Sample.env_limited None) Sample.ext_ok Scenario.world_ip_exhausted)
    = Returned r
    /\ error_kind r = Some "rate_limit_exceeded".
Proof.
  destruct (proj1 (per_caller_limit_boundary
                     (Scenario.request_from_ip
                        (Sample.prompt_body (JStr "a cat")))
                     (Sample.env_limited None) Sample.ext_ok
                     Scenario.world_ip_exhausted
                     eq_refl eq_refl eq_refl eq_refl))
    as (r & Hf & _ & Hk & _).
  - vm_compute. discriminate.
  - exists r. split; [by rewrite Hf | exact Hk].
Defined.

(** X4.  Global limit.  A request that passed its caller's limit is
    answered 429 [global_rate_limit_exceeded] exactly when the hour of the
    deployment already counts 100 requests: both windows are incremented,
    so the rejected request still uses up the caller's quota, and the
    spend cell is not read; below 100 it is never answered with that
    kind. *)
Theorem global_limit_boundary (req : Request) (env : Env) (ext : Ext)
    (w : World) :
  is_generate_request req = true ->
  Worker.size_check req = None ->
  Worker.auth_check req env = None ->
  Worker.counter_store_configured env = true ->
  (default 0 (windows w !! Upstash.window_key "rl:ip"
                             (Worker.client_ip req) 60000 (now_ip ext)) < 10 ->
   100 <= default 0 (windows w !! Upstash.window_key "rl:global" "all"
                                    3600000 (now_global ext)) ->
   Worker.fetch req env ext w =
     (Returned Worker.global_limit_response,
      {| windows :=
           <[Upstash.window_key "rl:global" "all" 3600000 (now_global ext) :=
               default 0 (windows w !! Upstash.window_key "rl:global" "all"
                                         3600000 (now_global ext)) + 1]>
             (<[Upstash.window_key "rl:ip" (Worker.client_ip req) 60000
                  (now_ip ext) :=
                  default 0 (windows w !! Upstash.window_key "rl:ip"
                                            (Worker.client_ip req) 60000
                                            (now_ip ext)) + 1]> (windows w));
         ledger := ledger w; ART := ART w |},
      [CallLimit "rl:ip" (Worker.client_ip req); CallLimit "rl:global" "all"])
   /\ status Worker.global_limit_response = 429
   /\ error_kind Worker.global_limit_response
      = Some "global_rate_limit_exceeded")
  /\ (default 0 (windows w !! Upstash.window_key "rl:global" "all"
                                3600000 (now_global ext)) < 100 ->
      forall r,
        outcome_of (Worker.fetch req env ext w) = Returned r ->
        error_kind r <> Some "global_rate_limit_exceeded").
Proof.
  intros Hroute Hs Ha Hon. rewrite fetch_generate_request by exact Hroute.
  split.
  - intros Hip Hgl. split; [| by split].
    unfold Worker.handle_generate. rewrite Hs, Ha.
    by rewrite rate_limit_stage_global_rejects.
  - intros Hc r Hr.
    destruct (handle_generate_after_auth _ _ _ _ _ Hs Ha Hr)
      as [(w2 & t2 & Hrl) | Hk].
    + by eapply rate_limit_stage_global_passes.
    + intros E. rewrite E in Hk. simpl in Hk. intuition discriminate.
Qed.

(** The theorem at a request that meets a used-up hour. *)
Lemma global_limit_boundary_witness :
  outcome_of
    (Worker.fetch (Scenario.request_from_ip (Sample.prompt_body (JStr "a cat")))
       (Sample.env_limited None) Sample.ext_ok Scenario.world_global_exhausted)
  = Returned Worker.global_limit_response.
Proof.
  destruct (proj1 (global_limit_boundary
                     (Scenario.request_from_ip
                        (Sample.prompt_body (JStr "a cat")))
                     (Sample.env_limited None) Sample.ext_ok
                     Scenario.world_global_exhausted
                     eq_refl eq_refl eq_refl eq_refl))
    as (Hf & _).
  - vm_compute. reflexivity.
  - vm_compute. discriminate.
  - by rewrite Hf.
Defined.

(* ================================================================== *)
(** * After the provider has been called *)
(* ================================================================== *)

Section AfterProvider.

Import Worker.

Lemma generate_and_store_calls (req : Request) (env : Env) (ext : Ext)
    (p : string) (w : World) (t : list Event) :
  In (CallGenerate p) (trace_of (generate_and_store req env ext p w t)).
Proof.
  unfold generate_and_store, trace_of.
  destruct (update_spend env ext (ledger w)) as [cells t7].
  destruct (generateImage ext) as [bytes|m];
    [destruct (MAX_IMAGE_BYTES <? _); [| destruct (rejection ext)] |];
    cbn [snd]; rewrite ?in_app_iff; simpl; tauto.
Qed.

(** What the request met when it called the provider. *)
Lemma fetch_generation_frame (req : Request) (env : Env) (ext : Ext)
    (w : World) (p : string) :
  In (CallGenerate p) (trace_of (fetch req env ext w)) ->
  exists (w2 : World) (t2 : list Event),
    ART w2 = ART w /\ ledger w2 = ledger w
    /\ forallb (fun e => negb (is_put_call e)) t2 = true
    /\ fetch req env ext w
       = generate_and_store req env ext p w2 (t2 ++ [CallJson])%list.
Proof.
  intros Hin. destruct (fetch_generation _ _ _ _ _ Hin) as (w2 & t2 & Hrl & Hf).
  exists w2, t2.
  pose proof (rate_limit_stage_frame _ _ _ _ _ _ _ Hrl) as (HART & Hled & _).
  repeat split; try assumption.
  revert Hrl. unfold rate_limit_stage, Upstash.limit.
  repeat case_match; by intros [= <- <-].
Qed.

End AfterProvider.

(** X5.  When the provider call fails, the answer is the one the [catch]
    block builds from the failure's message (500 [generation_failed] when
    the error has no message), nothing is written to the bucket and no
    spend is recorded. *)
Theorem provider_failure_stores_nothing (req : Request) (env : Env)
    (ext : Ext) (w : World) (p : string) (m : option string) :
  In (CallGenerate p) (trace_of (Worker.fetch req env ext w)) ->
  generateImage ext = GenFailed m ->
  outcome_of (Worker.fetch req env ext w) = Returned (Worker.catch_response m)
  /\ In (status (Worker.catch_response m)) [402; 504; 429; 400; 500]
  /\ (m = None ->
      Worker.catch_response m
      = Worker.error_response 500 "generation_failed"
          "Image generation failed. Please try again.")
  /\ ART (world_of (Worker.fetch req env ext w)) = ART w
  /\ ledger (world_of (Worker.fetch req env ext w)) = ledger w
  /\ forallb (fun e => negb (is_put_call e))
       (trace_of (Worker.fetch req env ext w)) = true.
Proof.
  intros Hin Hg.
  destruct (fetch_generation_frame _ _ _ _ _ Hin)
    as (w2 & t2 & HART & Hled & Hputs & ->).
  unfold Worker.generate_and_store. rewrite Hg.
  unfold outcome_of, world_of, trace_of. cbn [fst snd].
  split; [reflexivity |]. split; [apply catch_response_status |].
  split; [by intros -> |]. split; [exact HART |]. split; [exact Hled |].
  by rewrite !forallb_app, Hputs.
Qed.

(** The theorem at a provider failure without message. *)
Lemma provider_failure_stores_nothing_witness :
  outcome_of
    (Worker.fetch (Sample.frontend_request (JStr "a cat"))
       (Sample.env_limited None) Scenario.ext_provider_fails
       Sample.empty_world)
  = Returned
      (Worker.error_response 500 "generation_failed"
         "Image generation failed. Please try again.").
Proof.
  destruct (provider_failure_stores_nothing
              (Sample.frontend_request (JStr "a cat"))
              (Sample.env_limited None) Scenario.ext_provider_fails
              Sample.empty_world "a cat" None) as (Hout & _).
  - vm_compute. tauto.
  - reflexivity.
  - exact Hout.
Defined.

(** X6.  An image above 5 MiB is discarded after the provider was called:
    the answer is 500 [image_too_large], nothing is written to the bucket
    and the spend of the call is not recorded. *)
Theorem oversized_image_is_discarded (req : Request) (env : Env) (ext : Ext)
    (w : World) (p : string) (bytes : list byte) :
  In (CallGenerate p) (trace_of (Worker.fetch req env ext w)) ->
  generateImage ext = Generated bytes ->
  Worker.MAX_IMAGE_BYTES < N.of_nat (length bytes) ->
  outcome_of (Worker.fetch req env ext w)
  = Returned (Worker.error_response 500 "image_too_large"
                "Generated image exceeds size limit")
  /\ ART (world_of (Worker.fetch req env ext w)) = ART w
  /\ ledger (world_of (Worker.fetch req env ext w)) = ledger w
  /\ forallb (fun e => negb (is_put_call e) && negb (is_redis_set e))
       (trace_of (Worker.fetch req env ext w)) = true.
Proof.
  intros Hin Hg Hsize.
  destruct (fetch_generation _ _ _ _ _ Hin) as (w2 & t2 & Hrl & ->).
  pose proof (rate_limit_stage_frame _ _ _ _ _ _ _ Hrl) as (HART & Hled & _).
  unfold Worker.generate_and_store. rewrite Hg.
  apply N.ltb_lt in Hsize. rewrite Hsize.
  unfold outcome_of, world_of, trace_of. cbn [fst snd].
  split; [reflexivity |]. split; [exact HART |]. split; [exact Hled |].
  rewrite !forallb_app. cbn. rewrite !andb_true_r.
  revert Hrl. unfold Worker.rate_limit_stage, Upstash.limit.
  repeat case_match; by intros [= <- <-].
Qed.

(** The theorem at an image of 5 MiB and one byte. *)
Lemma oversized_image_is_discarded_witness :
  outcome_of
    (Worker.fetch (Sample.frontend_request (JStr "a cat"))
       (Sample.env_open None) Scenario2.ext_oversized Sample.empty_world)
  = Returned (Worker.error_response 500 "image_too_large"
                "Generated image exceeds size limit").
Proof.
  refine (proj1 (oversized_image_is_discarded
                   (Sample.frontend_request (JStr "a cat"))
                   (Sample.env_open None) Scenario2.ext_oversized
                   Sample.empty_world "a cat" Scenario2.oversized_image
                   _ eq_refl _)).
  - rewrite fetch_generate_route by reflexivity.
    rewrite (handle_generate_at_prompt _ _ _ _ Sample.empty_world []
               (JObj [("prompt", JStr "a cat")]) "a cat")
      by reflexivity.
    change (Worker.validate_prompt "a cat") with (@None Response).
    change (Worker.content_filter "a cat") with (@None Response).
    apply generate_and_store_calls.
  - unfold Scenario2.oversized_image.
    rewrite length_replicate, N2Nat.id. reflexivity.
Defined.

(** X7.  With the counter store configured, every generation that
    succeeded within the size ceiling adds the cost of one image to the
    spend cell of the day before the image is stored: the spend is
    recorded whatever the outcome of the two writes, also when the caller
    is answered with an error. *)
Theorem spend_recorded_before_storage (req : Request) (env : Env) (ext : Ext)
    (w : World) (p : string) (bytes : list byte) :
  In (CallGenerate p) (trace_of (Worker.fetch req env ext w)) ->
  generateImage ext = Generated bytes ->
  N.of_nat (length bytes) <= Worker.MAX_IMAGE_BYTES ->
  Worker.counter_store_configured env = true ->
  ledger (world_of (Worker.fetch req env ext w))
  = <[Worker.spend_key (now_spend ext) :=
        (Upstash.get_spend (Worker.spend_key (now_spend ext)) (ledger w)
         + Worker.costPerImage)%float]> (ledger w)
  /\ exists before after,
       trace_of (Worker.fetch req env ext w)
       = (before ++ CallRedisSet (Worker.spend_key (now_spend ext))
                 :: CallPut (Worker.historyKey_at (now_store ext)) :: after)%list.
Proof.
  intros Hin Hg Hsize Hon.
  destruct (fetch_generation _ _ _ _ _ Hin) as (w2 & t2 & Hrl & ->).
  pose proof (rate_limit_stage_frame _ _ _ _ _ _ _ Hrl) as (_ & Hled & _).
  rewrite (generate_and_store_generated _ _ _ _ _ _ bytes Hg Hsize).
  rewrite update_spend_configured by exact Hon.
  unfold world_of, trace_of. cbn [fst snd ledger]. rewrite Hled.
  split; [reflexivity |].
  eexists ((t2 ++ [CallJson]) ++ [CallGenerate p]
           ++ [CallRedisGet (Worker.spend_key (now_spend ext))])%list,
          [CallPut Worker.latestKey].
  by rewrite <- !app_assoc.
Qed.

(** The theorem at a generation whose latest write fails. *)
Lemma spend_recorded_before_storage_witness :
  ledger
    (world_of
       (Worker.fetch (Sample.frontend_request (JStr "a cat"))
          (Sample.env_limited None) Sample.ext_latest_put_fails
          Sample.empty_world))
  = <[ "spend:2024-01-01" := (0 + 0.004)%float ]> ∅.
Proof.
  refine (proj1 (spend_recorded_before_storage
                   (Sample.frontend_request (JStr "a cat"))
                   (Sample.env_limited None) Sample.ext_latest_put_fails
                   Sample.empty_world "a cat" Sample.image
                   _ eq_refl _ eq_refl)).
  - vm_compute. tauto.
  - vm_compute. discriminate.
Defined.

(* ================================================================== *)
(** * Serving stored objects *)
(* ================================================================== *)

Section Serving.

Import Worker.

Lemma startsWith_slice1 (path : string) :
  Js.startsWith path "/art/" = true ->
  path = "/" ++ Js.slice1 path
  /\ Js.startsWith (Js.slice1 path) "art/" = true.
Proof.
  unfold Js.startsWith. intros H.
  destruct (prefix_inv _ _ H) as [b ->].
  split; [reflexivity |]. apply (prefix_append "art/" b).
Qed.

(** The bucket after two stored writes, object by object. *)
Lemma store_both_objects (hk : string) (bytes : list byte) (ext : Ext)
    (bucket : gmap string R2Object) (eh el : string) :
  hk <> latestKey ->
  put_history ext = Stored eh ->
  put_latest ext = Stored el ->
  store_both hk bytes ext bucket !! hk
  = Some (mkR2Object bytes "image/jpeg"
            "public, max-age=31536000, immutable" eh)
  /\ store_both hk bytes ext bucket !! latestKey
     = Some (mkR2Object bytes "image/jpeg" "no-store, max-age=0" el).
Proof.
  intros Hne Hh Hl.
  unfold store_both, put_history_object, put_latest_object, put.
  rewrite Hh, Hl.
  destruct (latest_settles_first ext); by simplify_map_eq.
Qed.

Lemma fetch_serves_response (g : Request) (env : Env) (ext : Ext) (w : World)
    (key : string) (object : R2Object) :
  req_method g = "GET" ->
  pathname (req_url g) = "/" ++ key ->
  Js.startsWith key "art/" = true ->
  ART w !! key = Some object ->
  fetch g env ext w
  = (Returned
       {| status := 200;
          headers :=
            [("content-type", contentType object);
             ("cache-control", cacheControl object);
             ("etag", httpEtag object);
             ("access-control-allow-origin", "*")];
          body := Bytes (obj_body object) |},
     w, [CallGet key]).
Proof.
  intros Hm Hp Hs Hobj. unfold fetch, serve_art. rewrite Hm, Hp.
  change ("/" ++ key) with (String "/" key).
  assert (Hpre : Js.startsWith (String "/" key) "/art/" = true).
  { unfold Js.startsWith in *. simpl. exact Hs. }
  rewrite Hpre. cbn [Js.slice1]. by rewrite Hobj.
Qed.

End Serving.

(** X8.  The two objects of a successful generation are served with the
    cache policy of their role: [/art/latest.jpg] with
    [no-store, max-age=0], the history object with
    [public, max-age=31536000, immutable]; both as [image/jpeg], with the
    entity tag the bucket gave the write and open to every origin. *)
Theorem stored_objects_cache_policy (req : Request) (env : Env) (ext : Ext)
    (w : World) (bytes : list byte) (eh el : string)
    (g : Request) (env' : Env) (ext' : Ext) :
  successful_generation req env ext w bytes ->
  put_history ext = Stored eh ->
  put_latest ext = Stored el ->
  req_method g = "GET" ->
  (pathname (req_url g) = "/art/latest.jpg" ->
   outcome_of
     (Worker.fetch g env' ext' (world_of (Worker.fetch req env ext w)))
   = Returned
       {| status := 200;
          headers :=
            [("content-type", "image/jpeg");
             ("cache-control", "no-store, max-age=0");
             ("etag", el);
             ("access-control-allow-origin", "*")];
          body := Bytes bytes |})
  /\ (pathname (req_url g) = "/" ++ Worker.historyKey_at (now_store ext) ->
      outcome_of
        (Worker.fetch g env' ext' (world_of (Worker.fetch req env ext w)))
      = Returned
          {| status := 200;
             headers :=
               [("content-type", "image/jpeg");
                ("cache-control", "public, max-age=31536000, immutable");
                ("etag", eh);
                ("access-control-allow-origin", "*")];
             body := Bytes bytes |}).
Proof.
  intros Hsucc Hh Hl Hm.
  destruct (fetch_success _ _ _ _ _ Hsucc) as (p & _ & _ & _ & _ & _ & HART).
  destruct (store_both_objects (Worker.historyKey_at (now_store ext)) bytes
              ext (ART w) eh el (historyKey_not_latest _) Hh Hl)
    as [Hhist Hlatest].
  rewrite <- HART in Hhist, Hlatest.
  split; intros Hp.
  - by rewrite (fetch_serves_response g env' ext' _ Worker.latestKey _ Hm Hp
                  eq_refl Hlatest).
  - by rewrite (fetch_serves_response g env' ext' _ _ _ Hm Hp
                  (historyKey_under_art _) Hhist).
Qed.

(** The theorem at the latest object of a generation. *)
Lemma stored_objects_cache_policy_witness :
  outcome_of
    (Worker.fetch (Sample.get "/art/latest.jpg") (Sample.env_open None)
       Sample.ext_ok
       (world_of
          (Worker.fetch (Sample.frontend_request (JStr "a cat"))
             (Sample.env_open None) Sample.ext_ok Sample.empty_world)))
  = Returned
      {| status := 200;
         headers :=
           [("content-type", "image/jpeg");
            ("cache-control", "no-store, max-age=0");
            ("etag", "etag-l");
            ("access-control-allow-origin", "*")];
         body := Bytes Sample.image |}.
Proof.
  refine (proj1 (stored_objects_cache_policy
                   (Sample.frontend_request (JStr "a cat"))
                   (Sample.env_open None) Sample.ext_ok Sample.empty_world
                   Sample.image "etag-h" "etag-l"
                   (Sample.get "/art/latest.jpg") (Sample.env_open None)
                   Sample.ext_ok _ eq_refl eq_refl eq_refl) eq_refl).
  repeat split. eexists. split; vm_compute; reflexivity.
Defined.

(** X9.  Every request other than [POST /api/generate] leaves the stores
    as they are and calls no collaborator except one read of the bucket,
    which happens only for [GET] of a path under [/art/], with the path
    without its leading slash as the key (so the key starts with [art/]);
    a key that is not in the bucket is answered 404 [Image not found], as
    plain text. *)
Theorem other_routes_only_read (req : Request) (env : Env) (ext : Ext)
    (w : World) :
  is_generate_request req = false ->
  world_of (Worker.fetch req env ext w) = w
  /\ (forall e, In e (trace_of (Worker.fetch req env ext w)) ->
        exists key, e = CallGet key
                    /\ req_method req = "GET"
                    /\ pathname (req_url req) = "/" ++ key
                    /\ Js.startsWith key "art/" = true)
  /\ (req_method req = "GET" ->
      Js.startsWith (pathname (req_url req)) "/art/" = true ->
      ART w !! Js.slice1 (pathname (req_url req)) = None ->
      Worker.fetch req env ext w
      = (Returned
           {| status := 404;
              headers := [("content-type", "text/plain;charset=UTF-8")];
              body := Text "Image not found" |},
         w, [CallGet (Js.slice1 (pathname (req_url req)))])).
Proof.
  intros Hroute. split; [apply fetch_other_route, Hroute |]. split.
  - revert Hroute. unfold is_generate_request, Worker.fetch. intros ->.
    destruct (String.eqb (req_method req) "GET") eqn:Hm; cbn [andb].
    + apply String.eqb_eq in Hm.
      destruct (Js.startsWith (pathname (req_url req)) "/art/") eqn:Hart.
      * destruct (startsWith_slice1 _ Hart) as [Hp Hk].
        unfold Worker.serve_art. intros e He.
        exists (Js.slice1 (pathname (req_url req))).
        destruct (ART w !! _); simpl in He;
          destruct He as [<- | []]; by repeat split.
      * repeat case_match; intros e [].
    + intros e [].
  - intros Hm Hart Hnone. revert Hroute.
    unfold is_generate_request, Worker.fetch, Worker.serve_art.
    intros ->. by rewrite Hm, Hart, Hnone.
Qed.

(** The theorem at a read of an object that does not exist. *)
Lemma other_routes_only_read_witness :
  Worker.fetch (Sample.get "/art/missing.jpg") (Sample.env_open None)
    Sample.ext_ok Sample.empty_world
  = (Returned
       {| status := 404;
          headers := [("content-type", "text/plain;charset=UTF-8")];
          body := Text "Image not found" |},
     Sample.empty_world, [CallGet "art/missing.jpg"]).
Proof.
  exact (proj2 (proj2 (other_routes_only_read
                         (Sample.get "/art/missing.jpg")
                         (Sample.env_open None) Sample.ext_ok
                         Sample.empty_world eq_refl))
           eq_refl eq_refl eq_refl).
Defined.

(* ================================================================== *)
(** * The declared length in decimal *)
(* ================================================================== *)

Section DeclaredLength.

Import Worker.

Lemma digit_char_cases (m : N) :
  In (Js.digit_char m)
     ["0"; "1"; "2"; "3"; "4"; "5"; "6"; "7"; "8"; "9"]%char.
Proof.
  unfold Js.digit_char.
  assert (Hlt : m mod 10 < 10) by (apply N.mod_lt; lia).
  revert Hlt. generalize (m mod 10). intros r Hlt.
  assert (Hr : r = 0 \/ r = 1 \/ r = 2 \/ r = 3 \/ r = 4 \/ r = 5 \/ r = 6
               \/ r = 7 \/ r = 8 \/ r = 9) by lia.
  simpl. intuition (subst; tauto).
Qed.

Lemma digit_value_digit_char (m : N) :
  Js.digit_value 10 (Js.digit_char m) = Some (m mod 10).
Proof.
  unfold Js.digit_value, Js.digit_char.
  assert (Hlt : m mod 10 < 10) by (apply N.mod_lt; lia).
  revert Hlt. generalize (m mod 10). intros r Hlt.
  rewrite N_ascii_embedding by lia.
  assert (H1 : (48 <=? 48 + r) = true) by (apply N.leb_le; lia).
  assert (H2 : (48 + r <=? 57) = true) by (apply N.leb_le; lia).
  rewrite H1, H2. cbn [andb].
  replace (48 + r - 48) with r by lia.
  assert (H3 : (r <? 10) = true) by (apply N.ltb_lt; lia).
  by rewrite H3.
Qed.

Lemma digits_fuel_S (k : nat) (n : N) (acc : string) :
  Js.digits_fuel (S k) n acc
  = if n <? 10 then String (Js.digit_char n) acc
    else Js.digits_fuel k (n / 10) (String (Js.digit_char n) acc).
Proof. reflexivity. Qed.

(** Reading back the digits that were printed for [n]. *)
Lemma read_digits_digits_fuel (k : nat) (n : N) (acc : string) :
  n < 10 ^ N.of_nat (S k) ->
  Js.read_digits 10 (Js.digits_fuel (S k) n acc) None
  = Js.read_digits 10 acc (Some n).
Proof.
  revert n acc. induction k as [|k IH]; intros n acc Hn.
  - change (10 ^ N.of_nat 1) with 10 in Hn.
    rewrite digits_fuel_S.
    assert (Hlt : (n <? 10) = true) by (apply N.ltb_lt; lia).
    rewrite Hlt. cbn [Js.read_digits].
    rewrite digit_value_digit_char. cbn [default].
    rewrite N.mod_small by lia. f_equal.
  - rewrite digits_fuel_S. destruct (n <? 10) eqn:Hlt.
    + apply N.ltb_lt in Hlt. cbn [Js.read_digits].
      rewrite digit_value_digit_char. cbn [default].
      rewrite N.mod_small by lia. f_equal.
    + apply N.ltb_ge in Hlt. rewrite IH.
      * cbn [Js.read_digits]. rewrite digit_value_digit_char. cbn [default].
        do 2 f_equal. rewrite (N.div_mod n 10) at 3 by lia. reflexivity.
      * apply N.Div0.div_lt_upper_bound.
        replace (N.of_nat (S (S k))) with (N.succ (N.of_nat (S k))) in Hn
          by lia.
        rewrite N.pow_succ_r' in Hn. exact Hn.
Qed.

Lemma string_of_N_fuel (n : N) : n < 10 ^ N.of_nat (S (N.to_nat (N.log2 n))).
Proof.
  replace (N.of_nat (S (N.to_nat (N.log2 n)))) with (N.succ (N.log2 n))
    by lia.
  destruct (N.eq_dec n 0) as [-> | Hn]; [reflexivity |].
  pose proof (N.log2_spec n ltac:(lia)) as [_ Hup].
  eapply N.lt_le_trans; [exact Hup |].
  apply N.pow_le_mono_l. lia.
Qed.

Lemma read_digits_string_of_N (n : N) :
  Js.read_digits 10 (Js.string_of_N n) None = Some n.
Proof.
  unfold Js.string_of_N.
  by rewrite read_digits_digits_fuel by apply string_of_N_fuel.
Qed.

(** A printed number starts with a digit, and so does what follows. *)
Lemma digits_fuel_shape (k : nat) (n : N) (acc : string) :
  (acc = "" \/ exists m r, acc = String (Js.digit_char m) r) ->
  exists m r,
    Js.digits_fuel (S k) n acc = String (Js.digit_char m) r
    /\ (r = "" \/ exists m' r', r = String (Js.digit_char m') r').
Proof.
  revert n acc. induction k as [|k IH]; intros n acc Hacc.
  - rewrite digits_fuel_S. destruct (n <? 10); by exists n, acc.
  - rewrite digits_fuel_S. destruct (n <? 10); [by exists n, acc |].
    apply IH. right. by exists n, acc.
Qed.

(** [parseInt] of digits is base ten: no sign, no hexadecimal prefix. *)
Lemma parseInt_digits (m : N) (r : string) :
  (r = "" \/ exists m' r', r = String (Js.digit_char m') r') ->
  Js.parseInt (String (Js.digit_char m) r)
  = Z.of_N <$> Js.read_digits 10 (String (Js.digit_char m) r) None.
Proof.
  intros Hr. pose proof (digit_char_cases m) as Hm.
  destruct Hr as [-> | (m' & r' & ->)].
  - simpl in Hm.
    repeat (destruct Hm as [<- | Hm]; [reflexivity |]). destruct Hm.
  - pose proof (digit_char_cases m') as Hm'. simpl in Hm, Hm'.
    repeat (destruct Hm as [<- | Hm];
            [repeat (destruct Hm' as [<- | Hm']; [reflexivity |]);
             destruct Hm' |]).
    destruct Hm.
Qed.

Lemma parseInt_string_of_N (n : N) :
  Js.parseInt (Js.string_of_N n) = Some (Z.of_N n).
Proof.
  pose proof (read_digits_string_of_N n) as Hread.
  unfold Js.string_of_N in *.
  destruct (digits_fuel_shape (N.to_nat (N.log2 n)) n "" (or_introl eq_refl))
    as (m & r & Hs & Hr).
  rewrite Hs in *. rewrite parseInt_digits by exact Hr. by rewrite Hread.
Qed.

End DeclaredLength.

(** X10.  For a declared [content-length] written in decimal, the size
    check draws the line at 10000: up to 10000 the request passes the
    check, from 10001 on it is answered 413 [request_too_large], before
    authentication and without any call to a collaborator. *)
Theorem declared_length_boundary (req : Request) (env : Env) (ext : Ext)
    (w : World) (n : N) :
  is_generate_request req = true ->
  Worker.header req "content-length" = Some (Js.string_of_N n) ->
  (n <= 10000 -> Worker.size_check req = None)
  /\ (10000 < n ->
      Worker.fetch req env ext w
      = (Returned
           (Worker.error_response 413 "request_too_large"
              "Request body exceeds 10KB limit"),
         w, [])).
Proof.
  intros Hroute Hcl.
  assert (Hne : Js.truthy_string (Js.string_of_N n) = true).
  { unfold Js.string_of_N.
    destruct (digits_fuel_shape (N.to_nat (N.log2 n)) n ""
                (or_introl eq_refl)) as (m & r & -> & _). reflexivity. }
  assert (Hlarge : Worker.too_large req = (10000 <? n)).
  { unfold Worker.too_large. rewrite Hcl, Hne, parseInt_string_of_N.
    unfold Worker.MAX_REQUEST_SIZE. cbn [andb].
    destruct (10000 <? n) eqn:E.
    - apply N.ltb_lt in E. apply Z.ltb_lt. lia.
    - apply N.ltb_ge in E. apply Z.ltb_ge. lia. }
  split.
  - intros Hle. unfold Worker.size_check. rewrite Hlarge.
    apply N.ltb_ge in Hle. by rewrite Hle.
  - intros Hgt. rewrite fetch_generate_request by exact Hroute.
    unfold Worker.handle_generate, Worker.size_check. rewrite Hlarge.
    apply N.ltb_lt in Hgt. by rewrite Hgt.
Qed.

(** The theorem at declared lengths 10000 and 10001. *)
Lemma declared_length_boundary_witness :
  Worker.size_check (Scenario.declared_request 10000) = None
  /\ Worker.fetch (Scenario.declared_request 10001)
       (Sample.env_open (Some "s3cret")) Sample.ext_ok Sample.empty_world
     = (Returned
          (Worker.error_response 413 "request_too_large"
             "Request body exceeds 10KB limit"),
        Sample.empty_world, []).
Proof.
  split.
  - apply (proj1 (declared_length_boundary (Scenario.declared_request 10000)
                    (Sample.env_open (Some "s3cret")) Sample.ext_ok
                    Sample.empty_world 10000 eq_refl eq_refl)).
    lia.
  - apply (proj2 (declared_length_boundary (Scenario.declared_request 10001)
                    (Sample.env_open (Some "s3cret")) Sample.ext_ok
                    Sample.empty_world 10001 eq_refl eq_refl)).
    lia.
Defined.

(* ================================================================== *)
(** * What reaches the provider *)
(* ================================================================== *)

Section Admission.

Import Worker.

(** ** Trimming twice is trimming once *)

Lemma trimStart_clean (s : string) : starts_clean (Js.trimStart s).
Proof.
  induction s as [|c s IH]; [exact I |].
  cbn [Js.trimStart]. destruct (Js.is_space c) eqn:Hc; [exact IH | exact Hc].
Qed.

Lemma trimStart_of_clean (s : string) :
  starts_clean s -> Js.trimStart s = s.
Proof. destruct s as [|c s]; [done |]. simpl. by intros ->. Qed.

Lemma trimEnd_clean (s : string) :
  starts_clean s -> starts_clean (Js.trimEnd s).
Proof.
  destruct s as [|c s]; [done |]. cbn [starts_clean Js.trimEnd]. intros Hc.
  destruct (Js.trimEnd s); rewrite ?Hc; exact Hc.
Qed.

Lemma trimEnd_idempotent (s : string) :
  Js.trimEnd (Js.trimEnd s) = Js.trimEnd s.
Proof.
  induction s as [|c s IH]; [reflexivity |].
  cbn [Js.trimEnd]. destruct (Js.trimEnd s) as [|d t] eqn:Ht.
  - destruct (Js.is_space c) eqn:Hc; [reflexivity |].
    cbn [Js.trimEnd]. by rewrite Hc.
  - cbn [Js.trimEnd] in *. by rewrite IH.
Qed.

Lemma trim_idempotent (s : string) : Js.trim (Js.trim s) = Js.trim s.
Proof.
  unfold Js.trim.
  rewrite (trimStart_of_clean (Js.trimEnd (Js.trimStart s)))
    by apply trimEnd_clean, trimStart_clean.
  apply trimEnd_idempotent.
Qed.

Lemma call_trim_trimmed (v : JsValue) (p : string) :
  call_trim v = inr p -> Js.trim p = p.
Proof.
  destruct v; try discriminate. simpl. intros [= <-]. apply trim_idempotent.
Qed.

Lemma prompt_of_trimmed (body : JsValue) (p : string) :
  prompt_of body = inr p -> Js.trim p = p.
Proof.
  unfold prompt_of. destruct (body_prompt body); [discriminate |].
  apply call_trim_trimmed.
Qed.

(** ** The checks that let a prompt through *)

Lemma validate_prompt_none (p : string) :
  validate_prompt p = None ->
  MIN_PROMPT_LENGTH <= str_length p /\ str_length p <= MAX_PROMPT_LENGTH.
Proof.
  unfold validate_prompt.
  destruct (negb (Js.truthy_string p)); [discriminate |]. cbn [orb].
  destruct (str_length p <? MIN_PROMPT_LENGTH) eqn:Hlo; [discriminate |].
  destruct (MAX_PROMPT_LENGTH <? str_length p) eqn:Hhi; [discriminate |].
  intros _. apply N.ltb_ge in Hlo, Hhi. by split.
Qed.

Lemma content_filter_none (p word : string) :
  content_filter p = None ->
  In word BLOCKED_WORDS ->
  Js.includes (Js.toLowerCase p) word = false.
Proof.
  intros Hnone Hin.
  destruct (Js.includes (Js.toLowerCase p) word) eqn:Hinc; [| reflexivity].
  rewrite (content_filter_fires p word Hin Hinc) in Hnone. discriminate.
Qed.

(** Everything a request went through before the provider was called. *)
Lemma fetch_generation_stages (req : Request) (env : Env) (ext : Ext)
    (w : World) (p : string) :
  In (CallGenerate p) (trace_of (fetch req env ext w)) ->
  is_generate_request req = true
  /\ size_check req = None
  /\ auth_check req env = None
  /\ (exists body, req_json req = JsonOk body /\ prompt_of body = inr p)
  /\ validate_prompt p = None
  /\ content_filter p = None.
Proof.
  destruct (is_generate_request req) eqn:Hroute.
  - rewrite fetch_generate_request by exact Hroute. unfold handle_generate.
    destruct (size_check req); [intros [] |].
    destruct (auth_check req env); [intros [] |].
    destruct (rate_limit_stage req env ext w) as [[l w2] t2] eqn:Hrl.
    apply rate_limit_stage_frame in Hrl as (_ & _ & Ht2).
    assert (Ht3 : no_generation (t2 ++ [CallJson])%list)
      by (by apply no_generation_app).
    destruct l as [r|].
    { intros Hin. exfalso. eapply no_generation_In; [exact Ht2 | exact Hin]. }
    unfold fulfil.
    destruct (req_json req) as [body|];
      [| intros Hin; exfalso; eapply no_generation_In;
           [exact Ht3 | exact Hin]].
    destruct (prompt_of body) as [e|q] eqn:Hq;
      [intros Hin; exfalso; eapply no_generation_In;
         [exact Ht3 | exact Hin] |].
    destruct (validate_prompt q) eqn:Hv;
      [intros Hin; exfalso; eapply no_generation_In;
         [exact Ht3 | exact Hin] |].
    destruct (content_filter q) eqn:Hc;
      [intros Hin; exfalso; eapply no_generation_In;
         [exact Ht3 | exact Hin] |].
    intros Hin.
    rewrite (generate_and_store_prompt _ _ _ _ _ _ _ Ht3 Hin) in *.
    repeat split; try assumption. by exists body.
  - intros Hin. exfalso.
    destruct (fetch_other_route req env ext w Hroute) as [_ Ht].
    destruct Ht as [Ht | [Ht _]]; rewrite Ht in Hin; simpl in Hin;
      intuition discriminate.
Qed.

End Admission.

(** X11.  The same-origin test is a substring test: a request whose
    [origin] or [referer] header contains the host of the service anywhere
    passes authentication without any key, whatever else the header
    says. *)
Theorem same_origin_is_substring_match (req : Request) (env : Env)
    (a b : string) :
  Worker.header req "origin" = Some (a ++ host (req_url req) ++ b)
  \/ Worker.header req "referer" = Some (a ++ host (req_url req) ++ b) ->
  Worker.auth_check req env = None.
Proof.
  intros H. apply auth_check_admits. left. unfold Worker.isSameOrigin.
  destruct H as [-> | ->]; cbn [Worker.opt_includes];
    rewrite includes_append; [reflexivity | apply orb_true_r].
Qed.

(** The theorem at an origin of another site that contains the host. *)
Lemma same_origin_is_substring_match_witness :
  Worker.auth_check Scenario.lookalike_origin_request (Sample.env_open None)
  = None.
Proof.
  apply (same_origin_is_substring_match Scenario.lookalike_origin_request
           (Sample.env_open None) "https://" ".evil.example").
  left. reflexivity.
Defined.

(** X12.  A string prompt that contains a denylisted word after
    lower-casing never reaches the Generation Client, whatever the other
    stages decide and however long the prompt is; the bucket and the spend
    ledger stay as they are. *)
Theorem denylisted_prompt_never_generated (req : Request) (env : Env)
    (ext : Ext) (w : World) (body : JsValue) (raw word : string) :
  req_json req = JsonOk body ->
  Worker.body_prompt body = inr (Some (JStr raw)) ->
  In word Worker.BLOCKED_WORDS ->
  Js.includes (Js.toLowerCase raw) word = true ->
  no_generation (trace_of (Worker.fetch req env ext w))
  /\ ART (world_of (Worker.fetch req env ext w)) = ART w
  /\ ledger (world_of (Worker.fetch req env ext w)) = ledger w.
Proof.
  intros Hj Hb Hin Hinc.
  assert (Hno : no_generation (trace_of (Worker.fetch req env ext w))).
  { unfold no_generation.
    destruct (forallb _ (trace_of (Worker.fetch req env ext w))) eqn:Hall;
      [reflexivity | exfalso].
    assert (Hex : exists q, In (CallGenerate q)
                              (trace_of (Worker.fetch req env ext w))).
    { clear -Hall. induction (trace_of (Worker.fetch req env ext w))
        as [|e t IH]; [discriminate |].
      simpl in Hall. apply andb_false_iff in Hall as [He | Ht].
      - destruct e; try discriminate. eexists. by left.
      - destruct (IH Ht) as [q Hq]. exists q. by right. }
    destruct Hex as [q Hq].
    destruct (fetch_generation_stages _ _ _ _ _ Hq)
      as (_ & _ & _ & (body' & Hj' & Hp) & _ & Hc).
    rewrite Hj in Hj'. injection Hj' as <-.
    rewrite (prompt_of_string body raw Hb) in Hp. injection Hp as <-.
    assert (Htrim : Js.includes (Js.toLowerCase (Js.trim raw)) word = true).
    { rewrite toLowerCase_trim. apply includes_trim; [| exact Hinc].
      by apply blocked_word_solid. }
    rewrite (content_filter_fires _ word Hin Htrim) in Hc. discriminate. }
  split; [exact Hno |].
  destruct (fetch_without_generation req env ext w Hno) as (HA & HL & _).
  by split.
Qed.

(** The theorem at the prompt of 501 characters that starts with a
    denylisted word. *)
Lemma denylisted_prompt_never_generated_witness :
  no_generation
    (trace_of
       (Worker.fetch
          (Sample.frontend_request (JStr Sample.long_denylisted_prompt))
          (Sample.env_open None) Sample.ext_ok Sample.empty_world)).
Proof.
  refine (proj1 (denylisted_prompt_never_generated
                   (Sample.frontend_request
                      (JStr Sample.long_denylisted_prompt))
                   (Sample.env_open None) Sample.ext_ok Sample.empty_world
                   (JObj [("prompt", JStr Sample.long_denylisted_prompt)])
                   Sample.long_denylisted_prompt "kill"
                   eq_refl eq_refl _ _)).
  - simpl. tauto.
  - reflexivity.
Defined.

(** X13.  The Generation Client is called only on the generation route,
    for a request that passed the size check and authentication, and only
    with a prompt that is trimmed, has between 3 and 500 characters and
    contains no denylisted word after lower-casing. *)
Theorem provider_sees_only_validated_prompts (req : Request) (env : Env)
    (ext : Ext) (w : World) (p : string) :
  In (CallGenerate p) (trace_of (Worker.fetch req env ext w)) ->
  is_generate_request req = true
  /\ Worker.size_check req = None
  /\ Worker.auth_check req env = None
  /\ (exists body, req_json req = JsonOk body /\ Worker.prompt_of body = inr p)
  /\ Js.trim p = p
  /\ 3 <= Worker.str_length p
  /\ Worker.str_length p <= 500
  /\ forall word, In word Worker.BLOCKED_WORDS ->
                  Js.includes (Js.toLowerCase p) word = false.
Proof.
  intros Hin.
  destruct (fetch_generation_stages _ _ _ _ _ Hin)
    as (Hroute & Hs & Ha & (body & Hj & Hp) & Hv & Hc).
  destruct (validate_prompt_none _ Hv) as [Hlo Hhi].
  repeat split; try assumption.
  - by exists body.
  - by apply prompt_of_trimmed in Hp.
  - intros word Hw. by apply content_filter_none.
Qed.

(** The theorem at a served generation. *)
Lemma provider_sees_only_validated_prompts_witness :
  Js.trim "a cat" = "a cat"
  /\ Worker.auth_check (Sample.frontend_request (JStr "  a cat "))
       (Sample.env_open None) = None.
Proof.
  destruct (provider_sees_only_validated_prompts
              (Sample.frontend_request (JStr "  a cat "))
              (Sample.env_open None) Sample.ext_ok Sample.empty_world "a cat")
    as (_ & _ & Ha & _ & Ht & _).
  - vm_compute. tauto.
  - by split.
Defined.

(* ================================================================== *)
(** * The stores over a run of requests *)
(* ================================================================== *)

Section Growth.

Import Worker.

Lemma store_both_keeps (hk : string) (bytes : list byte) (ext : Ext)
    (bucket : gmap string R2Object) (key : string) :
  is_Some (bucket !! key) ->
  is_Some (store_both hk bytes ext bucket !! key).
Proof.
  intros H. unfold store_both, put_history_object, put_latest_object, put.
  destruct (latest_settles_first ext), (put_history ext), (put_latest ext);
    rewrite ?lookup_insert_is_Some; try assumption;
    repeat match goal with
           | |- _ \/ _ =>
               destruct (decide (hk = key)); [by left | right; split; [done |]]
           | |- latestKey = key \/ _ =>
               destruct (decide (latestKey = key));
               [by left | right; split; [done |]]
           end; rewrite ?lookup_insert_is_Some; try assumption;
    try (destruct (decide (latestKey = key)); [by left | by right]);
    try (destruct (decide (hk = key)); [by left | by right]).
Qed.

Lemma fetch_bucket_keeps (req : Request) (env : Env) (ext : Ext) (w : World)
    (key : string) :
  is_Some (ART w !! key) ->
  is_Some (ART (world_of (fetch req env ext w)) !! key).
Proof.
  intros H. destruct (is_generate_request req) eqn:Hroute.
  - rewrite fetch_generate_request by exact Hroute.
    unfold handle_generate, world_of.
    destruct (size_check req); [exact H |].
    destruct (auth_check req env); [exact H |].
    destruct (rate_limit_stage req env ext w) as [[l w2] t2] eqn:Hrl.
    apply rate_limit_stage_frame in Hrl as (HART & _ & _).
    rewrite <- HART in H.
    destruct l; [exact H |]. unfold fulfil.
    destruct (req_json req) as [body|]; [| exact H].
    destruct (prompt_of body) as [e|p]; [exact H |].
    destruct (validate_prompt p); [exact H |].
    destruct (content_filter p); [exact H |].
    unfold generate_and_store.
    destruct (generateImage ext) as [bytes|m]; [| exact H].
    destruct (MAX_IMAGE_BYTES <? _); [exact H |].
    destruct (update_spend env ext (ledger w2)) as [cells t7].
    destruct (rejection ext); cbn [fst snd ART]; by apply store_both_keeps.
  - by rewrite (proj1 (fetch_other_route req env ext w Hroute)).
Qed.

End Growth.

(** X14.  Over any run of requests the worker deletes nothing from the
    bucket: a key under which an object is stored stays in the bucket,
    under the same or a newer content, whatever the requests are and
    however they end. *)
Theorem bucket_only_grows (env : Env) (steps : list (Request * Ext))
    (w : World) (key : string) :
  is_Some (ART w !! key) -> is_Some (ART (run env steps w) !! key).
Proof.
  revert w. induction steps as [|[req ext] steps IH]; intros w H; [exact H |].
  cbn [run]. by apply IH, fetch_bucket_keeps.
Qed.

(** The theorem for the history object of a first generation, after a
    second one. *)
Lemma bucket_only_grows_witness :
  is_Some
    (ART (run (Sample.env_open None)
            [(Sample.frontend_request (JStr "a dog"), Sample.ext_later)]
            (run (Sample.env_open None)
               [(Sample.frontend_request (JStr "a cat"), Sample.ext_ok)]
               Sample.empty_world))
     !! Worker.historyKey_at 1704067260123).
Proof.
  apply (bucket_only_grows (Sample.env_open None)
           [(Sample.frontend_request (JStr "a dog"), Sample.ext_later)]
           (run (Sample.env_open None)
              [(Sample.frontend_request (JStr "a cat"), Sample.ext_ok)]
              Sample.empty_world)
           (Worker.historyKey_at 1704067260123)).
  vm_compute. eexists. reflexivity.
Defined.

(* ================================================================== *)
(** * The form and the server *)
(* ================================================================== *)

Section Form.

Import Worker.

Lemma shown_for_catch (m : option string) : shown_for (catch_response m).
Proof.
  unfold catch_response.
  repeat case_match; eexists; (split; [reflexivity |]); by left.
Qed.

Lemma shown_for_rate_limit (req : Request) (env : Env) (ext : Ext)
    (w w2 : World) (r : Response) (t2 : list Event) :
  rate_limit_stage req env ext w = (Some r, w2, t2) -> shown_for r.
Proof.
  unfold rate_limit_stage, Upstash.limit.
  repeat case_match; intros [= <- <- <-]; eexists;
    (split; [reflexivity |]); by left.
Qed.

End Form.

(** X15.  The form and the server agree on the length of a prompt: what
    the form posts is the trimmed text, which the server reads back
    unchanged and lets through its length checks; and the form refuses,
    with the matching text, exactly what the server would answer
    [invalid_prompt] or [prompt_too_long]. *)
Theorem form_validation_matches_server (value : string) :
  match Frontend.on_submit value with
  | Frontend.Post p =>
      p = Js.trim value
      /\ Worker.prompt_of (Frontend.posted_body p) = inr p
      /\ Worker.validate_prompt p = None
  | Frontend.ShowError Frontend.AtLeast3Characters =>
      Worker.validate_prompt (Js.trim value)
      = Some Worker.invalid_prompt_response
  | Frontend.ShowError Frontend.LessThan500Characters =>
      Worker.validate_prompt (Js.trim value)
      = Some Worker.prompt_too_long_response
  end.
Proof.
  unfold Frontend.on_submit, Worker.validate_prompt,
    Worker.MIN_PROMPT_LENGTH, Worker.MAX_PROMPT_LENGTH.
  destruct (negb (Js.truthy_string (Js.trim value))
            || (Worker.str_length (Js.trim value) <? 3)) eqn:Hshort;
    [reflexivity |].
  destruct (500 <? Worker.str_length (Js.trim value)) eqn:Hlong;
    [reflexivity |].
  split; [reflexivity |]. split; [| by rewrite Hshort, Hlong].
  rewrite (prompt_of_string (Frontend.posted_body (Js.trim value))
             (Js.trim value) eq_refl).
  by rewrite trim_idempotent.
Qed.

(** X16.  For every response of the generation route that is not the
    200 success, the form has a text of the server to show: the message
    of the response, or the kind [unauthorized] for the 401, which
    carries no message; its own generic text is never needed. *)
Theorem form_shows_server_text (req : Request) (env : Env) (ext : Ext)
    (w : World) (r : Response) :
  is_generate_request req = true ->
  outcome_of (Worker.fetch req env ext w) = Returned r ->
  status r <> 200 ->
  shown_for r.
Proof.
  intros Hroute. rewrite fetch_generate_request by exact Hroute.
  unfold Worker.handle_generate.
  assert (Hlit : forall st k m, m <> "" ->
            shown_for (Worker.error_response st k m)).
  { intros st k m Hm. exists [("error", k); ("message", m)].
    split; [reflexivity |]. left. by destruct m. }
  destruct (Worker.size_check req) as [r0|] eqn:Hs.
  { intros [= <-] _. apply size_check_rejects in Hs as [_ ->].
    by apply Hlit. }
  destruct (Worker.auth_check req env) as [r1|] eqn:Ha.
  { intros [= <-] _. apply auth_check_rejects in Ha as ->.
    eexists. split; [reflexivity |]. by right. }
  destruct (Worker.rate_limit_stage req env ext w) as [[l w2] t2] eqn:Hrl.
  destruct l as [r2|].
  { intros [= <-] _. by eapply shown_for_rate_limit. }
  unfold Worker.fulfil.
  destruct (req_json req) as [body|]; [| intros [= <-] _; by apply Hlit].
  destruct (Worker.prompt_of body) as [e|p]; [discriminate |].
  unfold Worker.validate_prompt.
  destruct (negb (Js.truthy_string p) || _).
  { intros [= <-] _. eexists. split; [reflexivity |]. by left. }
  destruct (Worker.MAX_PROMPT_LENGTH <? _).
  { intros [= <-] _. eexists. split; [reflexivity |]. by left. }
  destruct (Worker.content_filter p) as [r4|] eqn:Hc.
  { intros [= <-] _. apply content_filter_rejects in Hc as ->.
    by apply Hlit. }
  unfold Worker.generate_and_store.
  destruct (Worker.update_spend env ext (ledger w2)) as [cells t7].
  destruct (generateImage ext) as [bytes|m];
    [| intros [= <-] _; apply shown_for_catch].
  destruct (Worker.MAX_IMAGE_BYTES <? _);
    [intros [= <-] _; by apply Hlit |].
  destruct (Worker.rejection ext) as [m|];
    [intros [= <-] _; apply shown_for_catch |].
  intros [= <-] H200. by destruct H200.
Qed.

(** The theorem at the 401 response. *)
Lemma form_shows_server_text_witness :
  shown_for Worker.unauthorized_response.
Proof.
  apply (form_shows_server_text Sample.empty_key_request
           (Sample.env_open (Some "")) Sample.ext_ok Sample.empty_world
           Worker.unauthorized_response eq_refl eq_refl).
  discriminate.
Defined.

(* ================================================================== *)
(** * The revision: listing the gallery *)
(* ================================================================== *)

Section Listing.

Import Revision.

Context {A : Type} (uploaded : A -> N).

Lemma insert_newest_first_perm (x : A) (l : list A) :
  Permutation (insert_newest_first uploaded x l) (x :: l).
Proof.
  induction l as [|y l IH]; cbn; [done |].
  destruct (uploaded y <=? uploaded x); [done |].
  rewrite IH. apply perm_swap.
Qed.

Lemma sort_newest_first_perm (l : list A) :
  Permutation (sort_newest_first uploaded l) l.
Proof.
  induction l as [|x l IH]; cbn; [done |].
  by rewrite insert_newest_first_perm, IH.
Qed.

Lemma insert_newest_first_sorted (x : A) (l : list A) :
  StronglySorted (not_older uploaded) l ->
  StronglySorted (not_older uploaded) (insert_newest_first uploaded x l).
Proof.
  induction 1 as [|y l Hl IH Hy]; cbn.
  - constructor; [constructor | constructor].
  - destruct (uploaded y <=? uploaded x) eqn:Hc.
    + apply N.leb_le in Hc. constructor; [by constructor |].
      constructor; [exact Hc |].
      eapply Forall_impl; [exact Hy |].
      unfold not_older. intros z Hz. lia.
    + apply N.leb_gt in Hc. constructor; [exact IH |].
      rewrite insert_newest_first_perm. constructor; [| exact Hy].
      unfold not_older. lia.
Qed.

Lemma sort_newest_first_sorted (l : list A) :
  StronglySorted (not_older uploaded) (sort_newest_first uploaded l).
Proof.
  induction l as [|x l IH]; cbn; [constructor |].
  by apply insert_newest_first_sorted.
Qed.

(** The first entry of the sorted list is not older than any entry. *)
Lemma sort_newest_first_head (l : list A) (x : A) (rest : list A) :
  sort_newest_first uploaded l = x :: rest ->
  In x l /\ forall y, In y l -> uploaded y <= uploaded x.
Proof.
  intros Hs.
  pose proof (sort_newest_first_perm l) as Hp.
  pose proof (sort_newest_first_sorted l) as Hsorted.
  rewrite Hs in Hp, Hsorted. split.
  - eapply Permutation_in; [exact Hp | by left].
  - intros y Hy. apply (Permutation_in _ (Permutation_sym Hp)) in Hy.
    apply StronglySorted_inv in Hsorted as [_ Hall].
    destruct Hy as [-> | Hy]; [lia |].
    rewrite List.Forall_forall in Hall. by apply Hall.
Qed.

End Listing.

Section ListingRoutes.

Import Revision.

(** Sorting the reports is reporting the sorted entries. *)
Lemma sort_newest_first_map {A B : Type} (ua : A -> N) (ub : B -> N)
    (f : A -> B) (l : list A) :
  (forall x, ub (f x) = ua x) ->
  sort_newest_first ub (map f l) = map f (sort_newest_first ua l).
Proof.
  intros Hf. induction l as [|x l IH]; cbn; [done |].
  rewrite IH. generalize (sort_newest_first ua l). clear IH.
  intros s. induction s as [|y s IHs]; cbn; [done |].
  rewrite !Hf. destruct (ua y <=? ua x); cbn; [done |].
  by rewrite IHs.
Qed.

Lemma not_latest_key (obj : Listed) :
  not_latest obj = true <-> l_key obj <> "art/latest.jpg".
Proof.
  unfold not_latest. rewrite negb_true_iff. apply String.eqb_neq.
Qed.

Lemma fetch_images_route (req : Request) (env : Env) (ext : Ext)
    (rx : RevExt) (w : World) :
  req_method req = "GET" ->
  pathname (req_url req) = "/api/images" ->
  Revision.fetch req env ext rx w
  = (RevReturned (images (req_url req) (listing rx 100)), w,
     [CallList "art/" 100]).
Proof.
  intros Hm Hp.
  unfold Revision.fetch, WorkerRevision.preflight, route, route_under.
  by rewrite Hm, Hp.
Qed.

Lemma fetch_images_latest_route (req : Request) (env : Env) (ext : Ext)
    (rx : RevExt) (w : World) :
  req_method req = "GET" ->
  pathname (req_url req) = "/api/images/latest" ->
  Revision.fetch req env ext rx w
  = (RevReturned (images_latest (req_url req) (listing rx 1000)), w,
     [CallList "art/" 1000]).
Proof.
  intros Hm Hp.
  unfold Revision.fetch, WorkerRevision.preflight, route, route_under.
  by rewrite Hm, Hp.
Qed.

(** X17.  [GET /api/images] of the revision answers 200 with the listed
    objects other than [art/latest.jpg], each exactly once, newest first,
    and with their number as [count]; it lists the bucket once with limit
    100 and changes nothing. *)
Theorem image_list_is_the_sorted_history (req : Request) (env : Env)
    (ext : Ext) (rx : RevExt) (w : World) (objects : list Listed) :
  req_method req = "GET" ->
  pathname (req_url req) = "/api/images" ->
  listing rx 100 = Objects objects ->
  exists imgs,
    Revision.fetch req env ext rx w
    = (RevReturned
         {| r_status := 200; r_headers := json_cors_headers;
            r_body :=
              ImageList (N.of_nat (length (List.filter not_latest objects))) imgs |},
       w, [CallList "art/" 100])
    /\ Permutation imgs
         (map (image_info (req_url req)) (List.filter not_latest objects))
    /\ StronglySorted (not_older i_uploaded) imgs
    /\ Forall (fun img => i_key img <> "art/latest.jpg") imgs.
Proof.
  intros Hm Hp Hl. exists (images_of (req_url req) objects).
  rewrite fetch_images_route by done. rewrite Hl.
  assert (Hperm : Permutation (images_of (req_url req) objects)
            (map (image_info (req_url req)) (List.filter not_latest objects)))
    by apply sort_newest_first_perm.
  split; [| split; [exact Hperm | split]].
  - cbn [images]. apply Permutation_length in Hperm.
    rewrite Hperm, length_map. reflexivity.
  - apply sort_newest_first_sorted.
  - apply List.Forall_forall. intros img Himg.
    apply (Permutation_in _ Hperm) in Himg.
    apply in_map_iff in Himg as (obj & <- & Hobj).
    apply filter_In in Hobj as [_ Hk].
    cbn. by apply not_latest_key.
Qed.

(** The theorem on a listing of two images and the latest copy. *)
Lemma image_list_is_the_sorted_history_witness :
  exists imgs,
    Revision.fetch (Sample.get "/api/images") (Sample.env_open None)
      Sample.ext_ok RevSample.rx_ok Sample.empty_world
    = (RevReturned
         {| r_status := 200; r_headers := json_cors_headers;
            r_body := ImageList 2 imgs |},
       Sample.empty_world, [CallList "art/" 100])
    /\ Permutation imgs
         (map (image_info (Sample.service "/api/images"))
            (List.filter not_latest RevSample.bucket_listing))
    /\ StronglySorted (not_older i_uploaded) imgs
    /\ Forall (fun img => i_key img <> "art/latest.jpg") imgs.
Proof.
  exact (image_list_is_the_sorted_history (Sample.get "/api/images")
           (Sample.env_open None) Sample.ext_ok RevSample.rx_ok
           Sample.empty_world RevSample.bucket_listing
           eq_refl eq_refl eq_refl).
Defined.

(** X18.  [GET /api/images/latest] answers 404 [no_images_found] when
    the listing holds no object other than [art/latest.jpg]; otherwise it
    answers 200 with a listed object other than [art/latest.jpg] that is
    not older than any other such object.  The copy [art/latest.jpg]
    itself is never the answer. *)
Theorem latest_image_is_the_newest_history_object (req : Request)
    (env : Env) (ext : Ext) (rx : RevExt) (w : World)
    (objects : list Listed) :
  req_method req = "GET" ->
  pathname (req_url req) = "/api/images/latest" ->
  listing rx 1000 = Objects objects ->
  exists r,
    Revision.fetch req env ext rx w
    = (RevReturned r, w, [CallList "art/" 1000])
    /\ ((Forall (fun obj => l_key obj = "art/latest.jpg") objects
         /\ r = json_error 404 [("error", "no_images_found")])
        \/ exists obj,
             In obj objects
             /\ l_key obj <> "art/latest.jpg"
             /\ r = {| r_status := 200; r_headers := json_cors_headers;
                       r_body := LatestImage (image_info (req_url req) obj) |}
             /\ forall other,
                  In other objects -> l_key other <> "art/latest.jpg" ->
                  l_uploaded other <= l_uploaded obj).
Proof.
  intros Hm Hp Hl. rewrite fetch_images_latest_route by done.
  rewrite Hl. eexists. split; [reflexivity |].
  unfold images_latest.
  destruct (sort_newest_first l_uploaded (List.filter not_latest objects))
    as [|obj rest] eqn:Hs.
  - left. split; [| reflexivity].
    pose proof (sort_newest_first_perm l_uploaded
                  (List.filter not_latest objects)) as Hperm.
    rewrite Hs in Hperm. apply Permutation_nil in Hperm.
    apply List.Forall_forall. intros obj Hobj.
    destruct (String.eqb_spec (l_key obj) "art/latest.jpg") as [|Hne];
      [done |].
    assert (Hin : In obj (List.filter not_latest objects)).
    { apply filter_In. split; [done |]. by apply not_latest_key. }
    rewrite Hperm in Hin. destruct Hin.
  - right. exists obj.
    apply sort_newest_first_head in Hs as [Hin Hmax].
    apply filter_In in Hin as [Hin Hk].
    apply not_latest_key in Hk.
    split; [done |]. split; [done |]. split; [reflexivity |].
    intros other Hother Hne. apply Hmax.
    apply filter_In. split; [done |]. by apply not_latest_key.
Qed.

(** The theorem on a listing of two images and the latest copy, which is
    the most recent upload of the three. *)
Lemma latest_image_is_the_newest_history_object_witness :
  exists r,
    Revision.fetch (Sample.get "/api/images/latest") (Sample.env_open None)
      Sample.ext_ok RevSample.rx_ok Sample.empty_world
    = (RevReturned r, Sample.empty_world, [CallList "art/" 1000])
    /\ r_status r = 200.
Proof.
  destruct (latest_image_is_the_newest_history_object
              (Sample.get "/api/images/latest") (Sample.env_open None)
              Sample.ext_ok RevSample.rx_ok Sample.empty_world
              RevSample.bucket_listing eq_refl eq_refl eq_refl)
    as (r & Hr & _).
  exists r. split; [exact Hr |].
  by injection Hr as <-.
Defined.

(** X19.  On one and the same listing the two routes agree: the image
    that [/api/images/latest] reports is the first entry of the list of
    [/api/images], and it answers 404 exactly when that list is empty.
    (The routes ask for listings of at most 1000 and at most 100
    objects.) *)
Theorem latest_image_heads_the_image_list (u : Url)
    (objects : list Listed) :
  match images_of u objects with
  | [] => images_latest u (Objects objects)
          = json_error 404 [("error", "no_images_found")]
  | first :: _ =>
      images_latest u (Objects objects)
      = {| r_status := 200; r_headers := json_cors_headers;
           r_body := LatestImage first |}
  end.
Proof.
  unfold images_of, images_latest.
  rewrite (sort_newest_first_map l_uploaded i_uploaded (image_info u))
    by reflexivity.
  by destruct (sort_newest_first l_uploaded (List.filter not_latest objects)).
Qed.

End ListingRoutes.

(* ================================================================== *)
(** * The revision: sculptures *)
(* ================================================================== *)

Section Sculptures.

Import Revision.

Lemma fetch_sculpture_route (req : Request) (env : Env) (ext : Ext)
    (rx : RevExt) (w : World) :
  req_method req = "POST" ->
  pathname (req_url req) = "/api/generate-sculpture" ->
  Revision.fetch req env ext rx w
  = generate_sculpture req (sculpture_ext rx) w.
Proof.
  intros Hm Hp.
  unfold Revision.fetch, WorkerRevision.preflight, route, route_under.
  by rewrite Hm, Hp.
Qed.

Lemma truthy_of_length (s : string) :
  3 <= Worker.str_length s -> Js.truthy_string s = true.
Proof. destruct s; [intros H; exfalso; by apply H | done]. Qed.

(** A string prompt of three characters or more reaches the first
    provider call, as it was sent. *)
Lemma generate_sculpture_reaches_provider (req : Request)
    (sx : SculptureExt) (w : World) (body : JsValue) (raw : string) :
  req_json req = JsonOk body ->
  Worker.body_prompt body = inr (Some (JStr raw)) ->
  3 <= Worker.str_length raw ->
  exists rest,
    rev_trace_of (generate_sculpture req sx w)
    = Base CallJson :: CallImageProvider (JStr raw) :: rest
    /\ Forall (fun e => match e with
                        | Base CallJson | Base (CallPut _) => True
                        | CallSculptureProvider _ => True
                        | _ => False
                        end) rest
    /\ windows (rev_world_of (generate_sculpture req sx w)) = windows w
    /\ ledger (rev_world_of (generate_sculpture req sx w)) = ledger w.
Proof.
  intros Hj Hb Hlen. pose proof (truthy_of_length raw Hlen) as Ht.
  unfold generate_sculpture, sculpture_prompt. rewrite Hj, Hb.
  assert (Hs : (Worker.str_length raw <? 3) = false) by (apply N.ltb_ge; lia).
  cbn [Worker.or_empty Worker.js_truthy]. rewrite Ht.
  cbn [length_below_3 converts Worker.js_truthy]. rewrite Ht, Hs.
  cbn [negb orb].
  destruct (image_reply sx) as [m | st errorText | imageBytes].
  1, 2: exists []; repeat split; constructor.
  destruct (sculpture_reply sx) as [m | st errorText | glbData].
  1, 2: eexists; split; [reflexivity |];
        repeat split; repeat constructor.
  destruct (put_sculpture sx) as [etag | m];
    eexists; (split; [reflexivity |]); repeat split; repeat constructor.
Qed.

(** A message that begins with a fixed text is shown as it is. *)
Lemma sculpture_failure_provider (what : string) (st : N)
    (errorText : string) :
  what <> "" ->
  sculpture_failure (Some (provider_error what st errorText))
  = json_error 500
      [("error", "generation_failed");
       ("message", provider_error what st errorText)].
Proof.
  intros Hw. unfold sculpture_failure, provider_error.
  destruct what as [|c what]; [done |]. by rewrite append_cons.
Qed.

(** X20.  The sculpture route of the revision has no admission control:
    a POST with a string prompt of three characters or more reaches the
    image provider whatever its headers, the secret and the counter
    store are, and the provider receives the prompt as sent (not trimmed,
    not bounded above, not filtered); no window and no spend cell is
    touched. *)
Theorem sculpture_route_admits_every_caller (req : Request) (env : Env)
    (ext : Ext) (rx : RevExt) (w : World) (body : JsValue) (raw : string) :
  req_method req = "POST" ->
  pathname (req_url req) = "/api/generate-sculpture" ->
  req_json req = JsonOk body ->
  Worker.body_prompt body = inr (Some (JStr raw)) ->
  3 <= Worker.str_length raw ->
  exists rest,
    rev_trace_of (Revision.fetch req env ext rx w)
    = Base CallJson :: CallImageProvider (JStr raw) :: rest
    /\ Forall (fun e => match e with
                        | Base CallJson | Base (CallPut _) => True
                        | CallSculptureProvider _ => True
                        | _ => False
                        end) rest
    /\ windows (rev_world_of (Revision.fetch req env ext rx w)) = windows w
    /\ ledger (rev_world_of (Revision.fetch req env ext rx w)) = ledger w.
Proof.
  intros Hm Hp Hj Hb Hlen. rewrite fetch_sculpture_route by done.
  exact (generate_sculpture_reaches_provider req (sculpture_ext rx) w
           body raw Hj Hb Hlen).
Qed.

(** The theorem for a caller without key or origin, a configured secret
    and counter store, and a denylisted prompt of 501 characters. *)
Lemma sculpture_route_admits_every_caller_witness :
  exists rest,
    rev_trace_of
      (Revision.fetch
         (RevSample.post_sculpture
            (Sample.prompt_body (JStr Sample.long_denylisted_prompt)))
         (Sample.env_limited (Some "s3cret")) Sample.ext_ok
         RevSample.rx_ok Sample.empty_world)
    = Base CallJson
      :: CallImageProvider (JStr Sample.long_denylisted_prompt) :: rest.
Proof.
  destruct (sculpture_route_admits_every_caller
              (RevSample.post_sculpture
                 (Sample.prompt_body (JStr Sample.long_denylisted_prompt)))
              (Sample.env_limited (Some "s3cret")) Sample.ext_ok
              RevSample.rx_ok Sample.empty_world
              (JObj [("prompt", JStr Sample.long_denylisted_prompt)])
              Sample.long_denylisted_prompt
              eq_refl eq_refl eq_refl eq_refl)
    as (rest & Ht & _).
  - vm_compute. discriminate.
  - by exists rest.
Defined.

(** X21.  The sculpture route ends in a response for every request, also
    when the body is not JSON, is [null], or carries a prompt of another
    type: the status is 200, 400 [invalid_prompt], or 500
    [generation_failed] with a message that is not empty; unless it is
    200 the stores are as before, and a body that is not JSON is answered
    500, not 400. *)
Theorem sculpture_route_always_answers (req : Request) (env : Env)
    (ext : Ext) (rx : RevExt) (w : World) :
  req_method req = "POST" ->
  pathname (req_url req) = "/api/generate-sculpture" ->
  exists r,
    rev_outcome_of (Revision.fetch req env ext rx w) = RevReturned r
    /\ (r_status r = 200
        \/ r = json_error 400
                 [("error", "invalid_prompt");
                  ("message", "Prompt must be at least 3 characters")]
        \/ exists m, m <> ""
             /\ r = json_error 500
                      [("error", "generation_failed"); ("message", m)])
    /\ (r_status r <> 200 -> rev_world_of (Revision.fetch req env ext rx w) = w)
    /\ (req_json req = JsonFail -> r_status r = 500).
Proof.
  intros Hm Hp. rewrite fetch_sculpture_route by done.
  assert (Hfail : forall m, exists m', m' <> ""
            /\ sculpture_failure m
               = json_error 500
                   [("error", "generation_failed"); ("message", m')]).
  { intros [[|c m]|]; eexists; (split; [| reflexivity]); done. }
  unfold generate_sculpture.
  destruct (req_json req) as [body|].
  2: { eexists. split; [reflexivity |].
       split; [right; right; apply Hfail |]. by split. }
  destruct (sculpture_prompt body) as [e|prompt].
  { eexists. split; [reflexivity |].
    split; [right; right; apply Hfail |]. by split. }
  destruct (length_below_3 (engine (sculpture_ext rx)) prompt) as [short|].
  2: { eexists. split; [reflexivity |].
       split; [right; right; apply Hfail |]. by split. }
  destruct (negb (Worker.js_truthy prompt) || short).
  { eexists. split; [reflexivity |]. split; [by right; left |]. by split. }
  destruct (negb (converts (engine (sculpture_ext rx)) prompt)).
  { eexists. split; [reflexivity |].
    split; [right; right; apply Hfail |]. by split. }
  destruct (image_reply (sculpture_ext rx)) as [m | st errorText | imageBytes].
  1, 2: eexists; (split; [reflexivity |]);
        (split; [right; right; apply Hfail |]); by split.
  destruct (sculpture_reply (sculpture_ext rx)) as [m | st errorText | glbData].
  1, 2: eexists; (split; [reflexivity |]);
        (split; [right; right; apply Hfail |]); by split.
  destruct (put_sculpture (sculpture_ext rx)) as [etag | m].
  - eexists. split; [reflexivity |]. split; [by left |].
    split; [intros H; by destruct H | discriminate].
  - eexists. split; [reflexivity |].
    split; [right; right; apply Hfail |]. by split.
Qed.

(** The theorem for a body that is not JSON. *)
Lemma sculpture_route_always_answers_witness :
  exists r,
    rev_outcome_of
      (Revision.fetch (RevSample.post_sculpture JsonFail)
         (Sample.env_open None) Sample.ext_ok RevSample.rx_ok
         Sample.empty_world)
    = RevReturned r
    /\ r_status r = 500.
Proof.
  destruct (sculpture_route_always_answers
              (RevSample.post_sculpture JsonFail) (Sample.env_open None)
              Sample.ext_ok RevSample.rx_ok Sample.empty_world
              eq_refl eq_refl)
    as (r & Hr & _ & _ & H500).
  exists r. split; [exact Hr | by apply H500].
Defined.

(** X22.  When a provider answers the sculpture route with a status that
    is not ok, the caller receives 500 [generation_failed] whatever that
    status is, with the provider's status and text in the message; after
    a refusal of the image the sculpture provider is not called, and
    nothing is stored in either case. *)
Theorem sculpture_provider_refusal_is_relayed (req : Request) (env : Env)
    (ext : Ext) (rx : RevExt) (w : World) (body : JsValue) (raw : string)
    (st : N) (errorText : string) :
  req_method req = "POST" ->
  pathname (req_url req) = "/api/generate-sculpture" ->
  req_json req = JsonOk body ->
  Worker.body_prompt body = inr (Some (JStr raw)) ->
  3 <= Worker.str_length raw ->
  (image_reply (sculpture_ext rx) = ReplyNotOk st errorText ->
   Revision.fetch req env ext rx w
   = (RevReturned
        (json_error 500
           [("error", "generation_failed");
            ("message",
             "Image generation failed: " ++ Js.string_of_N st ++ " - "
             ++ errorText)]),
      w, [Base CallJson; CallImageProvider (JStr raw)]))
  /\ (forall imageBytes,
        image_reply (sculpture_ext rx) = ReplyOk imageBytes ->
        sculpture_reply (sculpture_ext rx) = ReplyNotOk st errorText ->
        Revision.fetch req env ext rx w
        = (RevReturned
             (json_error 500
                [("error", "generation_failed");
                 ("message",
                  "3D generation failed: " ++ Js.string_of_N st ++ " - "
                  ++ errorText)]),
           w,
           [Base CallJson; CallImageProvider (JStr raw);
            CallSculptureProvider imageBytes])).
Proof.
  intros Hm Hp Hj Hb Hlen. rewrite fetch_sculpture_route by done.
  pose proof (truthy_of_length raw Hlen) as Ht.
  assert (Hs : (Worker.str_length raw <? 3) = false) by (apply N.ltb_ge; lia).
  unfold generate_sculpture, sculpture_prompt. rewrite Hj, Hb.
  cbn [Worker.or_empty Worker.js_truthy]. rewrite Ht.
  cbn [length_below_3 converts Worker.js_truthy]. rewrite Ht, Hs.
  cbn [negb orb].
  split.
  - intros ->. by rewrite sculpture_failure_provider.
  - intros imageBytes -> ->. by rewrite sculpture_failure_provider.
Qed.

(** The theorem when the image provider answers 401. *)
Lemma sculpture_provider_refusal_is_relayed_witness :
  Revision.fetch
    (RevSample.post_sculpture (Sample.prompt_body (JStr "a cat")))
    (Sample.env_open None) Sample.ext_ok RevSample.rx_refused
    Sample.empty_world
  = (RevReturned
       (json_error 500
          [("error", "generation_failed");
           ("message", "Image generation failed: 401 - unauthorized")]),
     Sample.empty_world, [Base CallJson; CallImageProvider (JStr "a cat")]).
Proof.
  refine (proj1 (sculpture_provider_refusal_is_relayed
                   (RevSample.post_sculpture
                      (Sample.prompt_body (JStr "a cat")))
                   (Sample.env_open None) Sample.ext_ok RevSample.rx_refused
                   Sample.empty_world (JObj [("prompt", JStr "a cat")])
                   "a cat" 401 "unauthorized"
                   eq_refl eq_refl eq_refl eq_refl _) eq_refl).
  vm_compute. discriminate.
Defined.

Lemma sculpture_key_under_sculptures (now : N) :
  Js.startsWith (sculpture_key now) "sculptures/" = true.
Proof. unfold sculpture_key. apply startsWith_append. Qed.

Lemma fetch_serves_sculpture (g : Request) (env : Env) (ext : Ext)
    (rx : RevExt) (w : World) (key : string) (object : R2Object) :
  req_method g = "GET" ->
  pathname (req_url g) = "/" ++ key ->
  Js.startsWith key "sculptures/" = true ->
  ART w !! key = Some object ->
  Revision.fetch g env ext rx w
  = (RevReturned
       {| r_status := 200;
          r_headers :=
            [("content-type", contentType object);
             ("access-control-allow-origin", "*");
             ("cache-control", cacheControl object);
             ("etag", httpEtag object)];
          r_body := Plain (Bytes (obj_body object)) |},
     w, [Base (CallGet key)]).
Proof.
  intros Hm Hp Hs Hobj.
  destruct (prefix_inv _ _ Hs) as [b ->].
  unfold Revision.fetch, WorkerRevision.preflight, route, route_under,
    serve_sculpture.
  rewrite Hm, Hp.
  change ("/" ++ ("sculptures/" ++ b)) with (String "/" ("sculptures/" ++ b)).
  cbn [Js.slice1]. rewrite Hobj.
  change ("sculptures/" ++ b)
    with (String "s" (String "c" (String "u" (String "l" (String "p"
          (String "t" (String "u" (String "r" (String "e" (String "s"
          (String "/" b))))))))))).
  cbn. by destruct b.
Qed.

(** A key under [art/] is not a key under [sculptures/]. *)
Lemma art_key_not_sculpture_key (key : string) (now : N) :
  Js.startsWith key "art/" = true -> key <> sculpture_key now.
Proof.
  intros Ha ->. pose proof (sculpture_key_under_sculptures now) as Hs.
  destruct (prefix_inv _ _ Hs) as [b Hb]. rewrite Hb in Ha. discriminate Ha.
Qed.

(** X23.  A sculpture round trip: after the sculpture route has answered
    200, a GET of the revision for the path of the reported key is
    answered 200 with the bytes of the model, served as
    [model/gltf-binary] and immutable; the report's [url] is that path on
    the request's origin, and no object under [art/], so neither an image
    nor [art/latest.jpg], is changed. *)
Theorem sculpture_round_trip (req : Request) (env : Env) (ext : Ext)
    (rx : RevExt) (w : World) (r : RevResponse) :
  req_method req = "POST" ->
  pathname (req_url req) = "/api/generate-sculpture" ->
  rev_outcome_of (Revision.fetch req env ext rx w) = RevReturned r ->
  r_status r = 200 ->
  exists report glbData etag,
    r_body r = Sculpture report
    /\ sculpture_reply (sculpture_ext rx) = ReplyOk glbData
    /\ s_url report = Worker.url_origin (req_url req) ++ "/" ++ s_key report
    /\ s_size report = N.of_nat (length glbData)
    /\ (forall g env' ext' rx',
          req_method g = "GET" ->
          pathname (req_url g) = "/" ++ s_key report ->
          Revision.fetch g env' ext' rx'
            (rev_world_of (Revision.fetch req env ext rx w))
          = (RevReturned
               {| r_status := 200;
                  r_headers :=
                    [("content-type", "model/gltf-binary");
                     ("access-control-allow-origin", "*");
                     ("cache-control", "public, max-age=31536000, immutable");
                     ("etag", etag)];
                  r_body := Plain (Bytes glbData) |},
             rev_world_of (Revision.fetch req env ext rx w),
             [Base (CallGet (s_key report))]))
    /\ (forall key,
          Js.startsWith key "art/" = true ->
          ART (rev_world_of (Revision.fetch req env ext rx w)) !! key
          = ART w !! key).
Proof.
  intros Hm Hp. rewrite fetch_sculpture_route by done.
  unfold generate_sculpture.
  destruct (req_json req) as [body|]; [| by intros [= <-]].
  destruct (sculpture_prompt body) as [e|prompt]; [by intros [= <-] |].
  destruct (length_below_3 _ prompt) as [short|]; [| by intros [= <-]].
  destruct (negb (Worker.js_truthy prompt) || short); [by intros [= <-] |].
  destruct (negb (converts _ prompt)); [by intros [= <-] |].
  destruct (image_reply _) as [m | st errorText | imageBytes];
    [by intros [= <-] | by intros [= <-] |].
  destruct (sculpture_reply _) as [m | st errorText | glbData];
    [by intros [= <-] | by intros [= <-] |].
  destruct (put_sculpture _) as [etag | m]; [| by intros [= <-]].
  intros [= <-] _. eexists _, glbData, etag.
  split; [reflexivity |]. split; [reflexivity |].
  split; [reflexivity |]. split; [reflexivity |].
  cbn [r_body s_key rev_world_of fst snd ART]. split.
  - intros g env' ext' rx' Hg Hpath.
    rewrite (fetch_serves_sculpture g env' ext' rx' _ _
               (mkR2Object glbData "model/gltf-binary"
                  "public, max-age=31536000, immutable" etag) Hg Hpath
               (sculpture_key_under_sculptures _)); [reflexivity |].
    cbn [ART]. apply lookup_insert_eq.
  - intros key Hkey. apply lookup_insert_ne.
    intros E. by apply (art_key_not_sculpture_key key
                          (now_key (sculpture_ext rx)) Hkey).
Qed.

(** The theorem when both provider calls and the write succeed. *)
Lemma sculpture_round_trip_witness :
  exists report,
    rev_outcome_of
      (Revision.fetch
         (RevSample.post_sculpture (Sample.prompt_body (JStr "a cat")))
         (Sample.env_open None) Sample.ext_ok RevSample.rx_ok
         Sample.empty_world)
    = RevReturned
        {| r_status := 200; r_headers := json_cors_headers;
           r_body := Sculpture report |}
    /\ s_key report = "sculptures/sculpture-2024-01-01T00-01-05-100Z.glb"
    /\ s_generationTime report = 5%Z.
Proof.
  destruct (sculpture_round_trip
              (RevSample.post_sculpture (Sample.prompt_body (JStr "a cat")))
              (Sample.env_open None) Sample.ext_ok RevSample.rx_ok
              Sample.empty_world
              {| r_status := 200; r_headers := json_cors_headers;
                 r_body :=
                   Sculpture
                     {| s_url :=
                          "https://gallery.example.dev/sculptures/sculpture-2024-01-01T00-01-05-100Z.glb";
                        s_key :=
                          "sculptures/sculpture-2024-01-01T00-01-05-100Z.glb";
                        s_prompt := JStr "a cat";
                        s_generationTime := 5;
                        s_size := 4;
                        s_note :=
                          "Generated from 2D image of prompt (image-to-3D)";
                        s_imageGeneration := 4;
                        s_sculptureGeneration := 1;
                        s_total := 5 |} |}
              eq_refl eq_refl)
    as (report & _ & _ & Hbody & _).
  - vm_compute. reflexivity.
  - reflexivity.
  - exists report. cbn [r_body] in Hbody. injection Hbody as <-.
    split; [vm_compute; reflexivity |]. by split.
Defined.

End Sculptures.

(* ================================================================== *)
(** * The revision and the worker *)
(* ================================================================== *)

(** X24.  The revision leaves the worker as it was wherever it has no
    branch of its own: a request that is not a preflight, not for one of
    the added routes and not for the document at [/] gets from the
    revision the response, the stores and the calls that the worker
    gives. *)
Theorem revision_keeps_the_other_routes (req : Request) (env : Env)
    (ext : Ext) (rx : Revision.RevExt) (w : World) :
  revised_route req = false ->
  Revision.fetch req env ext rx w
  = Revision.lift (Worker.fetch req env ext w).
Proof.
  unfold revised_route. intros H.
  repeat (apply orb_false_iff in H as [H ?]).
  unfold Revision.fetch, WorkerRevision.preflight, Worker.fetch.
  rewrite H.
  fold (Revision.route req "POST" "/api/generate").
  fold (Revision.route_under req "GET" "/art/").
  fold (Revision.route req "GET" "/health").
  fold (Revision.route req "GET" "/").
  destruct (Revision.route req "POST" "/api/generate"); [reflexivity |].
  destruct (Revision.route_under req "GET" "/art/"); [reflexivity |].
  repeat match goal with
         | E : _ = false |- _ => rewrite E; clear E
         end.
  by destruct (Revision.route req "GET" "/health").
Qed.

(** The theorem for a generation request from the bundled frontend. *)
Lemma revision_keeps_the_other_routes_witness :
  Revision.fetch (Sample.frontend_request (JStr "a cat"))
    (Sample.env_open None) Sample.ext_ok RevSample.rx_ok Sample.empty_world
  = Revision.lift
      (Worker.fetch (Sample.frontend_request (JStr "a cat"))
         (Sample.env_open None) Sample.ext_ok Sample.empty_world).
Proof.
  exact (revision_keeps_the_other_routes
           (Sample.frontend_request (JStr "a cat")) (Sample.env_open None)
           Sample.ext_ok RevSample.rx_ok Sample.empty_world eq_refl).
Defined.
